(** * A tool-augmented conversation orchestrator, embedded and verified

    The development follows the Python sources of the chatbot:

    - [src/azure_openai_client.py]: class [AzureOpenAIClient]
      (schema translation, the turn protocol, the replay window);
    - [src/mcp_client.py]: [CalculatorTools] and [MCPToolRegistry];
    - [app.py]: [process_message], the entry point of the user interface.

    Python objects are embedded as follows.  A [str] is a Rocq [string]
    holding its UTF-8 encoding; an [int] is a [Z]; a [float] is an IEEE
    binary64 datum ([spec_float]); a [dict] is an association list in
    insertion order; an exception is a value of [exn] carried by the
    [Raised] outcome.  Code that mutates [self] is written in a state and
    exception monad in which, as in Python, the state reached when an
    exception is raised survives the exception. *)

From Stdlib Require Import String Ascii List ZArith Bool Lia Arith.
From Stdlib Require Import DecimalString DecimalZ.
From Stdlib Require Import Floats.SpecFloat.
From Stdlib Require Import Sorting.Sorted Sorting.Permutation.
Import ListNotations.

Local Open Scope list_scope.
Local Open Scope string_scope.

(** ** Python strings *)

Module PyStr.

(** [s.startswith(p)] *)
Definition startswith (s p : string) : bool := String.prefix p s.

(** [sub in s] *)
Fixpoint contains (s sub : string) : bool :=
  String.prefix sub s ||
  match s with
  | EmptyString => false
  | String _ rest => contains rest sub
  end.

(** [s.replace(old, new)] for a non-empty [old]: the occurrences are
    found from the left and do not overlap.  [skip] counts the characters
    of the occurrence under replacement that are still to be dropped. *)
Fixpoint replace_from (skip : nat) (s old new : string) : string :=
  match s with
  | EmptyString => EmptyString
  | String c rest =>
      match skip with
      | S k => replace_from k rest old new
      | O =>
          if String.prefix old s
          then new ++ replace_from (String.length old - 1) rest old new
          else String c (replace_from O rest old new)
      end
  end.

(** With an empty [old], Python inserts [new] before every character and
    at the end. *)
Fixpoint intersperse (s new : string) : string :=
  match s with
  | EmptyString => new
  | String c rest => new ++ String c (intersperse rest new)
  end.

Definition replace (s old new : string) : string :=
  match old with
  | EmptyString => intersperse s new
  | String _ _ => replace_from O s old new
  end.

(** [sep.join(parts)] *)
Definition join (sep : string) (parts : list string) : string :=
  String.concat sep parts.

(** The decimal text of an integer.  It is what [str(z)] gives when the
    interpreter converts [z]; whether it does is [str], below: an [int]
    of more digits than [sys.get_int_max_str_digits()] is refused. *)
Definition of_int (z : Z) : string := NilEmpty.string_of_int (Z.to_int z).

(** The number of decimal digits of an integer. *)
Definition digits (z : Z) : nat := String.length (of_int (Z.abs z)).

(** The characters that [str.isspace] accepts, each by its UTF-8
    encoding: U+0009..U+000D, U+001C..U+0020, U+0085, U+00A0, U+1680,
    U+2000..U+200A, U+2028, U+2029, U+202F, U+205F, U+3000. *)
Definition bytes (l : list nat) : string :=
  string_of_list_ascii (map ascii_of_nat l).

Definition whitespace : list string :=
  map bytes
    [ [9]; [10]; [11]; [12]; [13]; [28]; [29]; [30]; [31]; [32];
      [194; 133]; [194; 160]; [225; 154; 128];
      [226; 128; 128]; [226; 128; 129]; [226; 128; 130]; [226; 128; 131];
      [226; 128; 132]; [226; 128; 133]; [226; 128; 134]; [226; 128; 135];
      [226; 128; 136]; [226; 128; 137]; [226; 128; 138];
      [226; 128; 168]; [226; 128; 169]; [226; 128; 175];
      [226; 129; 159]; [227; 128; 128] ].

(** The whitespace character [s] starts with, if any. *)
Definition leading_space (s : string) : option string :=
  find (fun w => String.prefix w s) whitespace.

Fixpoint drop (n : nat) (s : string) : string :=
  match n, s with
  | S k, String _ rest => drop k rest
  | _, _ => s
  end.

(** [s.lstrip()]; the fuel is the length of [s]. *)
Fixpoint lstrip_fuel (fuel : nat) (s : string) : string :=
  match fuel with
  | O => s
  | S k =>
      match leading_space s with
      | Some w => lstrip_fuel k (drop (String.length w) s)
      | None => s
      end
  end.

Definition lstrip (s : string) : string := lstrip_fuel (String.length s) s.

Definition rev (s : string) : string :=
  string_of_list_ascii (List.rev (list_ascii_of_string s)).

(** The whitespace character [s] ends with, if any. *)
Definition trailing_space (s : string) : option string :=
  find (fun w => String.prefix (rev w) (rev s)) whitespace.

Fixpoint rstrip_fuel (fuel : nat) (s : string) : string :=
  match fuel with
  | O => s
  | S k =>
      match trailing_space s with
      | Some w => rstrip_fuel k (rev (drop (String.length w) (rev s)))
      | None => s
      end
  end.

Definition rstrip (s : string) : string := rstrip_fuel (String.length s) s.

(** [s.strip()] *)
Definition strip (s : string) : string := rstrip (lstrip s).

(** The truth value of a [str]. *)
Definition truthy (s : string) : bool :=
  match s with EmptyString => false | String _ _ => true end.

End PyStr.

(** ** Python values, exceptions and outcomes *)

(** The values that [json.loads] produces and the tools receive. *)
#[warnings="-register-all"]
Inductive value : Type :=
| VNone
| VBool (b : bool)
| VInt (z : Z)
| VFloat (f : spec_float)
| VStr (s : string)
| VList (items : list value)
| VDict (items : list (string * value)).

(** [type(v).__name__] *)
Definition type_name (v : value) : string :=
  match v with
  | VNone => "NoneType"
  | VBool _ => "bool"
  | VInt _ => "int"
  | VFloat _ => "float"
  | VStr _ => "str"
  | VList _ => "list"
  | VDict _ => "dict"
  end.

(** Why the interpreter refused a call of [callee]: the arguments do not
    fit its signature, or what follows [**] or [*] in the call cannot be
    unpacked. *)
Inductive type_error : Type :=
| BadSignature (callee : string) (args : list value) (kwargs : list (string * value))
| NotAMapping (callee : string) (v : value)
| NotIterable (callee : string) (v : value).

(** Why the interpreter refused to convert between an [int] and its
    decimal text: the integer, or the text of that many digits, is beyond
    the limit on the digits of such conversions. *)
Inductive value_error : Type :=
| IntToStrLimit
| StrToIntLimit (digits : nat).

(** Exceptions, all of them subclasses of [Exception].  [Failure] stands
    for any exception raised outside this program's own code (by the
    client library of the backend, by the standard output, or by the body
    of a tool), with its class name and the text [str(e)] gives. *)
Inductive exn : Type :=
| JSONDecodeError (doc : string)
| AttributeError (receiver : value) (attr : string)
| TypeError (cause : type_error)
| ValueError (cause : value_error)
| RecursionError (during : string)
| IndexError (msg : string)
| Failure (cls msg : string).

(** What evaluating a Python expression or call gives. *)
Inductive outcome (A : Type) : Type :=
| Returned (a : A)
| Raised (e : exn).
Arguments Returned {A} a.
Arguments Raised {A} e.

Definition obind {A B} (o : outcome A) (k : A -> outcome B) : outcome B :=
  match o with
  | Returned a => k a
  | Raised e => Raised e
  end.

Declare Scope outcome_scope.
Delimit Scope outcome_scope with outcome.
Notation "x <- o ;; k" := (obind o (fun x => k))
  (at level 61, o at next level, right associativity) : outcome_scope.

(** *** Dictionaries

    A [dict] keeps its keys in insertion order; assigning to a key that
    is present keeps the key's position. *)
Module Dict.
Section Dict.
Context {V : Type}.

Fixpoint get (d : list (string * V)) (k : string) : option V :=
  match d with
  | [] => None
  | (k', v) :: rest => if String.eqb k' k then Some v else get rest k
  end.

Fixpoint set (d : list (string * V)) (k : string) (v : V) : list (string * V) :=
  match d with
  | [] => [(k, v)]
  | (k', v') :: rest =>
      if String.eqb k' k then (k', v) :: rest else (k', v') :: set rest k v
  end.

Definition keys (d : list (string * V)) : list string := map fst d.
End Dict.
End Dict.

(** *** The interpreter's part

    The text conversions and the arithmetic of [float], the wording of
    the interpreter's errors, its limits (on the digits of an [int] that
    is converted from or to a text, on the depth of recursion), what the
    standard output accepts, and what the tool bodies do on arguments
    outside their annotated types belong to the Python runtime, not to
    this program.  They are parameters of the development: every result
    holds for all of them. *)
Inductive binop : Type := Add | Sub | Mul | TrueDiv.

Record runtime : Type := {
  (** [float(s)] on the text of a JSON number with a fraction or an exponent *)
  float_of_literal : string -> spec_float;
  (** [str(e)] for a [json.JSONDecodeError] raised on a document *)
  json_error_text : string -> string;
  (** [str(e)] for a [TypeError] raised on a call *)
  type_error_text : type_error -> string;
  (** [str(e)] for the [ValueError] of a conversion beyond the digit limit *)
  value_error_text : value_error -> string;
  (** [sys.get_int_max_str_digits()]: 0 when conversions are not limited
      (as in an interpreter without the limit), 4300 unless configured;
      the interpreter accepts no limit under 640 *)
  int_max_str_digits : nat;
  int_max_str_digits_valid :
    ((int_max_str_digits =? 0) || (640 <=? int_max_str_digits))%nat = true;
  (** how many arrays and objects, one inside the other, the decoder can
      enter where [json.loads] is called before the interpreter's
      recursion limit is reached *)
  json_max_depth : nat;
  (** [str(v)] for a [float], a [list] or a [dict] *)
  str_other : value -> outcome string;
  (** what [print(line)] raises, if anything: the standard output, taken
      to be open, refuses a text that it cannot encode (a surrogate
      without its pair, for one) *)
  print_error : string -> option exn;
  (** [x + y], [x - y] and [x * y] unless both are [int]; [x / y] *)
  arith_other : binop -> value -> value -> outcome value;
  (** [round(x, n)] *)
  round_to : value -> value -> outcome value;
  (** the body of [CalculatorTools.factorial] on an argument that is not an [int] *)
  factorial_other : value -> outcome string
}.

(** [str(e)] *)
Definition str_exn (rt : runtime) (e : exn) : string :=
  match e with
  | JSONDecodeError doc => json_error_text rt doc
  | AttributeError receiver attr =>
      "'" ++ type_name receiver ++ "' object has no attribute '" ++ attr ++ "'"
  | TypeError cause => type_error_text rt cause
  | ValueError cause => value_error_text rt cause
  | RecursionError during => "maximum recursion depth exceeded" ++ during
  | IndexError msg => msg
  | Failure _ msg => msg
  end.

(** Whether a conversion between an [int] and a decimal text of [digits]
    digits is within the limit. *)
Definition within_digit_limit (rt : runtime) (digits : nat) : bool :=
  ((int_max_str_digits rt =? 0) || (digits <=? int_max_str_digits rt))%nat.

(** [str(v)], which is also what the f-string field [{v}] gives. *)
Definition str (rt : runtime) (v : value) : outcome string :=
  match v with
  | VNone => Returned "None"
  | VBool true => Returned "True"
  | VBool false => Returned "False"
  | VInt z =>
      if within_digit_limit rt (PyStr.digits z) then Returned (PyStr.of_int z)
      else Raised (ValueError IntToStrLimit)
  | VStr s => Returned s
  | _ => str_other rt v
  end.

(** [map(str, values)], consumed from the left. *)
Fixpoint strs (rt : runtime) (values : list value) : outcome (list string) :=
  match values with
  | [] => Returned []
  | v :: rest =>
      (shown <- str rt v ;; more <- strs rt rest ;; Returned (shown :: more))%outcome
  end.

(** [print(line)] *)
Definition print (rt : runtime) (line : string) : outcome unit :=
  match print_error rt line with
  | Some e => Raised e
  | None => Returned tt
  end.

(** [v == 0] *)
Definition eq_zero (v : value) : bool :=
  match v with
  | VInt z => Z.eqb z 0
  | VBool b => negb b
  | VFloat (S754_zero _) => true
  | _ => false
  end.

(** [x + y], [x - y], [x * y], [x / y] *)
Definition arith (rt : runtime) (op : binop) (x y : value) : outcome value :=
  match op, x, y with
  | Add, VInt a, VInt b => Returned (VInt (a + b))
  | Sub, VInt a, VInt b => Returned (VInt (a - b))
  | Mul, VInt a, VInt b => Returned (VInt (a * b))
  | _, _, _ => arith_other rt op x y
  end.

(** ** [json.loads]

    A decoder for the documents the standard [json] module accepts: RFC
    8259 plus the literals [NaN], [Infinity] and [-Infinity].  A number
    with neither fraction nor exponent becomes an [int], any other a
    [float]; an object becomes a [dict] in which a repeated key keeps its
    last value; control characters inside a string are refused.  The
    decoder raises [json.JSONDecodeError] on a document outside that
    grammar, [ValueError] on an integer of more digits than the limit on
    conversions, and [RecursionError] on an array or object nested deeper
    than the interpreter's stack allows: whichever it meets first, from
    the left. *)
Module Json.

Definition quote : ascii := ascii_of_nat 34.
Definition backslash : ascii := ascii_of_nat 92.

Definition is_ws (c : ascii) : bool :=
  let n := nat_of_ascii c in
  ((n =? 32) || (n =? 9) || (n =? 10) || (n =? 13))%nat.

Fixpoint skip_ws (s : string) : string :=
  match s with
  | String c rest => if is_ws c then skip_ws rest else s
  | EmptyString => s
  end.

Definition is_digit (c : ascii) : bool :=
  let n := nat_of_ascii c in ((48 <=? n) && (n <=? 57))%nat.

(** The longest prefix of digits, and what follows it. *)
Fixpoint span_digits (s : string) : string * string :=
  match s with
  | String c rest =>
      if is_digit c
      then let '(ds, tl) := span_digits rest in (String c ds, tl)
      else (EmptyString, s)
  | EmptyString => (EmptyString, EmptyString)
  end.

Definition digit_value (c : ascii) : Z := Z.of_nat (nat_of_ascii c) - 48.

Fixpoint digits_value (acc : Z) (s : string) : Z :=
  match s with
  | String c rest => digits_value (10 * acc + digit_value c) rest
  | EmptyString => acc
  end.

Definition hex_value (c : ascii) : option N :=
  let n := N.of_nat (nat_of_ascii c) in
  if ((48 <=? n) && (n <=? 57))%N then Some (n - 48)%N
  else if ((65 <=? n) && (n <=? 70))%N then Some (n - 55)%N
  else if ((97 <=? n) && (n <=? 102))%N then Some (n - 87)%N
  else None.

(** The four hexadecimal digits of a [\uXXXX] escape. *)
Definition hex4 (s : string) : option (N * string) :=
  match s with
  | String a (String b (String c (String d rest))) =>
      match hex_value a, hex_value b, hex_value c, hex_value d with
      | Some x, Some y, Some z, Some w =>
          Some ((((x * 16 + y) * 16 + z) * 16 + w)%N, rest)
      | _, _, _, _ => None
      end
  | _ => None
  end.

Definition byte (n : N) : ascii := ascii_of_N n.

(** The UTF-8 encoding of a code point (an unpaired surrogate is encoded
    like any other code point of its range). *)
Definition utf8 (cp : N) : string :=
  (if cp <? 128 then String (byte cp) EmptyString
   else if cp <? 2048 then
     String (byte (192 + cp / 64)) (String (byte (128 + cp mod 64)) EmptyString)
   else if cp <? 65536 then
     String (byte (224 + cp / 4096))
       (String (byte (128 + (cp / 64) mod 64))
          (String (byte (128 + cp mod 64)) EmptyString))
   else
     String (byte (240 + cp / 262144))
       (String (byte (128 + (cp / 4096) mod 64))
          (String (byte (128 + (cp / 64) mod 64))
             (String (byte (128 + cp mod 64)) EmptyString))))%N.

Definition simple_escape (c : ascii) : option ascii :=
  let n := nat_of_ascii c in
  (if n =? 34 then Some quote
  else if n =? 92 then Some backslash
  else if n =? 47 then Some "/"%char
  else if n =? 98 then Some (ascii_of_nat 8)
  else if n =? 102 then Some (ascii_of_nat 12)
  else if n =? 110 then Some (ascii_of_nat 10)
  else if n =? 114 then Some (ascii_of_nat 13)
  else if n =? 116 then Some (ascii_of_nat 9)
  else None)%nat.

(** A [\uXXXX] escape, after its [\u]; a high surrogate followed by the
    escape of a low surrogate makes one code point with it. *)
Definition unicode_escape (s : string) : option (N * string) :=
  match hex4 s with
  | None => None
  | Some (u, rest) =>
      if ((55296 <=? u) && (u <=? 56319))%N then
        match rest with
        | String b (String c rest2) =>
            if Ascii.eqb b backslash && Ascii.eqb c "u"%char then
              match hex4 rest2 with
              | None => None
              | Some (u2, rest3) =>
                  if ((56320 <=? u2) && (u2 <=? 57343))%N
                  then Some ((65536 + (u - 55296) * 1024 + (u2 - 56320))%N, rest3)
                  else Some (u, rest)
              end
            else Some (u, rest)
        | _ => Some (u, rest)
        end
      else Some (u, rest)
  end.

(** The body of a string, after its opening quote: the decoded text and
    what follows the closing quote. *)
Fixpoint scanstring (fuel : nat) (s : string) : option (string * string) :=
  match fuel with
  | O => None
  | S n =>
      match s with
      | EmptyString => None
      | String c rest =>
          if Ascii.eqb c quote then Some (EmptyString, rest)
          else if Ascii.eqb c backslash then
            match rest with
            | EmptyString => None
            | String e rest' =>
                if Ascii.eqb e "u"%char then
                  match unicode_escape rest' with
                  | None => None
                  | Some (cp, rest'') =>
                      match scanstring n rest'' with
                      | None => None
                      | Some (txt, tl) => Some (utf8 cp ++ txt, tl)
                      end
                  end
                else
                  match simple_escape e with
                  | None => None
                  | Some ch =>
                      match scanstring n rest' with
                      | None => None
                      | Some (txt, tl) => Some (String ch txt, tl)
                      end
                  end
            end
          else if (nat_of_ascii c <? 32)%nat then None
          else
            match scanstring n rest with
            | None => None
            | Some (txt, tl) => Some (String c txt, tl)
            end
      end
  end.

Section Decoder.
Variable rt : runtime.
(** The document, which a [JSONDecodeError] carries. *)
Variable doc : string.

Definition malformed {A} : outcome A := Raised (JSONDecodeError doc).

(** A number, from its first digit on ([neg] tells whether a minus sign
    came before it). *)
Definition match_number (neg : bool) (s : string) : outcome (value * string) :=
  let sign := if neg then "-" else "" in
  let integer :=
    match s with
    | String c rest =>
        if Ascii.eqb c "0"%char then Some ("0", rest)
        else if is_digit c then Some (span_digits s)
        else None
    | EmptyString => None
    end in
  match integer with
  | None => malformed
  | Some (ip, after_int) =>
      let '(frac, after_frac) :=
        match after_int with
        | String dot rest =>
            if Ascii.eqb dot "."%char then
              match span_digits rest with
              | (EmptyString, _) => (EmptyString, after_int)
              | (ds, tl) => (String dot ds, tl)
              end
            else (EmptyString, after_int)
        | EmptyString => (EmptyString, after_int)
        end in
      let '(expo, after_exp) :=
        match after_frac with
        | String e rest =>
            if Ascii.eqb e "e"%char || Ascii.eqb e "E"%char then
              let '(sg, rest1) :=
                match rest with
                | String c rest' =>
                    if Ascii.eqb c "-"%char || Ascii.eqb c "+"%char
                    then (String c EmptyString, rest')
                    else (EmptyString, rest)
                | EmptyString => (EmptyString, rest)
                end in
              match span_digits rest1 with
              | (EmptyString, _) => (EmptyString, after_frac)
              | (ds, tl) => (String e (sg ++ ds), tl)
              end
            else (EmptyString, after_frac)
        | EmptyString => (EmptyString, after_frac)
        end in
      match frac, expo with
      | EmptyString, EmptyString =>
          if within_digit_limit rt (String.length ip) then
            let z := digits_value 0 ip in
            Returned (VInt (if neg then - z else z), after_exp)
          else Raised (ValueError (StrToIntLimit (String.length ip)))
      | _, _ =>
          Returned (VFloat (float_of_literal rt (sign ++ ip ++ frac ++ expo)), after_exp)
      end
  end.

Definition literal (word : string) (v : value) (s : string) : outcome (value * string) :=
  if String.prefix word s then Returned (v, PyStr.drop (String.length word) s)
  else malformed.

(** One value starting at the first character of [s], then the elements
    of an array after its bracket or a comma, then the members of an
    object after its brace or a comma.  [depth] is the number of arrays
    and objects that can still be entered. *)
Fixpoint scan_once (fuel depth : nat) (s : string) {struct fuel}
  : outcome (value * string) :=
  match fuel with
  | O => malformed
  | S n =>
      match s with
      | EmptyString => malformed
      | String c rest =>
          if Ascii.eqb c quote then
            match scanstring (String.length s) rest with
            | Some (txt, tl) => Returned (VStr txt, tl)
            | None => malformed
            end
          else if Ascii.eqb c "{"%char then
            match depth with
            | O => Raised (RecursionError
                             " while decoding a JSON object from a unicode string")
            | S deeper =>
                match skip_ws rest with
                | String c' rest' =>
                    if Ascii.eqb c' "}"%char then Returned (VDict [], rest')
                    else parse_members n deeper (skip_ws rest) []
                | EmptyString => malformed
                end
            end
          else if Ascii.eqb c "["%char then
            match depth with
            | O => Raised (RecursionError
                             " while decoding a JSON array from a unicode string")
            | S deeper =>
                match skip_ws rest with
                | String c' rest' =>
                    if Ascii.eqb c' "]"%char then Returned (VList [], rest')
                    else parse_elements n deeper (skip_ws rest) []
                | EmptyString => malformed
                end
            end
          else if String.prefix "null" s then literal "null" VNone s
          else if String.prefix "true" s then literal "true" (VBool true) s
          else if String.prefix "false" s then literal "false" (VBool false) s
          else if String.prefix "NaN" s then literal "NaN" (VFloat S754_nan) s
          else if String.prefix "Infinity" s
          then literal "Infinity" (VFloat (S754_infinity false)) s
          else if String.prefix "-Infinity" s
          then literal "-Infinity" (VFloat (S754_infinity true)) s
          else if Ascii.eqb c "-"%char then match_number true rest
          else match_number false s
      end
  end
with parse_elements (fuel depth : nat) (s : string) (acc : list value) {struct fuel}
  : outcome (value * string) :=
  match fuel with
  | O => malformed
  | S n =>
      match scan_once n depth s with
      | Raised e => Raised e
      | Returned (v, tl) =>
          match skip_ws tl with
          | String c rest =>
              if Ascii.eqb c "]"%char then Returned (VList (acc ++ [v])%list, rest)
              else if Ascii.eqb c ","%char
              then parse_elements n depth (skip_ws rest) (acc ++ [v])%list
              else malformed
          | EmptyString => malformed
          end
      end
  end
with parse_members (fuel depth : nat) (s : string) (acc : list (string * value))
    {struct fuel} : outcome (value * string) :=
  match fuel with
  | O => malformed
  | S n =>
      match s with
      | String q rest =>
          if Ascii.eqb q quote then
            match scanstring (String.length s) rest with
            | None => malformed
            | Some (key, tl) =>
                match skip_ws tl with
                | String colon tl' =>
                    if Ascii.eqb colon ":"%char then
                      match scan_once n depth (skip_ws tl') with
                      | Raised e => Raised e
                      | Returned (v, tl'') =>
                          match skip_ws tl'' with
                          | String c rest' =>
                              if Ascii.eqb c "}"%char
                              then Returned (VDict (Dict.set acc key v), rest')
                              else if Ascii.eqb c ","%char
                              then parse_members n depth (skip_ws rest') (Dict.set acc key v)
                              else malformed
                          | EmptyString => malformed
                          end
                      end
                    else malformed
                | EmptyString => malformed
                end
            end
          else malformed
      | EmptyString => malformed
      end
  end.

(** [json.loads(doc)] *)
Definition loads : outcome value :=
  match scan_once (2 * String.length doc + 2) (json_max_depth rt) (skip_ws doc) with
  | Returned (v, tl) =>
      match skip_ws tl with
      | EmptyString => Returned v
      | String _ _ => malformed
      end
  | Raised e => Raised e
  end.

End Decoder.
End Json.

(** ** Calling a Python function *)

(** A callable object: the qualified name under which the interpreter
    reports it, and its call on positional and keyword arguments, which
    returns a text or raises. *)
Record callable : Type := {
  qualname : string;
  call :> list value -> list (string * value) -> outcome string
}.

(** The line feed. *)
Definition nl : string := String (ascii_of_nat 10) EmptyString.

Module Call.

(** A byte that continues a UTF-8 sequence. *)
Definition is_continuation (c : ascii) : bool :=
  let n := nat_of_ascii c in ((128 <=? n) && (n <? 192))%nat.

(** The characters of a [str], one after the other. *)
Fixpoint chars (s : string) : list string :=
  match s with
  | EmptyString => []
  | String c rest =>
      match chars rest with
      | [] => [String c EmptyString]
      | ch :: more =>
          match rest with
          | String c' _ =>
              if is_continuation c' then String c ch :: more
              else String c EmptyString :: ch :: more
          | EmptyString => [String c EmptyString]
          end
      end
  end.

(** The items of [*v] in a call of [callee]. *)
Definition star (callee : string) (v : value) : outcome (list value) :=
  match v with
  | VList items => Returned items
  | VStr s => Returned (map VStr (chars s))
  | VDict items => Returned (map VStr (Dict.keys items))
  | _ => Raised (TypeError (NotIterable callee v))
  end.

(** The items of [**v] in a call of [callee]. *)
Definition starstar (callee : string) (v : value) : outcome (list (string * value)) :=
  match v with
  | VDict items => Returned items
  | _ => Raised (TypeError (NotAMapping callee v))
  end.

(** The parameters of a [def] without [*args] or [**kwargs]: names and
    default values. *)
Definition signature : Type := list (string * option value).

Fixpoint fill (callee : string) (sig : signature)
    (args : list value) (kwargs : list (string * value))
    (all_args : list value) : outcome (list value) :=
  match sig with
  | [] =>
      match args with
      | [] => Returned []
      | _ :: _ => Raised (TypeError (BadSignature callee all_args kwargs))
      end
  | (name, default) :: sig' =>
      match args with
      | a :: args' =>
          match Dict.get kwargs name with
          | Some _ => Raised (TypeError (BadSignature callee all_args kwargs))
          | None =>
              (rest <- fill callee sig' args' kwargs all_args ;;
               Returned (a :: rest))%outcome
          end
      | [] =>
          match Dict.get kwargs name, default with
          | Some v, _ | None, Some v =>
              (rest <- fill callee sig' [] kwargs all_args ;;
               Returned (v :: rest))%outcome
          | None, None => Raised (TypeError (BadSignature callee all_args kwargs))
          end
      end
  end.

(** The values of the parameters, in the order of the signature, or the
    [TypeError] of a call that does not fit it: an unknown keyword, an
    argument given twice, too many positional arguments, or a parameter
    without value. *)
Definition bind (callee : string) (sig : signature)
    (args : list value) (kwargs : list (string * value)) : outcome (list value) :=
  if forallb (fun k => existsb (String.eqb k) (map fst sig)) (Dict.keys kwargs)
  then fill callee sig args kwargs args
  else Raised (TypeError (BadSignature callee args kwargs)).

End Call.

(** ** [src/mcp_client.py]: the calculator tools *)

Module CalculatorTools.

(** [range(a, b)] *)
Definition range (a b : Z) : list Z :=
  map (fun i => (a + Z.of_nat i)%Z) (seq 0 (Z.to_nat (b - a))).

(** [math.factorial(n)] for [n >= 0]: the product of 1, ..., n *)
Definition math_factorial (n : Z) : Z := fold_left Z.mul (range 1 (n + 1)) 1%Z.

(** [def factorial(n: int) -> str].  The integers it formats are at
    most 20 and 20!: far below 640 digits, so their conversion is never
    refused and gives their decimal text. *)
Definition factorial (n : Z) : string :=
  if (n <? 0)%Z then "Error: Factorial undefined for negative numbers"
  else if (n >? 20)%Z then "Error: Factorial limited to n ≤ 20"
  else
    let result := math_factorial n in
    let calc :=
      if (n <=? 5)%Z then
        let steps :=
          if (n >? 0)%Z
          then PyStr.join " × " (map PyStr.of_int (range 1 (n + 1)))
          else "1" in
        PyStr.of_int n ++ "! = " ++ steps ++ " = " ++ PyStr.of_int result
      else PyStr.of_int n ++ "! = " ++ PyStr.of_int result in
    "Result: " ++ PyStr.of_int result ++ nl ++ "Calculation: " ++ calc.

Section WithRuntime.
Variable rt : runtime.

(** [sum(numbers)]: the additions start from the integer 0. *)
Fixpoint sum_from (acc : value) (numbers : list value) : outcome value :=
  match numbers with
  | [] => Returned acc
  | x :: rest => (acc' <- arith rt Add acc x ;; sum_from acc' rest)%outcome
  end.

Definition sum (numbers : list value) : outcome value :=
  sum_from (VInt 0) numbers.

(** [def add( *numbers: float) -> str] *)
Definition add (numbers : list value) : outcome string :=
  (result <- sum numbers ;;
   shown <- str rt result ;;
   terms <- strs rt numbers ;;
   Returned ("Result: " ++ shown ++ nl ++ "Calculation: "
             ++ PyStr.join " + " terms ++ " = " ++ shown))%outcome.

(** [def subtract(a: float, b: float) -> str] *)
Definition subtract (a b : value) : outcome string :=
  (result <- arith rt Sub a b ;;
   shown <- str rt result ;;
   shown_a <- str rt a ;;
   shown_b <- str rt b ;;
   Returned ("Result: " ++ shown ++ nl ++ "Calculation: "
             ++ shown_a ++ " - " ++ shown_b ++ " = " ++ shown))%outcome.

(** The loop [for num in numbers: result *= num]. *)
Fixpoint product_from (result : value) (numbers : list value) : outcome value :=
  match numbers with
  | [] => Returned result
  | num :: rest =>
      (result' <- arith rt Mul result num ;; product_from result' rest)%outcome
  end.

(** [def multiply( *numbers: float) -> str] *)
Definition multiply (numbers : list value) : outcome string :=
  (result <- product_from (VInt 1) numbers ;;
   shown <- str rt result ;;
   factors <- strs rt numbers ;;
   Returned ("Result: " ++ shown ++ nl ++ "Calculation: "
             ++ PyStr.join " × " factors ++ " = " ++ shown))%outcome.

(** [def divide(a: float, b: float, precision: int = 2) -> str] *)
Definition divide (a b precision : value) : outcome string :=
  if eq_zero b then Returned "Error: Division by zero"
  else
    (quotient <- arith rt TrueDiv a b ;;
     result <- round_to rt quotient precision ;;
     shown <- str rt result ;;
     shown_a <- str rt a ;;
     shown_b <- str rt b ;;
     Returned ("Result: " ++ shown ++ nl ++ "Calculation: "
               ++ shown_a ++ " ÷ " ++ shown_b ++ " = " ++ shown))%outcome.

(** The tools as the callables the registry stores: the static methods,
    reached through an instance of the class. *)
Definition add_callable : callable :=
  {| qualname := "CalculatorTools.add";
     call := fun args kwargs =>
       match kwargs with
       | [] => add args
       | _ :: _ => Raised (TypeError (BadSignature "CalculatorTools.add" args kwargs))
       end |}.

Definition multiply_callable : callable :=
  {| qualname := "CalculatorTools.multiply";
     call := fun args kwargs =>
       match kwargs with
       | [] => multiply args
       | _ :: _ => Raised (TypeError (BadSignature "CalculatorTools.multiply" args kwargs))
       end |}.

Definition subtract_callable : callable :=
  {| qualname := "CalculatorTools.subtract";
     call := fun args kwargs =>
       (bound <- Call.bind "CalculatorTools.subtract"
                   [("a", None); ("b", None)] args kwargs ;;
        match bound with
        | [a; b] => subtract a b
        | _ => Raised (TypeError (BadSignature "CalculatorTools.subtract" args kwargs))
        end)%outcome |}.

Definition divide_callable : callable :=
  {| qualname := "CalculatorTools.divide";
     call := fun args kwargs =>
       (bound <- Call.bind "CalculatorTools.divide"
                   [("a", None); ("b", None); ("precision", Some (VInt 2))] args kwargs ;;
        match bound with
        | [a; b; precision] => divide a b precision
        | _ => Raised (TypeError (BadSignature "CalculatorTools.divide" args kwargs))
        end)%outcome |}.

Definition factorial_callable : callable :=
  {| qualname := "CalculatorTools.factorial";
     call := fun args kwargs =>
       (bound <- Call.bind "CalculatorTools.factorial" [("n", None)] args kwargs ;;
        match bound with
        | [VInt n] => Returned (factorial n)
        | [v] => factorial_other rt v
        | _ => Raised (TypeError (BadSignature "CalculatorTools.factorial" args kwargs))
        end)%outcome |}.

End WithRuntime.
End CalculatorTools.

(** ** [src/mcp_client.py]: the registry *)

(** An entry of the registry: [{"function": ..., "description": ...,
    "parameters": [...]}]. *)
Record tool_info : Type := {
  function : callable;
  description : string;
  parameters : list string
}.

(** The tools whose bodies read the file system or format floating-point
    numbers; the registry stores them like the others. *)
Record external_tools : Type := {
  list_files : callable;
  read_file : callable;
  search_content : callable;
  convert_temperature : callable;
  convert_distance : callable
}.

Module MCPToolRegistry.

(** The registry object: its dictionary [available_tools]. *)
Record t : Type := { available_tools : list (string * tool_info) }.

Section Registry.
Variable rt : runtime.
Variable ext : external_tools.

Definition _register_tools : list (string * tool_info) :=
  [ ("list_files",
      {| function := list_files ext;
         description := "List files in the test directory";
         parameters := ["pattern (optional)"] |});
    ("read_file",
      {| function := read_file ext;
         description := "Read contents of a file";
         parameters := ["filename"] |});
    ("search_files",
      {| function := search_content ext;
         description := "Search for text in files";
         parameters := ["query"] |});
    ("add",
      {| function := CalculatorTools.add_callable rt;
         description := "Add numbers";
         parameters := ["*numbers"] |});
    ("subtract",
      {| function := CalculatorTools.subtract_callable rt;
         description := "Subtract two numbers";
         parameters := ["a"; "b"] |});
    ("multiply",
      {| function := CalculatorTools.multiply_callable rt;
         description := "Multiply numbers";
         parameters := ["*numbers"] |});
    ("divide",
      {| function := CalculatorTools.divide_callable rt;
         description := "Divide two numbers";
         parameters := ["a"; "b"; "precision (optional)"] |});
    ("factorial",
      {| function := CalculatorTools.factorial_callable rt;
         description := "Calculate factorial";
         parameters := ["n"] |});
    ("convert_temperature",
      {| function := convert_temperature ext;
         description := "Convert temperature (C, F, K)";
         parameters := ["value"; "from_unit"; "to_unit"] |});
    ("convert_distance",
      {| function := convert_distance ext;
         description := "Convert distance (m, ft, mi, km)";
         parameters := ["value"; "from_unit"; "to_unit"] |}) ].

(** [MCPToolRegistry(...)] *)
Definition init : t := {| available_tools := _register_tools |}.

End Registry.

(** [def get_tool(self, tool_name)] *)
Definition get_tool (self : t) (tool_name : string) : option tool_info :=
  Dict.get (available_tools self) tool_name.

(** [def get_all_tools(self)] *)
Definition get_all_tools (self : t) : list (string * tool_info) :=
  available_tools self.

End MCPToolRegistry.

(** ** The backend's data *)

(** What the client library returns from
    [client.chat.completions.create]: [response.choices[i].message], with
    its [content] and its [tool_calls] (each [tc.id], [tc.function.name],
    [tc.function.arguments]). *)
Module Response.

Record function_call : Type := { name : string; arguments : string }.

Record tool_call : Type := { id : string; function : function_call }.

Record message : Type := {
  content : option string;
  tool_calls : option (list tool_call)
}.

Record choice : Type := { message_of : message }.

Record completion : Type := { choices : list choice }.

End Response.

(** The entries of [conversation_history] and of the list [messages]
    sent to the backend: dictionaries with the keys ["role"] and
    ["content"] and, for some, ["tool_calls"], or ["tool_call_id"] and
    ["name"].  An absent key is [None]; so is a [content] that is Python's
    [None]. *)
Module Turn.

(** [{"id": ..., "type": "function", "function": {"name": ..., "arguments": ...}}] *)
Record call : Type := {
  id : string;
  type : string;
  function : Response.function_call
}.

Record t : Type := {
  role : string;
  content : option string;
  tool_calls : option (list call);
  tool_call_id : option string;
  name : option string
}.

(** [{"role": role, "content": content}] *)
Definition plain (role : string) (content : option string) : t :=
  {| role := role; content := content;
     tool_calls := None; tool_call_id := None; name := None |}.

(** [{"role": "assistant", "content": content, "tool_calls": calls}] *)
Definition requesting (content : option string) (calls : list call) : t :=
  {| role := "assistant"; content := content;
     tool_calls := Some calls; tool_call_id := None; name := None |}.

(** [{"tool_call_id": id, "role": "tool", "name": name, "content": content}] *)
Definition result (id name content : string) : t :=
  {| role := "tool"; content := Some content;
     tool_calls := None; tool_call_id := Some id; name := Some name |}.

End Turn.

(** The function definitions offered to the backend. *)
Record property : Type := {
  prop_type : string;
  prop_description : string
}.

Record parameters_schema : Type := {
  schema_type : string;
  properties : list (string * property);
  required : list string
}.

Record function_definition : Type := {
  fn_name : string;
  fn_description : string;
  fn_parameters : parameters_schema
}.

(** [{"type": "function", "function": func}] *)
Record tool_schema : Type := {
  tool_type : string;
  tool_function : function_definition
}.

(** The arguments of one call of [client.chat.completions.create]. *)
Record request : Type := {
  model : string;
  messages : list Turn.t;
  temperature : spec_float;
  max_tokens : Z;
  tools : option (list tool_schema);
  tool_choice : option string
}.

(** The backend is outside the program: it answers a request, given the
    requests it received before, with a completion or with an exception
    of the client library (network, authentication, rate limit). *)
Definition backend : Type :=
  list request -> request -> outcome Response.completion.

(** ** The state and the monad *)

(** The attributes of an [AzureOpenAIClient] that its methods read and
    write. *)
Record client : Type := {
  deployment : string;
  conversation_history : list Turn.t;
  max_history : Z
}.

(** The client object, and the requests the backend has received. *)
Record world : Type := {
  self : client;
  sent : list request
}.

Definition M (A : Type) : Type := world -> outcome A * world.

Definition ret {A} (a : A) : M A := fun w => (Returned a, w).

Definition bind {A B} (m : M A) (k : A -> M B) : M B := fun w =>
  match m w with
  | (Returned a, w') => k a w'
  | (Raised e, w') => (Raised e, w')
  end.

(** [try: body / except Exception as e: handler(e)] *)
Definition try_except {A} (body : M A) (handler : exn -> M A) : M A := fun w =>
  match body w with
  | (Returned a, w') => (Returned a, w')
  | (Raised e, w') => handler e w'
  end.

Definition lift {A} (o : outcome A) : M A := fun w => (o, w).

Declare Scope monad_scope.
Delimit Scope monad_scope with monad.
Notation "x <- m ;; k" := (bind m (fun x => k))
  (at level 61, m at next level, right associativity) : monad_scope.
Notation "m ;;; k" := (bind m (fun _ => k))
  (at level 61, right associativity) : monad_scope.

(** The world after [self.conversation_history.extend(turns)]. *)
Definition push (w : world) (turns : list Turn.t) : world :=
  {| self := {| deployment := deployment (self w);
                conversation_history := (conversation_history (self w) ++ turns)%list;
                max_history := max_history (self w) |};
     sent := sent w |}.

(** The world after the backend has received [rq]. *)
Definition received (w : world) (rq : request) : world :=
  {| self := self w; sent := (sent w ++ [rq])%list |}.

(** [self.conversation_history.append(turn)] *)
Definition append_turn (turn : Turn.t) : M unit := fun w =>
  (Returned tt, push w [turn]).

(** [self.conversation_history.extend(turns)] *)
Definition extend_turns (turns : list Turn.t) : M unit := fun w =>
  (Returned tt, push w turns).

(** [lst[i:]] for a Python list and any integer [i]. *)
Definition slice_from {A} (l : list A) (i : Z) : list A :=
  let len := Z.of_nat (length l) in
  let start := if (i <? 0)%Z then Z.max (len + i) 0 else Z.min i len in
  skipn (Z.to_nat start) l.

(** [lst[0]] *)
Definition first {A} (l : list A) : outcome A :=
  match l with
  | x :: _ => Returned x
  | [] => Raised (IndexError "list index out of range")
  end.

(** ** [src/azure_openai_client.py]: the orchestrator *)

Module AzureOpenAIClient.

(** *** The schema translator *)

(** The names whose parameters are given the type ["number"]. *)
Definition numeric_names : list string := ["a"; "b"; "value"; "n"; "precision"].

(** [x in names] *)
Definition mem (x : string) (names : list string) : bool :=
  existsb (String.eqb x) names.

(** [param.replace(" (optional)", "").replace("*", "")] *)
Definition param_name (param : string) : string :=
  PyStr.replace (PyStr.replace param " (optional)" "") "*" "".

(** ["(optional)" not in param] *)
Definition is_required (param : string) : bool :=
  negb (PyStr.contains param "(optional)").

Definition property_of (param : string) : property :=
  {| prop_type := if mem (param_name param) numeric_names then "number" else "string";
     prop_description := "Parameter: " ++ param |}.

(** The body of the loop [for param in tool_info["parameters"]]. *)
Definition add_parameter (schema : parameters_schema) (param : string)
  : parameters_schema :=
  {| schema_type := schema_type schema;
     properties := Dict.set (properties schema) (param_name param) (property_of param);
     required :=
       if is_required param && negb (PyStr.startswith param "*")
       then (required schema ++ [param_name param])%list
       else required schema |}.

Definition empty_schema : parameters_schema :=
  {| schema_type := "object"; properties := []; required := [] |}.

(** The body of the loop over the items of the registry. *)
Definition function_of (tool_name : string) (info : tool_info) : function_definition :=
  {| fn_name := tool_name;
     fn_description := description info;
     fn_parameters := fold_left add_parameter (parameters info) empty_schema |}.

(** [def get_function_definitions(self, tool_registry)] *)
Definition get_function_definitions (tool_registry : MCPToolRegistry.t)
  : list function_definition :=
  map (fun item => function_of (fst item) (snd item))
      (MCPToolRegistry.get_all_tools tool_registry).

(** *** The replay window *)

Definition system_message : Turn.t :=
  Turn.plain "system"
    (Some "You are a helpful AI assistant with access to various tools.

            Available tools:
            - File operations (list_files, read_file, search_files)
            - Calculator operations (add, subtract, multiply, divide, factorial)
            - Unit conversions (convert_temperature, convert_distance)

            When a user asks you to perform operations that these tools can handle, use the appropriate tool.
            Always provide clear, helpful responses and explain what you're doing.").

(** [def _prepare_messages(self)], as a function of the object. *)
Definition prepare_messages (c : client) : list Turn.t :=
  if (Z.of_nat (length (conversation_history c)) >? max_history c)%Z
  then system_message :: slice_from (conversation_history c) (- max_history c)
  else system_message :: conversation_history c.

Definition _prepare_messages : M (list Turn.t) := fun w =>
  (Returned (prepare_messages (self w)), w).

(** [def clear_history(self)] *)
Definition clear_history : M Z := fun w =>
  (Returned (Z.of_nat (length (conversation_history (self w)))),
   {| self := {| deployment := deployment (self w);
                 conversation_history := [];
                 max_history := max_history (self w) |};
      sent := sent w |}).

(** [def get_history_length(self)] *)
Definition get_history_length : M Z := fun w =>
  (Returned (Z.of_nat (length (conversation_history (self w)))), w).

Section Orchestrator.
Variable rt : runtime.
Variable create : backend.

(** [await self.client.chat.completions.create(...)]: the backend
    receives the request, whatever it answers. *)
Definition completions_create (rq : request) : M Response.completion := fun w =>
  (create (sent w) rq, received w rq).

(** *** Tool dispatch *)

(** [json.loads(doc)] *)
Definition json_loads (doc : string) : outcome value := Json.loads rt doc.

(** The line that announces a call:
    [f"... Calling tool: {function_name} with args: {function_args}"],
    given the text of the arguments. *)
Definition announcement (function_name shown : string) : string :=
  "ðŸ”§ Calling tool: " ++ function_name ++ " with args: " ++ shown.

(** [tool_registry.get_tool(function_name)]; the registry may be [None]. *)
Definition get_tool (tool_registry : option MCPToolRegistry.t) (function_name : string)
  : outcome (option tool_info) :=
  match tool_registry with
  | Some registry => Returned (MCPToolRegistry.get_tool registry function_name)
  | None => Raised (AttributeError VNone "get_tool")
  end.

(** [function_args.get(key, default)] *)
Definition get_method (function_args : value) (key : string) (default : value)
  : outcome value :=
  match function_args with
  | VDict items =>
      Returned match Dict.get items key with Some v => v | None => default end
  | _ => Raised (AttributeError function_args "get")
  end.

(** The call of the tool, inside the [try]. *)
Definition call_tool (function_name : string) (tool : tool_info) (function_args : value)
  : outcome string :=
  (if mem function_name ["add"; "multiply"] then
     numbers <- get_method function_args "numbers" (VList []) ;;
     args <- Call.star (qualname (function tool)) numbers ;;
     function tool args []
   else
     kwargs <- Call.starstar (qualname (function tool)) function_args ;;
     function tool [] kwargs)%outcome.

(** The statement [if tool: try: ... except Exception as e: ... else: ...]
    of an iteration: the entry it appends to [tool_results]. *)
Definition tool_result (tool_call : Response.tool_call) (tool : option tool_info)
    (function_args : value) : Turn.t :=
  let function_name := Response.name (Response.function tool_call) in
  match tool with
  | Some tool =>
      match call_tool function_name tool function_args with
      | Returned result => Turn.result (Response.id tool_call) function_name result
      | Raised e =>
          Turn.result (Response.id tool_call) function_name
            ("Error executing tool: " ++ str_exn rt e)
      end
  | None =>
      Turn.result (Response.id tool_call) function_name
        ("Tool '" ++ function_name ++ "' not found")
  end.

(** One iteration of the loop [for tool_call in
    assistant_message.tool_calls]: the entry it appends to
    [tool_results], or the exception that leaves the loop.  The decoding
    of the arguments, the line printed and the lookup of the tool come
    before the [try]. *)
Definition execute_tool_call (tool_registry : option MCPToolRegistry.t)
    (tool_call : Response.tool_call) : outcome Turn.t :=
  let function_name := Response.name (Response.function tool_call) in
  (function_args <- json_loads (Response.arguments (Response.function tool_call)) ;;
   shown <- str rt function_args ;;
   _ <- print rt (announcement function_name shown) ;;
   tool <- get_tool tool_registry function_name ;;
   Returned (tool_result tool_call tool function_args))%outcome.

(** The loop, from the value of [tool_results] on entry. *)
Fixpoint execute_tool_calls (tool_registry : option MCPToolRegistry.t)
    (tool_calls : list Response.tool_call) (tool_results : list Turn.t)
  : outcome (list Turn.t) :=
  match tool_calls with
  | [] => Returned tool_results
  | tool_call :: rest =>
      (turn <- execute_tool_call tool_registry tool_call ;;
       execute_tool_calls tool_registry rest (tool_results ++ [turn])%list)%outcome
  end.

Definition call_of (tc : Response.tool_call) : Turn.call :=
  {| Turn.id := Response.id tc;
     Turn.type := "function";
     Turn.function :=
       {| Response.name := Response.name (Response.function tc);
          Response.arguments := Response.arguments (Response.function tc) |} |}.

(** [async def _handle_tool_calls(self, assistant_message, tool_registry,
    temperature, max_tokens)]; [tool_calls] is
    [assistant_message.tool_calls]. *)
Definition _handle_tool_calls (assistant_message : Response.message)
    (tool_calls : list Response.tool_call)
    (tool_registry : option MCPToolRegistry.t)
    (temperature : spec_float) (max_tokens : Z) : M (option string) :=
  (append_turn (Turn.requesting (Response.content assistant_message)
                                (map call_of tool_calls)) ;;;
   tool_results <- lift (execute_tool_calls tool_registry tool_calls []) ;;
   extend_turns tool_results ;;;
   messages <- _prepare_messages ;;
   final_response <-
     (fun w => completions_create
        {| model := deployment (self w); messages := messages;
           temperature := temperature; max_tokens := max_tokens;
           tools := None; tool_choice := None |} w) ;;
   choice <- lift (first (Response.choices final_response)) ;;
   let final_text := Response.content (Response.message_of choice) in
   append_turn (Turn.plain "assistant" final_text) ;;;
   ret final_text)%monad.

(** [async def chat(self, message, tool_registry=None, use_tools=True,
    temperature=0.7, max_tokens=2000)].  The handler also prints the text
    it returns, an error message of the interpreter or of the client
    library; the standard output is taken to accept that text. *)
Definition chat (message : string) (tool_registry : option MCPToolRegistry.t)
    (use_tools : bool) (temperature : spec_float) (max_tokens : Z)
  : M (option string) :=
  (append_turn (Turn.plain "user" (Some message)) ;;;
   messages <- _prepare_messages ;;
   let tools :=
     match tool_registry with
     | Some registry =>
         if use_tools
         then Some (map (fun func => {| tool_type := "function"; tool_function := func |})
                        (get_function_definitions registry))
         else None
     | None => None
     end in
   let offered :=
     match tools with
     | Some (_ :: _) => true
     | _ => false
     end in
   try_except
     (response <-
        (fun w => completions_create
           {| model := deployment (self w); messages := messages;
              temperature := temperature; max_tokens := max_tokens;
              tools := if offered then tools else None;
              tool_choice := if offered then Some "auto" else None |} w) ;;
      choice <- lift (first (Response.choices response)) ;;
      let assistant_message := Response.message_of choice in
      match Response.tool_calls assistant_message with
      | Some (tc :: tcs) =>
          _handle_tool_calls assistant_message (tc :: tcs)
                             tool_registry temperature max_tokens
      | _ =>
          let response_text := Response.content assistant_message in
          append_turn (Turn.plain "assistant" response_text) ;;;
          ret response_text
      end)
     (fun e =>
        let error_msg := "Error calling Azure OpenAI: " ++ str_exn rt e in
        ret (Some error_msg)))%monad.

End Orchestrator.
End AzureOpenAIClient.

(** ** [app.py]: the entry point of the user interface *)

Module App.
Section App.
Variable rt : runtime.
Variable ext : external_tools.
Variable create : backend.

(** The module-level [tool_registry]. *)
Definition tool_registry : MCPToolRegistry.t := MCPToolRegistry.init rt ext.

(** [async def process_message(message, history, use_tools, temperature)].
    The state is the module-level [ai_client]; [history] is the list the
    chat widget displays ([None] when it has none yet); the call of
    [chat] takes the default [max_tokens=2000]. *)
Definition process_message (message : string) (history : option (list Turn.t))
    (use_tools : bool) (temperature : spec_float)
  : M (option (list Turn.t) * string) :=
  if negb (PyStr.truthy (PyStr.strip message)) then ret (history, "")
  else
    let history :=
      match history with
      | Some (h :: t) => h :: t
      | _ => []
      end in
    let history := (history ++ [Turn.plain "user" (Some message)])%list in
    (try_except
       (response <-
          AzureOpenAIClient.chat rt create message
            (if use_tools then Some tool_registry else None)
            use_tools temperature 2000 ;;
        ret (Some (history ++ [Turn.plain "assistant" response])%list, ""))
       (fun e =>
          let text := "❌ Error:" ++ nl ++ str_exn rt e in
          ret (Some (history ++ [Turn.plain "assistant" (Some text)])%list, "")))%monad.

(** [def clear_conversation()].  The count is a length: its conversion
    to text is never refused. *)
Definition clear_conversation : M (list Turn.t * string) :=
  (count <- AzureOpenAIClient.clear_history ;;
   ret ([], "Cleared " ++ PyStr.of_int count ++ " messages from history"))%monad.

End App.
End App.

(** ** More of [src/mcp_client.py] *)

(** Two more operations on dictionaries: [key in d] and [del d[key]] for
    a key that is present. *)
Module DictMore.
Section DictMore.
Context {V : Type}.

Definition has (d : list (string * V)) (k : string) : bool :=
  match Dict.get d k with Some _ => true | None => false end.


End DictMore.
End DictMore.

(** *** [class MCPClient] *)
Module MCPClient.

(** [{'name': name, 'script': script_path, 'status': 'running'}] *)
Record server_info : Type := {
  name : string;
  script : string;
  status : string
}.

(** A handle on a server process; the program only calls [terminate()]
    on it, which the model leaves out. *)
Definition process : Type := unit.

Record t : Type := {
  servers : list (string * server_info);
  processes : list (string * process)
}.


(** [def __init__(self)] *)
Definition init : t := {| servers := []; processes := [] |}.





End MCPClient.

(** *** [class FileSystemTools]

    The file system is outside the program.  Its operations on paths are
    the fields of [file_system]; each can raise. *)
Record file_system (path : Type) : Type := {
  (** [base.glob(pattern)]: the paths the generator yields, and the
      exception that ends the iteration, if any *)
  glob : path -> value -> list path * option exn;
  (** [f.is_file()] *)
  is_file : path -> outcome bool;
  (** [f.name] *)
  name_of : path -> string;
  (** [base / filename] *)
  join_path : path -> value -> outcome path;
  (** [str(p.resolve())] *)
  resolve : path -> outcome string;
  (** [p.exists()] *)
  path_exists : path -> outcome bool;
  (** [p.read_text(encoding='utf-8')] *)
  read_text : path -> outcome string
}.
Arguments glob {path} _ _ _.
Arguments is_file {path} _ _.
Arguments name_of {path} _ _.
Arguments join_path {path} _ _ _.
Arguments resolve {path} _ _.
Arguments path_exists {path} _ _.
Arguments read_text {path} _ _.

Module FileSystemTools.

(** [sorted(names)] for a list of [str]: by code points, which is the
    order of the UTF-8 encodings. *)
Fixpoint insert_sorted (x : string) (l : list string) : list string :=
  match l with
  | [] => [x]
  | y :: rest => if String.leb x y then x :: l else y :: insert_sorted x rest
  end.

Definition sorted (names : list string) : list string :=
  fold_right insert_sorted [] names.

Section Tools.
Variable rt : runtime.
Variable path : Type.
Variable fs : file_system path.
(** [self.base_path] *)
Variable base_path : path.

(** [[f.name for f in items if f.is_file()]] *)
Fixpoint regular_names (items : list path) : outcome (list string) :=
  match items with
  | [] => Returned []
  | f :: rest =>
      (regular <- is_file fs f ;;
       names <- regular_names rest ;;
       Returned (if regular then name_of fs f :: names else names))%outcome
  end.

(** The body of the [try] of [list_files].  (The number it formats is
    a length: its conversion to text is never refused.) *)
Definition list_files_body (pattern : value) : outcome string :=
  let '(items, failure) := glob fs base_path pattern in
  (files <- regular_names items ;;
   match failure with
   | Some e => Raised e
   | None =>
       match files with
       | [] =>
           shown <- str rt pattern ;;
           Returned ("No files found matching pattern: " ++ shown)
       | _ :: _ =>
           Returned ("Files found (" ++ PyStr.of_int (Z.of_nat (length files)) ++ "):"
                     ++ nl
                     ++ PyStr.join nl (map (fun f => "  - " ++ f) (sorted files)))
       end
   end)%outcome.

(** [def list_files(self, pattern="*")] *)
Definition list_files (pattern : value) : string :=
  match list_files_body pattern with
  | Returned text => text
  | Raised e => "Error listing files: " ++ str_exn rt e
  end.

(** The body of the [try] of [read_file]. *)
Definition read_file_body (filename : value) : outcome string :=
  (p <- join_path fs base_path filename ;;
   resolved <- resolve fs p ;;
   allowed <- resolve fs base_path ;;
   if negb (PyStr.startswith resolved allowed)
   then Returned "Error: Access denied to file outside allowed directory"
   else
     found <- path_exists fs p ;;
     if negb found
     then
       shown <- str rt filename ;;
       Returned ("Error: File '" ++ shown ++ "' not found")
     else
       content <- read_text fs p ;;
       shown <- str rt filename ;;
       Returned ("Contents of " ++ shown ++ ":" ++ nl ++ nl ++ content))%outcome.

(** [def read_file(self, filename)] *)
Definition read_file (filename : value) : string :=
  match read_file_body filename with
  | Returned text => text
  | Raised e => "Error reading file: " ++ str_exn rt e
  end.

(** The methods as the callables the registry stores. *)
Definition list_files_callable : callable :=
  {| qualname := "FileSystemTools.list_files";
     call := fun args kwargs =>
       (bound <- Call.bind "FileSystemTools.list_files"
                   [("pattern", Some (VStr "*"))] args kwargs ;;
        match bound with
        | [pattern] => Returned (list_files pattern)
        | _ => Raised (TypeError (BadSignature "FileSystemTools.list_files" args kwargs))
        end)%outcome |}.

Definition read_file_callable : callable :=
  {| qualname := "FileSystemTools.read_file";
     call := fun args kwargs =>
       (bound <- Call.bind "FileSystemTools.read_file" [("filename", None)] args kwargs ;;
        match bound with
        | [filename] => Returned (read_file filename)
        | _ => Raised (TypeError (BadSignature "FileSystemTools.read_file" args kwargs))
        end)%outcome |}.

End Tools.
End FileSystemTools.

(** *** The conversions of [class CalculatorTools]

    Their floating-point formatting and the text of a [KeyError] belong
    to the interpreter, like the fields of [runtime]. *)
Record formatting : Type := {
  (** [format(v, ".Nf")], as in the f-string field [{v:.Nf}] *)
  format_fixed : nat -> value -> outcome string;
  (** [repr(s)] for a [str] *)
  repr_str : string -> string;
  (** the body of a conversion on units that are not [str] *)
  convert_other : string -> value -> value -> value -> outcome string
}.

Module Conversions.

(** The float literals of the source, as binary64 data. *)
Definition f273_15 : spec_float := S754_finite false 4805305618032230 (-44).
Definition f1_0 : spec_float := S754_finite false 4503599627370496 (-52).
Definition f0_3048 : spec_float := S754_finite false 5490788665690109 (-54).
Definition f1609_34 : spec_float := S754_finite false 7077952172180111 (-42).
Definition f1000_0 : spec_float := S754_finite false 8796093022208000 (-43).
Definition f3_28084 : spec_float := S754_finite false 7387794900731109 (-51).
Definition f0_000621371 : spec_float := S754_finite false 5731135905912489 (-63).
Definition f0_001 : spec_float := S754_finite false 4611686018427388 (-62).

Definition to_meters : list (string * spec_float) :=
  [("m", f1_0); ("ft", f0_3048); ("mi", f1609_34); ("km", f1000_0)].

Definition from_meters : list (string * spec_float) :=
  [("m", f1_0); ("ft", f3_28084); ("mi", f0_000621371); ("km", f0_001)].

Definition unit_names : list (string * string) :=
  [("m", "meters"); ("ft", "feet"); ("mi", "miles"); ("km", "kilometers")].

Section WithRuntime.
Variable rt : runtime.
Variable fmt : formatting.

(** [d[key]] for a dictionary with [str] keys. *)
Definition subscript {V} (d : list (string * V)) (key : string) : outcome V :=
  match Dict.get d key with
  | Some v => Returned v
  | None => Raised (Failure "KeyError" (repr_str fmt key))
  end.

(** The temperature in Celsius: [(value - 32) * 5/9], [value - 273.15]
    or [value]. *)
Definition to_celsius (val : value) (from_unit : string) : outcome value :=
  if String.eqb from_unit "F" then
    (difference <- arith rt Sub val (VInt 32) ;;
     scaled <- arith rt Mul difference (VInt 5) ;;
     arith rt TrueDiv scaled (VInt 9))%outcome
  else if String.eqb from_unit "K" then arith rt Sub val (VFloat f273_15)
  else Returned val.

(** The temperature in the target unit: [celsius * 9/5 + 32],
    [celsius + 273.15] or [celsius]. *)
Definition of_celsius (celsius : value) (to_unit : string) : outcome value :=
  if String.eqb to_unit "F" then
    (scaled <- arith rt Mul celsius (VInt 9) ;;
     ratio <- arith rt TrueDiv scaled (VInt 5) ;;
     arith rt Add ratio (VInt 32))%outcome
  else if String.eqb to_unit "K" then arith rt Add celsius (VFloat f273_15)
  else Returned celsius.

(** [def convert_temperature(value: float, from_unit: str, to_unit: str)] *)
Definition convert_temperature (val : value) (from_unit to_unit : string)
  : outcome string :=
  if String.eqb from_unit to_unit then
    (given <- str rt val ;;
     Returned ("Result: " ++ given ++ " " ++ to_unit ++ nl
               ++ "(No conversion needed)"))%outcome
  else
    (celsius <- to_celsius val from_unit ;;
     result <- of_celsius celsius to_unit ;;
     shown <- format_fixed fmt 2 result ;;
     given <- str rt val ;;
     Returned ("Result: " ++ shown ++ " " ++ to_unit ++ nl
               ++ "Conversion: " ++ given ++ " " ++ from_unit ++ " = "
               ++ shown ++ " " ++ to_unit))%outcome.

(** [def convert_distance(value: float, from_unit: str, to_unit: str)] *)
Definition convert_distance (val : value) (from_unit to_unit : string)
  : outcome string :=
  if String.eqb from_unit to_unit then
    (given <- str rt val ;;
     Returned ("Result: " ++ given ++ " " ++ to_unit ++ nl
               ++ "(No conversion needed)"))%outcome
  else
    (factor <- subscript to_meters from_unit ;;
     meters <- arith rt Mul val (VFloat factor) ;;
     factor' <- subscript from_meters to_unit ;;
     result <- arith rt Mul meters (VFloat factor') ;;
     shown <- format_fixed fmt 4 result ;;
     given <- str rt val ;;
     from_name <- subscript unit_names from_unit ;;
     to_name <- subscript unit_names to_unit ;;
     Returned ("Result: " ++ shown ++ " " ++ to_unit ++ nl ++ nl
               ++ "Conversion: " ++ given ++ " " ++ from_name ++ " = "
               ++ shown ++ " " ++ to_name))%outcome.

(** The static methods as the callables the registry stores. *)
Definition convert_temperature_callable : callable :=
  {| qualname := "CalculatorTools.convert_temperature";
     call := fun args kwargs =>
       (bound <- Call.bind "CalculatorTools.convert_temperature"
                   [("value", None); ("from_unit", None); ("to_unit", None)] args kwargs ;;
        match bound with
        | [val; VStr from_unit; VStr to_unit] => convert_temperature val from_unit to_unit
        | [val; from_unit; to_unit] =>
            convert_other fmt "convert_temperature" val from_unit to_unit
        | _ => Raised (TypeError
                         (BadSignature "CalculatorTools.convert_temperature" args kwargs))
        end)%outcome |}.

Definition convert_distance_callable : callable :=
  {| qualname := "CalculatorTools.convert_distance";
     call := fun args kwargs =>
       (bound <- Call.bind "CalculatorTools.convert_distance"
                   [("value", None); ("from_unit", None); ("to_unit", None)] args kwargs ;;
        match bound with
        | [val; VStr from_unit; VStr to_unit] => convert_distance val from_unit to_unit
        | [val; from_unit; to_unit] =>
            convert_other fmt "convert_distance" val from_unit to_unit
        | _ => Raised (TypeError
                         (BadSignature "CalculatorTools.convert_distance" args kwargs))
        end)%outcome |}.

End WithRuntime.
End Conversions.

(** ** [src/mcp_servers/calculator_server.py]: the calculation history *)

Module CalculatorServer.

(** An entry of [calculation_history]:
    [{"operation": operation, "result": result}]. *)
Record calculation : Type := {
  operation : string;
  result : value
}.

(** [def add_to_history(operation, result)], on the module-level list. *)
Definition add_to_history (operation : string) (result : value)
    (calculation_history : list calculation) : list calculation :=
  let appended :=
    (calculation_history ++ [{| operation := operation; result := result |}])%list in
  if (100 <? length appended)%nat then tl appended else appended.

End CalculatorServer.

(** ** Concrete collaborators for the examples

    The examples run the program on integers and text only.  Their
    runtime therefore makes no attempt at floating point, their external
    tools have no file system behind them, and their backends follow a
    script. *)
Module Sample.

Definition unsupported {A} (what : string) : outcome A :=
  Raised (Failure "NotImplementedError" what).

(** Whether a text holds the encoding of a surrogate (U+D800..U+DFFF):
    the byte 237 followed by a byte from 160 on. *)
Fixpoint has_surrogate (s : string) : bool :=
  match s with
  | String c rest =>
      match rest with
      | String c' _ =>
          ((nat_of_ascii c =? 237) && (160 <=? nat_of_ascii c'))%nat || has_surrogate rest
      | EmptyString => false
      end
  | EmptyString => false
  end.

(** An interpreter with the default limits, whose standard output
    encodes to UTF-8 and so refuses surrogates. *)
Definition rt : runtime :=
  {| float_of_literal := fun _ => S754_nan;
     json_error_text := fun doc => "cannot decode: " ++ doc;
     type_error_text := fun cause =>
       match cause with
       | BadSignature callee _ _ => callee ++ "() does not accept these arguments"
       | NotAMapping callee v =>
           "src.mcp_client." ++ callee ++ "() argument after ** must be a mapping, not "
           ++ type_name v
       | NotIterable callee v =>
           "src.mcp_client." ++ callee ++ "() argument after * must be an iterable, not "
           ++ type_name v
       end;
     value_error_text := fun _ =>
       "Exceeds the limit (4300 digits) for integer string conversion";
     int_max_str_digits := 4300;
     int_max_str_digits_valid := eq_refl;
     json_max_depth := 900;
     str_other := fun v => Returned ("<" ++ type_name v ++ ">");
     print_error := fun line =>
       if has_surrogate line
       then Some (Failure "UnicodeEncodeError" "surrogates not allowed")
       else None;
     arith_other := fun _ _ _ => unsupported "arithmetic outside int";
     round_to := fun _ _ => unsupported "round";
     factorial_other := fun _ => unsupported "factorial outside int" |}.

Definition no_files : callable :=
  {| qualname := "FileSystemTools.list_files";
     call := fun _ _ => Returned "No files found matching pattern: *" |}.

Definition ext : external_tools :=
  {| list_files := no_files;
     read_file :=
       {| qualname := "FileSystemTools.read_file";
          call := fun _ _ => Returned "Error: File 'x' not found" |};
     search_content :=
       {| qualname := "FileSystemTools.search_content";
          call := fun _ _ => Returned "No matches found for: x" |};
     convert_temperature :=
       {| qualname := "CalculatorTools.convert_temperature";
          call := fun _ _ => unsupported "convert_temperature" |};
     convert_distance :=
       {| qualname := "CalculatorTools.convert_distance";
          call := fun _ _ => unsupported "convert_distance" |} |}.

Definition registry : MCPToolRegistry.t := MCPToolRegistry.init rt ext.

(** A completion with one choice. *)
Definition completion (content : option string)
    (tool_calls : option (list Response.tool_call)) : Response.completion :=
  {| Response.choices :=
       [ {| Response.message_of :=
              {| Response.content := content; Response.tool_calls := tool_calls |} |} ] |}.

Definition tool_call (id name arguments : string) : Response.tool_call :=
  {| Response.id := id;
     Response.function := {| Response.name := name; Response.arguments := arguments |} |}.

(** A backend that answers its first request with [first] and any later
    one with [later]. *)
Definition scripted (first later : outcome Response.completion) : backend :=
  fun received_before _ =>
    match received_before with
    | [] => first
    | _ :: _ => later
    end.

(** A new client, as [__init__] leaves it with [MAX_HISTORY] unset. *)
Definition fresh : world :=
  {| self := {| deployment := "gpt-4"; conversation_history := []; max_history := 50 |};
     sent := [] |}.

(** The temperature 0.0. *)
Definition cold : spec_float := S754_zero false.

(** The text [{"a": 10, "b": 0}]. *)
Definition divide_10_by_0 : string :=
  let q := String Json.quote EmptyString in
  "{" ++ q ++ "a" ++ q ++ ": 10, " ++ q ++ "b" ++ q ++ ": 0}".

(** The text [{"numbers": []}]. *)
Definition no_numbers : string :=
  let q := String Json.quote EmptyString in
  "{" ++ q ++ "numbers" ++ q ++ ": []}".

(** The text [{"numbers": [1, 2]}]. *)
Definition one_and_two : string :=
  let q := String Json.quote EmptyString in
  "{" ++ q ++ "numbers" ++ q ++ ": [1, 2]}".

(** A payload that is not JSON. *)
Definition malformed : string := "{bad".

(** The text of a JSON string whose only character is the escape of the
    surrogate U+D83D, with no surrogate after it. *)
Definition lone_surrogate : string :=
  String Json.quote (String Json.backslash ("ud83d" ++ String Json.quote EmptyString)).

End Sample.

(** ** The vocabulary of the statements *)

Section Vocabulary.
Import AzureOpenAIClient.
Variable rt : runtime.

(** Whether the loop body appends the parameter to ["required"]. *)
Definition listed (param : string) : bool :=
  is_required param && negb (PyStr.startswith param "*").

(** The type the translator infers from a key. *)
Definition inferred (name : string) : string :=
  if mem name numeric_names then "number" else "string".

(** The iteration for a call gets past its first statements with the
    arguments [function_args]: the payload decodes to them, and the line
    that announces the call is printed. *)
Definition announced (tc : Response.tool_call) (function_args : value) : Prop :=
  Json.loads rt (Response.arguments (Response.function tc)) = Returned function_args
  /\ exists shown,
       str rt function_args = Returned shown
       /\ print_error rt (announcement (Response.name (Response.function tc)) shown) = None.

(** The iteration for a call reaches the lookup of its tool. *)
Definition reaches_lookup (tc : Response.tool_call) : Prop :=
  exists function_args, announced tc function_args.

(** An integer whose conversion to a text is within the limit. *)
Definition fits (z : Z) : Prop := within_digit_limit rt (PyStr.digits z) = true.

(** A tool-result turn that answers a call: it carries the call's id and
    name, and some text. *)
Definition answers (tc : Response.tool_call) (turn : Turn.t) : Prop :=
  exists text,
    turn = Turn.result (Response.id tc) (Response.name (Response.function tc)) text.

Definition user_turn (message : string) : Turn.t := Turn.plain "user" (Some message).

(** What a failed turn returns to the caller. *)
Definition error_text (e : exn) : option string :=
  Some ("Error calling Azure OpenAI: " ++ str_exn rt e).

(** The request of the first backend call of a turn that starts in [w]. *)
Definition first_request (w : world) (message : string)
    (tool_registry : option MCPToolRegistry.t) (use_tools : bool)
    (temperature : spec_float) (max_tokens : Z) : request :=
  let tools :=
    match tool_registry with
    | Some registry =>
        if use_tools
        then Some (map (fun func => {| tool_type := "function"; tool_function := func |})
                       (get_function_definitions registry))
        else None
    | None => None
    end in
  let offered :=
    match tools with
    | Some (_ :: _) => true
    | _ => false
    end in
  {| model := deployment (self w);
     messages := prepare_messages (self (push w [user_turn message]));
     temperature := temperature; max_tokens := max_tokens;
     tools := if offered then tools else None;
     tool_choice := if offered then Some "auto" else None |}.

(** The request of the backend call that follows the dispatch, issued in
    [w]. *)
Definition second_request (w : world) (temperature : spec_float) (max_tokens : Z)
  : request :=
  {| model := deployment (self w);
     messages := prepare_messages (self w);
     temperature := temperature; max_tokens := max_tokens;
     tools := None; tool_choice := None |}.

(** The assistant turn that carries the requested calls. *)
Definition requesting_turn (m : Response.message) (calls : list Response.tool_call)
  : Turn.t :=
  Turn.requesting (Response.content m) (map call_of calls).

End Vocabulary.

(** ** Sequences of calls *)

Module Calls.






(** The calculation history after a sequence of [add_to_history] calls
    on the empty list. *)
Definition entry_of (c : string * value) : CalculatorServer.calculation :=
  {| CalculatorServer.operation := fst c; CalculatorServer.result := snd c |}.

Definition history_from (start : list CalculatorServer.calculation)
    (calls : list (string * value)) : list CalculatorServer.calculation :=
  fold_left (fun h c => CalculatorServer.add_to_history (fst c) (snd c) h) calls start.

End Calls.

(** The order of [sorted] on [str]. *)
Definition precedes (a b : string) : Prop := String.leb a b = true.

(** ** A file system for the examples *)

Module SampleFiles.

(** Paths are their text; the directory [/srv/test_files] holds the files
    [b.txt] and [a.txt] and the directory [sub]. *)
Definition base_path : string := "/srv/test_files".

Definition entries : list (string * (string * bool)) :=
  [ ("/srv/test_files/b.txt", ("b.txt", true));
    ("/srv/test_files/sub", ("sub", false));
    ("/srv/test_files/a.txt", ("a.txt", true)) ].

Definition fs : file_system string :=
  {| glob := fun _ _ => (map fst entries, None);
     is_file := fun p =>
       Returned match Dict.get entries p with Some (_, regular) => regular | None => false end;
     name_of := fun p =>
       match Dict.get entries p with Some (name, _) => name | None => p end;
     join_path := fun base filename =>
       match filename with
       | VStr s => Returned (base ++ "/" ++ s)
       | _ => Raised (Failure "TypeError" "unsupported operand type(s) for /")
       end;
     resolve := fun p => Returned p;
     path_exists := fun p => Returned (DictMore.has entries p);
     read_text := fun p => Returned ("text of " ++ p) |}.

End SampleFiles.

(** ** The registry with the modelled tools *)

Module Tools.

(** The tools of [external_tools] that are modelled above, the search
    tool being left as it is given. *)
Definition modelled (rt : runtime) (fmt : formatting) (path : Type)
    (fs : file_system path) (base_path : path) (search_content : callable)
  : external_tools :=
  {| list_files := FileSystemTools.list_files_callable rt path fs base_path;
     read_file := FileSystemTools.read_file_callable rt path fs base_path;
     search_content := search_content;
     convert_temperature := Conversions.convert_temperature_callable rt fmt;
     convert_distance := Conversions.convert_distance_callable rt fmt |}.

(** The units of the distance tables. *)
Definition distance_units : list string := ["m"; "ft"; "mi"; "km"].

(** Formatting for the examples: exact on the integers a [float] holds
    exactly, for a positive number of decimals. *)
Definition sample_formatting : formatting :=
  {| format_fixed := fun decimals v =>
       match v, decimals with
       | VInt z, S _ =>
           if (Z.abs z <? 2 ^ 53)%Z
           then Returned (PyStr.of_int z ++ "."
                          ++ string_of_list_ascii (repeat "0"%char decimals))
           else Sample.unsupported "format of a large int"
       | _, _ => Sample.unsupported "format"
       end;
     repr_str := fun s => "'" ++ s ++ "'";
     convert_other := fun _ _ _ _ => Sample.unsupported "units that are not str" |}.

(** The text [{"value": 5, "from_unit": "yd", "to_unit": "m"}]. *)
Definition five_yards_to_m : string :=
  let q := String Json.quote EmptyString in
  "{" ++ q ++ "value" ++ q ++ ": 5, " ++ q ++ "from_unit" ++ q ++ ": " ++ q ++ "yd" ++ q
  ++ ", " ++ q ++ "to_unit" ++ q ++ ": " ++ q ++ "m" ++ q ++ "}".

End Tools.

(** * Verification *)

(** ** Decimal text of integers *)

(** [str(z)] determines [z]: reading the text back gives the integer. *)
Lemma of_int_exact (z : Z) :
  option_map Z.of_int (NilEmpty.int_of_string (PyStr.of_int z)) = Some z.
Proof.
  unfold PyStr.of_int. rewrite NilEmpty.isi. simpl. now rewrite DecimalZ.of_to.
Qed.

(** ** The factorial tool *)

Section Factorial.
Import CalculatorTools.

Lemma range_from_1 (k : nat) :
  range 1 (Z.of_nat k + 1) = map (fun i => Z.of_nat (S i)) (seq 0 k).
Proof.
  unfold range. replace (Z.of_nat k + 1 - 1)%Z with (Z.of_nat k) by lia.
  rewrite Nat2Z.id. apply map_ext. intros i. lia.
Qed.

Lemma product_upto (k : nat) :
  fold_left Z.mul (map (fun i => Z.of_nat (S i)) (seq 0 k)) 1%Z = Z.of_nat (fact k).
Proof.
  induction k as [|k IH].
  - reflexivity.
  - rewrite seq_S, map_app, fold_left_app, IH. cbn [map fold_left plus].
    change (fact (S k)) with (fact k + k * fact k)%nat. lia.
Qed.

(** [math.factorial] computes the factorial. *)
Lemma math_factorial_exact (n : Z) :
  (0 <= n)%Z -> math_factorial n = Z.of_nat (fact (Z.to_nat n)).
Proof.
  intros Hn. unfold math_factorial.
  rewrite <- (Z2Nat.id n) at 1 by exact Hn.
  rewrite range_from_1. apply product_upto.
Qed.

End Factorial.

(** C10. For every integer [n], calling the factorial tool by keyword
    returns (it does not raise) the text of [factorial n]; this text is
    the message for a negative argument when [n < 0], the message for the
    limit when [n > 20], and otherwise begins with the decimal text of
    the exact value of [n!].  The registry entry describes the tool as
    "Calculate factorial" with the parameter [n], without the limit. *)
Theorem factorial_tool_contract (rt : runtime) (ext : external_tools) (n : Z) :
  CalculatorTools.factorial_callable rt [] [("n", VInt n)]
    = Returned (CalculatorTools.factorial n)
  /\ ((n < 0)%Z ->
      CalculatorTools.factorial n = "Error: Factorial undefined for negative numbers")
  /\ ((n > 20)%Z ->
      CalculatorTools.factorial n = "Error: Factorial limited to n ≤ 20")
  /\ ((0 <= n <= 20)%Z ->
      exists calc,
        CalculatorTools.factorial n
          = "Result: " ++ PyStr.of_int (Z.of_nat (fact (Z.to_nat n))) ++ nl
            ++ "Calculation: " ++ calc)
  /\ MCPToolRegistry.get_tool (MCPToolRegistry.init rt ext) "factorial"
       = Some {| function := CalculatorTools.factorial_callable rt;
                 description := "Calculate factorial";
                 parameters := ["n"] |}.
Proof.
  split; [reflexivity|].
  unfold CalculatorTools.factorial.
  repeat split.
  - intros H. apply Z.ltb_lt in H. now rewrite H.
  - intros H.
    destruct (Z.ltb_spec n 0); [lia|].
    destruct (Z.gtb_spec n 20); [reflexivity | lia].
  - intros [H0 H20].
    destruct (Z.ltb_spec n 0); [lia|].
    destruct (Z.gtb_spec n 20); [lia|].
    rewrite (math_factorial_exact n H0).
    eexists. reflexivity.
Qed.

Lemma factorial_tool_contract_witness :
  CalculatorTools.factorial (-3) = "Error: Factorial undefined for negative numbers"
  /\ CalculatorTools.factorial 21 = "Error: Factorial limited to n ≤ 20"
  /\ exists calc,
       CalculatorTools.factorial 5
         = "Result: " ++ PyStr.of_int (Z.of_nat (fact (Z.to_nat 5))) ++ nl
           ++ "Calculation: " ++ calc.
Proof.
  split; [|split].
  - apply (factorial_tool_contract Sample.rt Sample.ext (-3)). lia.
  - apply (factorial_tool_contract Sample.rt Sample.ext 21). lia.
  - apply (factorial_tool_contract Sample.rt Sample.ext 5). lia.
Defined.

(** ** The replay window *)

Section Window.
Import AzureOpenAIClient.

(** [lst[-k:]] is the last [k] elements when [0 < k <= len(lst)]. *)
Lemma slice_from_last {A} (l : list A) (k : Z) :
  (0 < k <= Z.of_nat (length l))%Z ->
  slice_from l (- k) = skipn (length l - Z.to_nat k) l
  /\ length (slice_from l (- k)) = Z.to_nat k.
Proof.
  intros Hk. unfold slice_from.
  destruct (Z.ltb_spec (- k) 0); [|lia].
  replace (Z.to_nat (Z.max (Z.of_nat (length l) + - k) 0))
    with (length l - Z.to_nat k)%nat by lia.
  split; [reflexivity|]. rewrite length_skipn. lia.
Qed.

(** [lst[-0:]] is the whole list. *)
Lemma slice_from_minus_zero {A} (l : list A) : slice_from l (- 0) = l.
Proof.
  unfold slice_from. cbn [Z.opp Z.ltb Z.compare].
  now replace (Z.min 0 (Z.of_nat (length l))) with 0%Z by lia.
Qed.

(** With a positive window smaller than the history, the snapshot is the
    preamble and the last [max_history] stored turns. *)
Lemma prepare_messages_bounded (c : client) :
  (0 < max_history c < Z.of_nat (length (conversation_history c)))%Z ->
  exists dropped kept,
    conversation_history c = (dropped ++ kept)%list
    /\ Z.of_nat (length kept) = max_history c
    /\ prepare_messages c = system_message :: kept.
Proof.
  intros Hk. unfold prepare_messages.
  destruct (Z.gtb_spec (Z.of_nat (length (conversation_history c))) (max_history c)); [|lia].
  destruct (slice_from_last (conversation_history c) (max_history c)) as [Hs Hl]; [lia|].
  exists (firstn (length (conversation_history c) - Z.to_nat (max_history c))
                 (conversation_history c)),
         (slice_from (conversation_history c) (- max_history c)).
  repeat split.
  - rewrite Hs. symmetry. apply firstn_skipn.
  - rewrite Hl. lia.
Qed.

(** With a window at least as long as the history, the snapshot is the
    preamble and the whole history. *)
Lemma prepare_messages_all (c : client) :
  (Z.of_nat (length (conversation_history c)) <= max_history c)%Z ->
  prepare_messages c = system_message :: conversation_history c.
Proof.
  intros Hk. unfold prepare_messages.
  destruct (Z.gtb_spec (Z.of_nat (length (conversation_history c))) (max_history c));
    [lia | reflexivity].
Qed.

End Window.

(** C5, on the code.  With [max_history = 0] the snapshot is the preamble
    followed by the whole history, whatever its length [M]: not by the
    last 0 turns.  [get_history_length] reports [M]. *)
Theorem zero_window_replays_everything (d : string) (h : list Turn.t) (log : list request) :
  let w := {| self := {| deployment := d; conversation_history := h; max_history := 0 |};
              sent := log |} in
  AzureOpenAIClient.prepare_messages (self w) = AzureOpenAIClient.system_message :: h
  /\ AzureOpenAIClient.get_history_length w = (Returned (Z.of_nat (length h)), w).
Proof.
  cbn zeta. split; [|reflexivity].
  unfold AzureOpenAIClient.prepare_messages. cbn [self conversation_history max_history].
  rewrite slice_from_minus_zero.
  destruct (Z.of_nat (length h) >? 0)%Z; reflexivity.
Qed.

(** ** The schema translator *)

Section Translator.
Import AzureOpenAIClient.

Lemma dict_get_set {V} (d : list (string * V)) (k k' : string) (v : V) :
  Dict.get (Dict.set d k v) k' = if String.eqb k k' then Some v else Dict.get d k'.
Proof.
  induction d as [|[k0 v0] d IH]; cbn [Dict.set Dict.get].
  - reflexivity.
  - destruct (String.eqb_spec k0 k) as [->|Hne]; cbn [Dict.get].
    + destruct (String.eqb k k'); reflexivity.
    + destruct (String.eqb_spec k0 k') as [->|Hne'].
      * destruct (String.eqb_spec k k'); [congruence | reflexivity].
      * exact IH.
Qed.

Lemma required_fold (params : list string) (schema : parameters_schema) :
  required (fold_left add_parameter params schema)
  = (required schema ++ map param_name (filter listed params))%list.
Proof.
  revert schema. induction params as [|p params IH]; intros schema; cbn [fold_left filter].
  - now rewrite app_nil_r.
  - rewrite IH. unfold add_parameter. cbn [required]. fold (listed p).
    destruct (listed p); cbn [map]; [now rewrite <- app_assoc | reflexivity].
Qed.

Lemma properties_fold_present (params : list string) (schema : parameters_schema)
    (name : string) :
  (exists prop, Dict.get (properties (fold_left add_parameter params schema)) name = Some prop)
  <-> (exists prop, Dict.get (properties schema) name = Some prop)
      \/ (exists p, In p params /\ param_name p = name).
Proof.
  revert schema. induction params as [|p params IH]; intros schema; cbn [fold_left].
  - split; [auto | intros [H|[p [[] _]]]; exact H].
  - rewrite IH. unfold add_parameter at 1. cbn [properties]. rewrite dict_get_set.
    destruct (String.eqb_spec (param_name p) name) as [Heq|Hne].
    + split; intros _; [right; exists p; cbn; auto | left; eauto].
    + split.
      * intros [H|[q [Hq Hn]]]; [auto | right; exists q; cbn; auto].
      * intros [H|[q [[->|Hq] Hn]]]; [auto | congruence | right; eauto].
Qed.

Lemma properties_fold_typed (params : list string) (schema : parameters_schema) :
  (forall name prop, Dict.get (properties schema) name = Some prop ->
                     prop_type prop = inferred name) ->
  forall name prop,
    Dict.get (properties (fold_left add_parameter params schema)) name = Some prop ->
    prop_type prop = inferred name.
Proof.
  revert schema. induction params as [|p params IH]; intros schema Hinv; cbn [fold_left].
  - exact Hinv.
  - apply IH. intros name prop. unfold add_parameter. cbn [properties].
    rewrite dict_get_set.
    destruct (String.eqb_spec (param_name p) name) as [<-|Hne].
    + intros [= <-]. reflexivity.
    + apply Hinv.
Qed.

Lemma mem_numeric_names (name : string) :
  mem name numeric_names = true
  <-> In name ["a"; "b"; "value"; "n"; "precision"].
Proof.
  unfold mem, numeric_names. rewrite existsb_exists. split.
  - intros [x [Hin Heq]]. apply String.eqb_eq in Heq. now subst.
  - intros Hin. exists name. split; [exact Hin | apply String.eqb_refl].
Qed.

End Translator.

(** C6, as the claim states it, fails: in the schema of the registry's
    [add], the variadic parameter is a property of type ["string"]; no
    property of type ["array"] is produced for it. *)
Lemma variadic_parameter_is_not_an_array :
  exists f,
    find (fun f => String.eqb (fn_name f) "add")
         (AzureOpenAIClient.get_function_definitions Sample.registry) = Some f
    /\ Dict.get (properties (fn_parameters f)) "numbers"
       = Some {| prop_type := "string"; prop_description := "Parameter: *numbers" |}
    /\ ~ (exists prop,
            Dict.get (properties (fn_parameters f)) "numbers" = Some prop
            /\ prop_type prop = "array").
Proof.
  eexists. split; [reflexivity|]. split; [reflexivity|].
  intros [prop [Hget Hty]]. cbn in Hget. injection Hget as <-. discriminate Hty.
Qed.

(** C6, amended.  For the schema the translator builds from a parameter
    list: a key is listed as required exactly when some declared
    parameter with that stripped name carries no "(optional)" marker and
    does not start with "*"; a key is a property exactly when it is the
    stripped name of a declared parameter; the type of a property is
    ["number"] exactly when its key is one of a, b, value, n, precision
    and ["string"] otherwise.  In particular "*numbers" becomes the
    single property "numbers" of type ["string"], and declaring it adds
    nothing to the required list. *)
Theorem translator_schema (params : list string) (name : string) :
  let schema := fold_left AzureOpenAIClient.add_parameter params
                          AzureOpenAIClient.empty_schema in
  (In name (required schema)
   <-> exists p, In p params /\ AzureOpenAIClient.param_name p = name
                 /\ PyStr.contains p "(optional)" = false
                 /\ PyStr.startswith p "*" = false)
  /\ ((exists prop, Dict.get (properties schema) name = Some prop)
      <-> exists p, In p params /\ AzureOpenAIClient.param_name p = name)
  /\ (forall prop, Dict.get (properties schema) name = Some prop ->
        (prop_type prop = "number" /\ In name ["a"; "b"; "value"; "n"; "precision"])
        \/ (prop_type prop = "string" /\ ~ In name ["a"; "b"; "value"; "n"; "precision"]))
  /\ (fold_left AzureOpenAIClient.add_parameter ["*numbers"] AzureOpenAIClient.empty_schema
      = {| schema_type := "object";
           properties := [("numbers", {| prop_type := "string";
                                         prop_description := "Parameter: *numbers" |})];
           required := [] |})
  /\ (forall s, required (AzureOpenAIClient.add_parameter s "*numbers") = required s).
Proof.
  cbn zeta. repeat split.
  - rewrite required_fold. cbn [required AzureOpenAIClient.empty_schema app].
    rewrite in_map_iff. intros [p [Hn Hin]]. apply filter_In in Hin as [Hin Hl].
    unfold listed, AzureOpenAIClient.is_required in Hl.
    apply andb_true_iff in Hl as [H1 H2].
    apply negb_true_iff in H1. apply negb_true_iff in H2. eauto.
  - intros [p [Hin [Hn [H1 H2]]]]. rewrite required_fold.
    cbn [required AzureOpenAIClient.empty_schema app].
    rewrite in_map_iff. exists p. split; [exact Hn|].
    apply filter_In. split; [exact Hin|].
    unfold listed, AzureOpenAIClient.is_required. now rewrite H1, H2.
  - intros H. apply properties_fold_present in H as [[prop Hp]|H]; [discriminate Hp | exact H].
  - intros H. apply properties_fold_present. now right.
  - intros prop Hget.
    apply properties_fold_typed in Hget; [|intros n0 p0 H0; discriminate H0].
    unfold inferred in Hget.
    destruct (AzureOpenAIClient.mem name AzureOpenAIClient.numeric_names) eqn:Hm.
    + left. split; [exact Hget | now apply mem_numeric_names].
    + right. split; [exact Hget|]. intros Hin. apply mem_numeric_names in Hin. congruence.
Qed.

(** ** Tool dispatch *)

Section Dispatch.
Import AzureOpenAIClient.
Variable rt : runtime.

(** The limit on digits is no limit under 640 digits. *)
Lemma within_digit_limit_small (digits : nat) :
  (digits <= 640)%nat -> within_digit_limit rt digits = true.
Proof.
  intros Hsmall. unfold within_digit_limit.
  pose proof (int_max_str_digits_valid rt) as Hvalid.
  apply orb_true_iff in Hvalid as [Hzero|Hlarge]; [now rewrite Hzero|].
  apply Nat.leb_le in Hlarge. apply orb_true_iff. right. apply Nat.leb_le. lia.
Qed.

Lemma tool_result_answers tc tool function_args :
  answers tc (tool_result rt tc tool function_args).
Proof.
  unfold tool_result, answers. destruct tool as [tool|]; [|eauto].
  destruct (call_tool _ _ _); eauto.
Qed.

Lemma execute_tool_call_answers reg tc turn :
  execute_tool_call rt reg tc = Returned turn -> answers tc turn.
Proof.
  unfold execute_tool_call, json_loads, get_tool.
  destruct (Json.loads rt _) as [function_args|]; cbn [obind]; [|discriminate].
  destruct (str rt function_args); cbn [obind]; [|discriminate].
  destruct (print rt _); cbn [obind]; [|discriminate].
  destruct reg as [registry|]; cbn [obind]; [|discriminate].
  intros [= <-]. apply tool_result_answers.
Qed.

(** An iteration that gets past the decoding and the printed line looks
    the tool up and appends the entry of its [if] statement. *)
Lemma execute_tool_call_announced reg tc function_args :
  announced rt tc function_args ->
  execute_tool_call rt reg tc
  = (tool <- get_tool reg (Response.name (Response.function tc)) ;;
     Returned (tool_result rt tc tool function_args))%outcome.
Proof.
  intros [Hloads [shown [Hstr Hprint]]]. unfold execute_tool_call, json_loads, print.
  rewrite Hloads. cbn [obind]. rewrite Hstr. cbn [obind]. now rewrite Hprint.
Qed.

(** Once the call is announced and there is a registry, an iteration
    appends a turn: nothing the tool does can raise out of it. *)
Lemma execute_tool_call_returns registry tc :
  reaches_lookup rt tc ->
  exists turn, execute_tool_call rt (Some registry) tc = Returned turn.
Proof.
  intros [function_args Hannounced].
  rewrite (execute_tool_call_announced _ _ _ Hannounced). cbn [get_tool obind]. eauto.
Qed.

(** What the decoder raises leaves the iteration, whatever the name of
    the call and the registry. *)
Lemma execute_tool_call_raises reg tc e :
  Json.loads rt (Response.arguments (Response.function tc)) = Raised e ->
  execute_tool_call rt reg tc = Raised e.
Proof.
  intros Hv. unfold execute_tool_call, json_loads. now rewrite Hv.
Qed.

(** So does what the printed line raises. *)
Lemma execute_tool_call_unannounced reg tc function_args shown e :
  Json.loads rt (Response.arguments (Response.function tc)) = Returned function_args ->
  str rt function_args = Returned shown ->
  print_error rt (announcement (Response.name (Response.function tc)) shown) = Some e ->
  execute_tool_call rt reg tc = Raised e.
Proof.
  intros Hloads Hstr Hprint. unfold execute_tool_call, json_loads, print.
  rewrite Hloads. cbn [obind]. rewrite Hstr. cbn [obind]. now rewrite Hprint.
Qed.

Lemma execute_tool_calls_from reg calls acc :
  execute_tool_calls rt reg calls acc
  = (results <- execute_tool_calls rt reg calls [] ;;
     Returned (acc ++ results)%list)%outcome.
Proof.
  revert acc. induction calls as [|tc calls IH]; intros acc; cbn [execute_tool_calls].
  - cbn [obind]. now rewrite app_nil_r.
  - destruct (execute_tool_call rt reg tc) as [turn|e]; cbn [obind]; [|reflexivity].
    rewrite (IH (acc ++ [turn])%list), (IH ([] ++ [turn])%list).
    destruct (execute_tool_calls rt reg calls []); cbn [obind]; [|reflexivity].
    now rewrite <- app_assoc.
Qed.

(** When the loop ends, its results answer the calls one for one, in
    order. *)
Lemma execute_tool_calls_pairing reg calls results :
  execute_tool_calls rt reg calls [] = Returned results ->
  Forall2 answers calls results.
Proof.
  revert results. induction calls as [|tc calls IH]; intros results; cbn [execute_tool_calls].
  - intros [= <-]. constructor.
  - destruct (execute_tool_call rt reg tc) as [turn|e] eqn:Hone; cbn [obind]; [|discriminate].
    rewrite execute_tool_calls_from.
    destruct (execute_tool_calls rt reg calls []) as [rs|e]; cbn [obind]; [|discriminate].
    intros [= <-]. constructor; [now apply execute_tool_call_answers in Hone | now apply IH].
Qed.

(** The loop ends when every call is announced. *)
Lemma execute_tool_calls_returns registry calls :
  Forall (reaches_lookup rt) calls ->
  exists results, execute_tool_calls rt (Some registry) calls [] = Returned results.
Proof.
  induction 1 as [|tc calls Htc _ [rs IH]]; cbn [execute_tool_calls]; [eauto|].
  destruct (execute_tool_call_returns registry tc Htc) as [turn ->]. cbn [obind].
  rewrite execute_tool_calls_from, IH. cbn [obind]. eauto.
Qed.

(** The loop is left at the first iteration that raises: the results
    gathered so far are dropped with the frame, and the calls after it
    are not dispatched. *)
Lemma execute_tool_calls_raises registry before tc after acc e :
  Forall (reaches_lookup rt) before ->
  execute_tool_call rt (Some registry) tc = Raised e ->
  execute_tool_calls rt (Some registry) (before ++ tc :: after) acc = Raised e.
Proof.
  intros Hbefore Hbad. revert acc.
  induction Hbefore as [|tc0 before Htc0 _ IH]; intros acc; cbn [app execute_tool_calls].
  - now rewrite Hbad.
  - destruct (execute_tool_call_returns registry tc0 Htc0) as [turn ->]. cbn [obind].
    apply IH.
Qed.

(** A decoder that returns on a payload starting with a brace can enter
    an object. *)
Lemma announced_object_depth tc function_args :
  String.prefix "{" (Response.arguments (Response.function tc)) = true ->
  announced rt tc function_args -> json_max_depth rt <> 0%nat.
Proof.
  intros Hprefix [Hloads _] Hdepth. unfold Json.loads in Hloads. rewrite Hdepth in Hloads.
  destruct (Response.arguments (Response.function tc)) as [|c rest]; [discriminate|].
  cbn [String.prefix] in Hprefix.
  destruct (ascii_dec "{"%char c) as [<-|]; [|discriminate].
  rewrite Nat.add_comm in Hloads. cbn in Hloads. discriminate Hloads.
Qed.

(** Whatever the interpreter, the sample payload that is not JSON makes
    the decoder raise. *)
Lemma loads_malformed_raises :
  exists e,
    Json.loads rt Sample.malformed = Raised e
    /\ (json_max_depth rt <> 0%nat -> e = JSONDecodeError Sample.malformed).
Proof.
  unfold Json.loads.
  destruct (json_max_depth rt); eexists; (split; [reflexivity|]);
    [congruence | reflexivity].
Qed.

(** A batch of two calls whose second iteration raises: the loop raises,
    and what it raises is the exception of the second iteration when the
    first is announced. *)
Lemma execute_tool_calls_second_raises registry tc1 tc2 e2 :
  execute_tool_call rt (Some registry) tc2 = Raised e2 ->
  exists e,
    execute_tool_calls rt (Some registry) [tc1; tc2] [] = Raised e
    /\ (reaches_lookup rt tc1 -> e = e2).
Proof.
  intros Hsecond. cbn [execute_tool_calls].
  destruct (execute_tool_call rt (Some registry) tc1) as [turn|e1] eqn:Hfirst;
    cbn [obind].
  - rewrite Hsecond. cbn [obind]. eauto.
  - exists e1. split; [reflexivity|]. intros Hreach.
    destruct (execute_tool_call_returns registry tc1 Hreach) as [turn Hturn].
    congruence.
Qed.

(** The turn of an iteration whose call is announced and names no tool
    of the registry. *)
Lemma execute_tool_call_not_found registry tc :
  reaches_lookup rt tc ->
  MCPToolRegistry.get_tool registry (Response.name (Response.function tc)) = None ->
  execute_tool_call rt (Some registry) tc
  = Returned (Turn.result (Response.id tc) (Response.name (Response.function tc))
                ("Tool '" ++ Response.name (Response.function tc) ++ "' not found")).
Proof.
  intros [function_args Hannounced] Hnone.
  rewrite (execute_tool_call_announced _ _ _ Hannounced). cbn [get_tool obind].
  unfold tool_result. now rewrite Hnone.
Qed.

End Dispatch.

(** ** The calculator on integers *)

Section IntegerTools.
Import CalculatorTools.
Variable rt : runtime.

Lemma str_fits (z : Z) : fits rt z -> str rt (VInt z) = Returned (PyStr.of_int z).
Proof. unfold fits. intros Hfits. cbn [str]. now rewrite Hfits. Qed.

Lemma str_beyond (z : Z) :
  ~ fits rt z -> str rt (VInt z) = Raised (ValueError IntToStrLimit).
Proof.
  unfold fits. intros Hbeyond. cbn [str].
  destruct (within_digit_limit rt (PyStr.digits z)); [now contradiction Hbeyond|reflexivity].
Qed.

(** An integer of at most 640 digits is always converted. *)
Lemma fits_small (z : Z) : (PyStr.digits z <= 640)%nat -> fits rt z.
Proof. apply within_digit_limit_small. Qed.

Lemma strs_integers (zs : list Z) :
  Forall (fits rt) zs -> strs rt (map VInt zs) = Returned (map PyStr.of_int zs).
Proof.
  induction 1 as [|z zs Hz _ IH]; cbn [map strs]; [reflexivity|].
  rewrite (str_fits z Hz). cbn [obind]. now rewrite IH.
Qed.

(** The conversions stop at the first integer beyond the limit. *)
Lemma strs_refused (zs : list Z) :
  Exists (fun z => ~ fits rt z) zs ->
  strs rt (map VInt zs) = Raised (ValueError IntToStrLimit).
Proof.
  induction zs as [|z zs IH]; intros Hsome; [inversion Hsome|]. cbn [map strs].
  destruct (within_digit_limit rt (PyStr.digits z)) eqn:Hz.
  - rewrite (str_fits z Hz). cbn [obind]. rewrite IH; [reflexivity|].
    inversion Hsome as [? ? Hhere|? ? Hlater]; [now contradiction Hhere | exact Hlater].
  - rewrite str_beyond; [reflexivity|]. unfold fits. now rewrite Hz.
Qed.

Lemma sum_from_integers (acc : Z) (zs : list Z) :
  sum_from rt (VInt acc) (map VInt zs) = Returned (VInt (acc + fold_right Z.add 0 zs))%Z.
Proof.
  revert acc. induction zs as [|z zs IH]; intros acc; cbn [map sum_from fold_right].
  - now rewrite Z.add_0_r.
  - cbn [arith obind]. rewrite IH. now rewrite Z.add_assoc.
Qed.

Lemma product_from_integers (acc : Z) (zs : list Z) :
  product_from rt (VInt acc) (map VInt zs)
  = Returned (VInt (acc * fold_right Z.mul 1 zs))%Z.
Proof.
  revert acc. induction zs as [|z zs IH]; intros acc; cbn [map product_from fold_right].
  - now rewrite Z.mul_1_r.
  - cbn [arith obind]. rewrite IH. now rewrite Z.mul_assoc.
Qed.

(** [add] on integers: the sum is exact, and so is the text when the sum
    and the terms are within the limit on digits. *)
Lemma add_integers (zs : list Z) :
  let total := fold_right Z.add 0%Z zs in
  fits rt total -> Forall (fits rt) zs ->
  add rt (map VInt zs)
  = Returned ("Result: " ++ PyStr.of_int total ++ nl ++ "Calculation: "
              ++ PyStr.join " + " (map PyStr.of_int zs) ++ " = " ++ PyStr.of_int total).
Proof.
  cbn zeta. intros Htotal Hzs. unfold add, sum. rewrite sum_from_integers.
  cbn [obind Z.add]. rewrite (str_fits _ Htotal). cbn [obind].
  now rewrite (strs_integers zs Hzs).
Qed.

Lemma add_refused (zs : list Z) :
  Exists (fun z => ~ fits rt z) (fold_right Z.add 0%Z zs :: zs) ->
  add rt (map VInt zs) = Raised (ValueError IntToStrLimit).
Proof.
  intros Hsome. unfold add, sum. rewrite sum_from_integers. cbn [obind Z.add].
  destruct (within_digit_limit rt (PyStr.digits (fold_right Z.add 0%Z zs))) eqn:Htotal.
  - rewrite (str_fits _ Htotal). cbn [obind]. rewrite strs_refused; [reflexivity|].
    inversion Hsome as [? ? Hhere|? ? Hlater]; [now contradiction Hhere | exact Hlater].
  - rewrite str_beyond; [reflexivity|]. unfold fits. now rewrite Htotal.
Qed.

Lemma multiply_refused (zs : list Z) :
  Exists (fun z => ~ fits rt z) (fold_right Z.mul 1%Z zs :: zs) ->
  multiply rt (map VInt zs) = Raised (ValueError IntToStrLimit).
Proof.
  intros Hsome. unfold multiply. rewrite product_from_integers. rewrite Z.mul_1_l.
  cbn [obind].
  destruct (within_digit_limit rt (PyStr.digits (fold_right Z.mul 1%Z zs))) eqn:Htotal.
  - rewrite (str_fits _ Htotal). cbn [obind]. rewrite strs_refused; [reflexivity|].
    inversion Hsome as [? ? Hhere|? ? Hlater]; [now contradiction Hhere | exact Hlater].
  - rewrite str_beyond; [reflexivity|]. unfold fits. now rewrite Htotal.
Qed.

Lemma multiply_integers (zs : list Z) :
  let total := fold_right Z.mul 1%Z zs in
  fits rt total -> Forall (fits rt) zs ->
  multiply rt (map VInt zs)
  = Returned ("Result: " ++ PyStr.of_int total ++ nl ++ "Calculation: "
              ++ PyStr.join " × " (map PyStr.of_int zs) ++ " = " ++ PyStr.of_int total).
Proof.
  cbn zeta. intros Htotal Hzs. unfold multiply. rewrite product_from_integers.
  rewrite Z.mul_1_l. cbn [obind]. rewrite (str_fits _ Htotal). cbn [obind].
  now rewrite (strs_integers zs Hzs).
Qed.

(** A call named add or multiply with an array under "numbers" passes
    the items of the array as the positional arguments. *)
Lemma call_tool_numbers name tool kwargs items :
  AzureOpenAIClient.mem name ["add"; "multiply"] = true ->
  Dict.get kwargs "numbers" = Some (VList items) ->
  AzureOpenAIClient.call_tool name tool (VDict kwargs) = function tool items [].
Proof.
  intros Hmem Hget. unfold AzureOpenAIClient.call_tool. rewrite Hmem.
  unfold AzureOpenAIClient.get_method. now rewrite Hget.
Qed.

(** What the registry's [add] and [multiply] append for an array of
    integers that, like the result, are within the limit on digits. *)
Lemma tool_result_add ext tc kwargs (zs : list Z) :
  let total := fold_right Z.add 0%Z zs in
  Response.name (Response.function tc) = "add" ->
  Dict.get kwargs "numbers" = Some (VList (map VInt zs)) ->
  fits rt total -> Forall (fits rt) zs ->
  AzureOpenAIClient.tool_result rt tc
    (MCPToolRegistry.get_tool (MCPToolRegistry.init rt ext) "add") (VDict kwargs)
  = Turn.result (Response.id tc) "add"
      ("Result: " ++ PyStr.of_int total ++ nl ++ "Calculation: "
       ++ PyStr.join " + " (map PyStr.of_int zs) ++ " = " ++ PyStr.of_int total).
Proof.
  cbn zeta. intros Hname Hget Htotal Hzs. unfold AzureOpenAIClient.tool_result.
  rewrite Hname.
  change (MCPToolRegistry.get_tool (MCPToolRegistry.init rt ext) "add")
    with (Some {| function := add_callable rt;
                  description := "Add numbers"; parameters := ["*numbers"] |}).
  cbv beta iota.
  rewrite (call_tool_numbers "add" _ kwargs (map VInt zs) eq_refl Hget).
  cbn [function add_callable call]. now rewrite (add_integers zs Htotal Hzs).
Qed.

Lemma tool_result_multiply ext tc kwargs (zs : list Z) :
  let total := fold_right Z.mul 1%Z zs in
  Response.name (Response.function tc) = "multiply" ->
  Dict.get kwargs "numbers" = Some (VList (map VInt zs)) ->
  fits rt total -> Forall (fits rt) zs ->
  AzureOpenAIClient.tool_result rt tc
    (MCPToolRegistry.get_tool (MCPToolRegistry.init rt ext) "multiply") (VDict kwargs)
  = Turn.result (Response.id tc) "multiply"
      ("Result: " ++ PyStr.of_int total ++ nl ++ "Calculation: "
       ++ PyStr.join " × " (map PyStr.of_int zs) ++ " = " ++ PyStr.of_int total).
Proof.
  cbn zeta. intros Hname Hget Htotal Hzs. unfold AzureOpenAIClient.tool_result.
  rewrite Hname.
  change (MCPToolRegistry.get_tool (MCPToolRegistry.init rt ext) "multiply")
    with (Some {| function := multiply_callable rt;
                  description := "Multiply numbers"; parameters := ["*numbers"] |}).
  cbv beta iota.
  rewrite (call_tool_numbers "multiply" _ kwargs (map VInt zs) eq_refl Hget).
  cbn [function multiply_callable call]. now rewrite (multiply_integers zs Htotal Hzs).
Qed.

End IntegerTools.

(** ** The turn protocol *)

Section Protocol.
Import AzureOpenAIClient.
Variable rt : runtime.
Variable create : backend.

(** [_handle_tool_calls], step by step. *)
Lemma handle_tool_calls_run m calls reg temperature max_tokens w :
  _handle_tool_calls rt create m calls reg temperature max_tokens w
  = let w1 := push w [requesting_turn m calls] in
    match execute_tool_calls rt reg calls [] with
    | Raised e => (Raised e, w1)
    | Returned results =>
        let w2 := push w1 results in
        let rq := second_request w2 temperature max_tokens in
        match create (sent w2) rq with
        | Raised e => (Raised e, received w2 rq)
        | Returned final_response =>
            match Response.choices final_response with
            | [] => (Raised (IndexError "list index out of range"), received w2 rq)
            | choice :: _ =>
                let final_text := Response.content (Response.message_of choice) in
                (Returned final_text,
                 push (received w2 rq) [Turn.plain "assistant" final_text])
            end
        end
    end.
Proof.
  unfold _handle_tool_calls, bind, append_turn, lift, extend_turns, _prepare_messages,
    completions_create, ret, requesting_turn, second_request.
  cbn zeta.
  destruct (execute_tool_calls rt reg calls []) as [results|e]; [|reflexivity].
  destruct (create _ _) as [final_response|e]; [|reflexivity].
  destruct (Response.choices final_response); reflexivity.
Qed.

(** [chat], step by step. *)
Lemma chat_run message reg use_tools temperature max_tokens w :
  chat rt create message reg use_tools temperature max_tokens w
  = let w0 := push w [user_turn message] in
    let rq := first_request w message reg use_tools temperature max_tokens in
    match create (sent w) rq with
    | Raised e => (Returned (error_text rt e), received w0 rq)
    | Returned response =>
        match Response.choices response with
        | [] => (Returned (error_text rt (IndexError "list index out of range")),
                 received w0 rq)
        | choice :: _ =>
            let m := Response.message_of choice in
            match Response.tool_calls m with
            | Some (tc :: tcs) =>
                match _handle_tool_calls rt create m (tc :: tcs) reg
                        temperature max_tokens (received w0 rq) with
                | (Returned text, w') => (Returned text, w')
                | (Raised e, w') => (Returned (error_text rt e), w')
                end
            | _ =>
                (Returned (Response.content m),
                 push (received w0 rq) [Turn.plain "assistant" (Response.content m)])
            end
        end
    end.
Proof.
  unfold chat, bind, try_except, append_turn, lift, _prepare_messages,
    completions_create, ret, first_request, user_turn, error_text.
  cbn zeta. cbn [sent push].
  destruct (create _ _) as [response|e]; [|reflexivity].
  destruct (Response.choices response) as [|choice choices]; [reflexivity|].
  cbn [first].
  destruct (Response.tool_calls (Response.message_of choice)) as [[|tc tcs]|];
    reflexivity.
Qed.


End Protocol.

(** ** A round of tool calls *)

Section Round.
Import AzureOpenAIClient.
Variable rt : runtime.
Variable create : backend.

Lemma push_push w turns turns' :
  push (push w turns) turns' = push w (turns ++ turns')%list.
Proof. unfold push. cbn. now rewrite <- app_assoc. Qed.

Lemma push_received_push w turn rq turns :
  push (received (push w [turn]) rq) turns = push (received w rq) (turn :: turns).
Proof. unfold push, received. cbn. now rewrite <- app_assoc. Qed.

(** A round in which every call is announced: the history gains the
    assistant turn and one result per call, in order, before the second
    request is built from it; whatever the backend then answers, no
    exception of a tool has left the loop. *)
Lemma handle_tool_calls_pairing m calls registry temperature max_tokens w :
  Forall (reaches_lookup rt) calls ->
  exists results,
    Forall2 answers calls results
    /\ let w2 := push w (requesting_turn m calls :: results) in
       let rq := second_request w2 temperature max_tokens in
       _handle_tool_calls rt create m calls (Some registry) temperature max_tokens w
       = match create (sent w) rq with
         | Raised e => (Raised e, received w2 rq)
         | Returned final_response =>
             match Response.choices final_response with
             | [] => (Raised (IndexError "list index out of range"), received w2 rq)
             | choice :: _ =>
                 (Returned (Response.content (Response.message_of choice)),
                  push (received w2 rq)
                       [Turn.plain "assistant"
                          (Response.content (Response.message_of choice))])
             end
         end.
Proof.
  intros Hdec.
  destruct (execute_tool_calls_returns rt registry calls Hdec) as [results Hres].
  exists results. split; [now apply execute_tool_calls_pairing in Hres|].
  cbn zeta. rewrite handle_tool_calls_run, Hres. cbn zeta.
  rewrite push_push. reflexivity.
Qed.

(** A round whose loop raises: [chat] reports the exception, and the
    history has gained the user turn and the assistant turn with the
    calls, but no tool-result turn; the backend received one request. *)
Lemma chat_round_aborted message reg use_tools temperature max_tokens w
    response choice rest tc tcs e :
  let rq1 := first_request w message reg use_tools temperature max_tokens in
  create (sent w) rq1 = Returned response ->
  Response.choices response = choice :: rest ->
  Response.tool_calls (Response.message_of choice) = Some (tc :: tcs) ->
  execute_tool_calls rt reg (tc :: tcs) [] = Raised e ->
  chat rt create message reg use_tools temperature max_tokens w
  = (Returned (error_text rt e),
     push (received w rq1)
          [user_turn message; requesting_turn (Response.message_of choice) (tc :: tcs)]).
Proof.
  cbn zeta. intros H1 Hc Ht Hloop. rewrite chat_run. cbn zeta. rewrite H1, Hc, Ht.
  rewrite handle_tool_calls_run, Hloop. cbn zeta. now rewrite push_received_push.
Qed.

End Round.

(** C1, on the code.  The backend requests two calls; the payload of the
    second is not JSON.  [chat] returns an error text, the history holds
    the user turn and the assistant turn with its two calls but no
    tool-result turn (0, not 2), and the backend has received one request
    only.  When the first call is announced, the error is the
    [JSONDecodeError] of the second payload: the answer to the first call
    had been computed, and is dropped. *)
Theorem malformed_payload_leaves_calls_unanswered (rt : runtime) (ext : external_tools) :
  let calls := [ Sample.tool_call "call_1" "add" Sample.one_and_two;
                 Sample.tool_call "call_2" "divide" Sample.malformed ] in
  let create := Sample.scripted (Returned (Sample.completion None (Some calls)))
                                (Returned (Sample.completion (Some "done") None)) in
  let run := AzureOpenAIClient.chat rt create "add 1 and 2, then divide"
               (Some (MCPToolRegistry.init rt ext)) true Sample.cold 2000 Sample.fresh in
  (exists e, fst run = Returned (error_text rt e))
  /\ (reaches_lookup rt (Sample.tool_call "call_1" "add" Sample.one_and_two) ->
      fst run = Returned (Some ("Error calling Azure OpenAI: "
                                ++ json_error_text rt Sample.malformed)))
  /\ conversation_history (self (snd run))
     = [ Turn.plain "user" (Some "add 1 and 2, then divide");
         Turn.requesting None (map AzureOpenAIClient.call_of calls) ]
  /\ length (sent (snd run)) = 1%nat.
Proof.
  cbn zeta.
  destruct (loads_malformed_raises rt) as [e2 [Hbad Hgrammar]].
  destruct (execute_tool_calls_second_raises rt (MCPToolRegistry.init rt ext)
              (Sample.tool_call "call_1" "add" Sample.one_and_two)
              (Sample.tool_call "call_2" "divide" Sample.malformed) e2
              (execute_tool_call_raises rt _
                 (Sample.tool_call "call_2" "divide" Sample.malformed) e2 Hbad))
    as [e [Hloop Hsame]].
  erewrite chat_round_aborted;
    [| reflexivity | reflexivity | reflexivity | exact Hloop].
  split; [now exists e|]. split; [|split; reflexivity].
  intros Hfirst. rewrite (Hsame Hfirst). rewrite Hgrammar; [reflexivity|].
  destruct Hfirst as [function_args Hannounced].
  apply (fun H => announced_object_depth rt _ function_args H Hannounced).
  reflexivity.
Qed.

Lemma malformed_payload_leaves_calls_unanswered_witness :
  let calls := [ Sample.tool_call "call_1" "add" Sample.one_and_two;
                 Sample.tool_call "call_2" "divide" Sample.malformed ] in
  let create := Sample.scripted (Returned (Sample.completion None (Some calls)))
                                (Returned (Sample.completion (Some "done") None)) in
  let run := AzureOpenAIClient.chat Sample.rt create "add 1 and 2, then divide"
               (Some Sample.registry) true Sample.cold 2000 Sample.fresh in
  fst run = Returned (Some "Error calling Azure OpenAI: cannot decode: {bad")
  /\ conversation_history (self (snd run))
     = [ Turn.plain "user" (Some "add 1 and 2, then divide");
         Turn.requesting None (map AzureOpenAIClient.call_of calls) ]
  /\ length (sent (snd run)) = 1%nat.
Proof.
  cbn zeta.
  destruct (malformed_payload_leaves_calls_unanswered Sample.rt Sample.ext)
    as [_ [Htext Hstate]].
  split; [|exact Hstate]. apply Htext.
  eexists. split; [reflexivity|]. eexists. split; reflexivity.
Defined.

(** C2, on the code.  In a batch whose first payload is not JSON, the
    loop raises instead of producing an error turn for that call (it
    raises [JSONDecodeError], the decoder being one that can enter an
    object at all), and the well-formed call after it is never
    dispatched, although alone, once announced, it succeeds;
    [_handle_tool_calls] ends with the exception, no tool-result turn and
    no second backend call. *)
Theorem malformed_payload_aborts_dispatch (rt : runtime) (ext : external_tools)
    (create : backend) :
  let bad := Sample.tool_call "call_1" "add" Sample.malformed in
  let good := Sample.tool_call "call_2" "add" Sample.one_and_two in
  let registry := Some (MCPToolRegistry.init rt ext) in
  let m := {| Response.content := None; Response.tool_calls := Some [bad; good] |} in
  (exists e,
      AzureOpenAIClient.execute_tool_calls rt registry [bad; good] [] = Raised e
      /\ AzureOpenAIClient._handle_tool_calls rt create m [bad; good] registry
           Sample.cold 2000 Sample.fresh
         = (Raised e,
            push Sample.fresh
                 [Turn.requesting None (map AzureOpenAIClient.call_of [bad; good])])
      /\ (json_max_depth rt <> 0%nat -> e = JSONDecodeError Sample.malformed))
  /\ (announced rt good (VDict [("numbers", VList [VInt 1; VInt 2])]) ->
      AzureOpenAIClient.execute_tool_calls rt registry [good] []
      = Returned [Turn.result "call_2" "add"
                    ("Result: 3" ++ nl ++ "Calculation: 1 + 2 = 3")]).
Proof.
  cbn zeta. split.
  - destruct (loads_malformed_raises rt) as [e [Hbad Hgrammar]]. exists e.
    assert (Hloop : AzureOpenAIClient.execute_tool_calls rt
                      (Some (MCPToolRegistry.init rt ext))
                      [ Sample.tool_call "call_1" "add" Sample.malformed;
                        Sample.tool_call "call_2" "add" Sample.one_and_two ] []
                    = Raised e).
    { cbn [AzureOpenAIClient.execute_tool_calls].
      now rewrite (execute_tool_call_raises rt _
                     (Sample.tool_call "call_1" "add" Sample.malformed) e Hbad). }
    split; [exact Hloop|]. split; [|exact Hgrammar].
    rewrite handle_tool_calls_run, Hloop. reflexivity.
  - intros Hgood. cbn [AzureOpenAIClient.execute_tool_calls].
    rewrite (execute_tool_call_announced rt _ _ _ Hgood).
    cbn [AzureOpenAIClient.get_tool obind app].
    change (Response.name
              (Response.function (Sample.tool_call "call_2" "add" Sample.one_and_two)))
      with "add".
    rewrite (tool_result_add rt ext (Sample.tool_call "call_2" "add" Sample.one_and_two)
               [("numbers", VList [VInt 1; VInt 2])] [1; 2]%Z eq_refl eq_refl).
    + reflexivity.
    + apply fits_small. vm_compute. lia.
    + repeat constructor; apply fits_small; vm_compute; lia.
Qed.

Lemma malformed_payload_aborts_dispatch_witness :
  let bad := Sample.tool_call "call_1" "add" Sample.malformed in
  let good := Sample.tool_call "call_2" "add" Sample.one_and_two in
  AzureOpenAIClient.execute_tool_calls Sample.rt (Some Sample.registry) [bad; good] []
    = Raised (JSONDecodeError Sample.malformed)
  /\ AzureOpenAIClient.execute_tool_calls Sample.rt (Some Sample.registry) [good] []
     = Returned [Turn.result "call_2" "add"
                   ("Result: 3" ++ nl ++ "Calculation: 1 + 2 = 3")].
Proof.
  cbn zeta.
  destruct (malformed_payload_aborts_dispatch Sample.rt Sample.ext
              (Sample.scripted (Raised (Failure "APIConnectionError" "Connection error."))
                               (Raised (Failure "APIConnectionError" "Connection error."))))
    as [[e [Hloop [_ Hgrammar]]] Halone].
  split.
  - rewrite (Hgrammar ltac:(discriminate)) in Hloop. exact Hloop.
  - apply Halone. split; [reflexivity|]. eexists. split; reflexivity.
Defined.

(** C7, on the code.  A call names a tool that the registry does not
    hold, and its payload is not JSON: the iteration raises before it
    looks the name up ([JSONDecodeError], the decoder being one that can
    enter an object at all), and so does the batch that starts with it;
    the call after it is not dispatched. *)
Theorem unknown_tool_with_malformed_payload_raises (rt : runtime) (ext : external_tools) :
  let unknown := Sample.tool_call "call_1" "launch_rocket" Sample.malformed in
  let good := Sample.tool_call "call_2" "add" Sample.one_and_two in
  let registry := MCPToolRegistry.init rt ext in
  MCPToolRegistry.get_tool registry "launch_rocket" = None
  /\ exists e,
       AzureOpenAIClient.execute_tool_call rt (Some registry) unknown = Raised e
       /\ AzureOpenAIClient.execute_tool_calls rt (Some registry) [unknown; good] []
          = Raised e
       /\ (json_max_depth rt <> 0%nat -> e = JSONDecodeError Sample.malformed).
Proof.
  cbn zeta. split; [reflexivity|].
  destruct (loads_malformed_raises rt) as [e [Hbad Hgrammar]]. exists e.
  pose proof (execute_tool_call_raises rt (Some (MCPToolRegistry.init rt ext))
                (Sample.tool_call "call_1" "launch_rocket" Sample.malformed) e Hbad)
    as Hone.
  split; [exact Hone|]. split; [|exact Hgrammar].
  cbn [AzureOpenAIClient.execute_tool_calls]. now rewrite Hone.
Qed.

Lemma unknown_tool_with_malformed_payload_raises_witness :
  let unknown := Sample.tool_call "call_1" "launch_rocket" Sample.malformed in
  let good := Sample.tool_call "call_2" "add" Sample.one_and_two in
  MCPToolRegistry.get_tool Sample.registry "launch_rocket" = None
  /\ AzureOpenAIClient.execute_tool_call Sample.rt (Some Sample.registry) unknown
     = Raised (JSONDecodeError Sample.malformed)
  /\ AzureOpenAIClient.execute_tool_calls Sample.rt (Some Sample.registry)
       [unknown; good] []
     = Raised (JSONDecodeError Sample.malformed).
Proof.
  cbn zeta.
  destruct (unknown_tool_with_malformed_payload_raises Sample.rt Sample.ext)
    as [Hnone [e [Hone [Hloop Hgrammar]]]].
  rewrite (Hgrammar ltac:(discriminate)) in Hone, Hloop.
  split; [exact Hnone|]. split; [exact Hone | exact Hloop].
Defined.

(** ** Failures of the backend *)




(** ** Blank input *)

(** C4, as the claim states it, fails on [chat]: called with a message of
    three spaces, the orchestrator appends it to the history as a user
    turn and calls the backend. *)
Lemma chat_appends_a_blank_message :
  let create := Sample.scripted (Returned (Sample.completion (Some "Hello!") None))
                                (Returned (Sample.completion (Some "Hello!") None)) in
  let run := AzureOpenAIClient.chat Sample.rt create "   " (Some Sample.registry) true
               Sample.cold 2000 Sample.fresh in
  PyStr.strip "   " = ""
  /\ conversation_history (self (snd run))
     = [ Turn.plain "user" (Some "   "); Turn.plain "assistant" (Some "Hello!") ]
  /\ snd run <> Sample.fresh.
Proof.
  cbn zeta. split; [reflexivity|]. split; [reflexivity|]. discriminate.
Qed.

(** C4, amended.  [process_message], the entry point that the user
    interface calls, rejects a message that is empty or whitespace only:
    it returns the history it was given and an empty text, the client and
    its conversation history are unchanged, and the backend receives
    nothing.  ([chat] itself has no such guard.) *)
Theorem blank_message_is_a_no_op (rt : runtime) (ext : external_tools) (create : backend)
    (message : string) (history : option (list Turn.t)) (use_tools : bool)
    (temperature : spec_float) (w : world) :
  PyStr.strip message = "" ->
  App.process_message rt ext create message history use_tools temperature w
  = (Returned (history, ""), w).
Proof.
  intros Hblank. unfold App.process_message. rewrite Hblank. reflexivity.
Qed.

Lemma blank_message_is_a_no_op_witness :
  PyStr.strip "   " = ""
  /\ App.process_message Sample.rt Sample.ext
       (Sample.scripted (Returned (Sample.completion (Some "Hello!") None))
                        (Returned (Sample.completion (Some "Hello!") None)))
       "   " (Some [Turn.plain "user" (Some "hi")]) true Sample.cold Sample.fresh
     = (Returned (Some [Turn.plain "user" (Some "hi")], ""), Sample.fresh).
Proof.
  split; [reflexivity|].
  apply (blank_message_is_a_no_op Sample.rt Sample.ext _ "   "). reflexivity.
Defined.

(** ** Division by zero *)

Section DivideByZero.
Import AzureOpenAIClient.
Variable rt : runtime.
Variable ext : external_tools.

(** [divide] tests the divisor before it touches the dividend or the
    precision. *)
Lemma divide_by_zero a b precision :
  eq_zero b = true ->
  CalculatorTools.divide rt a b precision = Returned "Error: Division by zero".
Proof. intros Hzero. unfold CalculatorTools.divide. now rewrite Hzero. Qed.

(** A call of [divide] by keyword whose divisor is zero: what the
    iteration appends, once the call is announced. *)
Lemma execute_divide_by_zero tc kwargs a b precision :
  Response.name (Response.function tc) = "divide" ->
  announced rt tc (VDict kwargs) ->
  Call.bind "CalculatorTools.divide"
    [("a", None); ("b", None); ("precision", Some (VInt 2))] [] kwargs
  = Returned [a; b; precision] ->
  eq_zero b = true ->
  execute_tool_call rt (Some (MCPToolRegistry.init rt ext)) tc
  = Returned (Turn.result (Response.id tc) "divide" "Error: Division by zero").
Proof.
  intros Hname Hargs Hbind Hzero.
  rewrite (execute_tool_call_announced rt _ _ _ Hargs). cbn [get_tool obind].
  unfold tool_result. rewrite Hname.
  change (MCPToolRegistry.get_tool (MCPToolRegistry.init rt ext) "divide")
    with (Some {| function := CalculatorTools.divide_callable rt;
                  description := "Divide two numbers";
                  parameters := ["a"; "b"; "precision (optional)"] |}).
  unfold call_tool. cbn [mem existsb String.eqb Ascii.eqb Bool.eqb orb function
                         Call.starstar obind].
  unfold CalculatorTools.divide_callable. cbn [call]. rewrite Hbind. cbn [obind].
  now rewrite (divide_by_zero a b precision Hzero).
Qed.

(** The results of a loop that ends hold, for each call, the turn its
    iteration gives. *)
Lemma execute_tool_calls_in reg calls results tc turn :
  execute_tool_calls rt reg calls [] = Returned results ->
  In tc calls ->
  execute_tool_call rt reg tc = Returned turn ->
  In turn results.
Proof.
  revert results. induction calls as [|tc0 calls IH]; intros results Hres Hin Hone;
    [destruct Hin|].
  cbn [execute_tool_calls] in Hres.
  destruct (execute_tool_call rt reg tc0) as [turn0|e0] eqn:H0; cbn [obind] in Hres;
    [|discriminate].
  rewrite execute_tool_calls_from in Hres.
  destruct (execute_tool_calls rt reg calls []) as [rs|e]; cbn [obind] in Hres;
    [|discriminate].
  injection Hres as <-. cbn [app].
  destruct Hin as [->|Hin].
  - left. congruence.
  - right. now apply (IH rs).
Qed.

End DivideByZero.

(** C8, on the code.  Whatever the dividend and the precision, [divide]
    with a divisor equal to zero returns the text "Error: Division by
    zero" and does not raise, and the iteration for such a call, once
    announced, gives that text as its tool-result turn.  But a round that
    contains such a call does not always proceed to the second backend
    call: here the call after it has a payload that is not JSON, the loop
    raises, the answer to the division is dropped with the others, and
    [chat] returns an error text without calling the backend again. *)
Theorem divide_by_zero_round_is_aborted (rt : runtime) (ext : external_tools) :
  let by_zero := Sample.tool_call "call_1" "divide" Sample.divide_10_by_0 in
  let calls := [ by_zero; Sample.tool_call "call_2" "add" Sample.malformed ] in
  let create := Sample.scripted
                  (Returned (Sample.completion None (Some calls)))
                  (Returned (Sample.completion (Some "Dividing by zero is undefined.")
                                               None)) in
  let registry := MCPToolRegistry.init rt ext in
  let run := AzureOpenAIClient.chat rt create "divide 10 by 0, then add"
               (Some registry) true Sample.cold 2000 Sample.fresh in
  (forall a b precision,
      eq_zero b = true ->
      CalculatorTools.divide rt a b precision = Returned "Error: Division by zero")
  /\ (announced rt by_zero (VDict [("a", VInt 10); ("b", VInt 0)]) ->
      AzureOpenAIClient.execute_tool_call rt (Some registry) by_zero
      = Returned (Turn.result "call_1" "divide" "Error: Division by zero")
      /\ fst run = Returned (Some ("Error calling Azure OpenAI: "
                                   ++ json_error_text rt Sample.malformed)))
  /\ (exists e, fst run = Returned (error_text rt e))
  /\ conversation_history (self (snd run))
     = [ Turn.plain "user" (Some "divide 10 by 0, then add");
         Turn.requesting None (map AzureOpenAIClient.call_of calls) ]
  /\ length (sent (snd run)) = 1%nat.
Proof.
  cbn zeta.
  destruct (loads_malformed_raises rt) as [e2 [Hbad Hgrammar]].
  destruct (execute_tool_calls_second_raises rt (MCPToolRegistry.init rt ext)
              (Sample.tool_call "call_1" "divide" Sample.divide_10_by_0)
              (Sample.tool_call "call_2" "add" Sample.malformed) e2
              (execute_tool_call_raises rt _
                 (Sample.tool_call "call_2" "add" Sample.malformed) e2 Hbad))
    as [e [Hloop Hsame]].
  erewrite chat_round_aborted;
    [| reflexivity | reflexivity | reflexivity | exact Hloop].
  split; [apply divide_by_zero|]. split; [|split; [now exists e | split; reflexivity]].
  intros Hfirst. split.
  - exact (execute_divide_by_zero rt ext
             (Sample.tool_call "call_1" "divide" Sample.divide_10_by_0)
             [("a", VInt 10); ("b", VInt 0)] (VInt 10) (VInt 0) (VInt 2)
             eq_refl Hfirst eq_refl eq_refl).
  - rewrite (Hsame (ex_intro _ _ Hfirst)). rewrite Hgrammar; [reflexivity|].
    apply (fun H => announced_object_depth rt _ _ H Hfirst). reflexivity.
Qed.

Lemma divide_by_zero_round_is_aborted_witness :
  let by_zero := Sample.tool_call "call_1" "divide" Sample.divide_10_by_0 in
  let calls := [ by_zero; Sample.tool_call "call_2" "add" Sample.malformed ] in
  let create := Sample.scripted
                  (Returned (Sample.completion None (Some calls)))
                  (Returned (Sample.completion (Some "Dividing by zero is undefined.")
                                               None)) in
  let run := AzureOpenAIClient.chat Sample.rt create "divide 10 by 0, then add"
               (Some Sample.registry) true Sample.cold 2000 Sample.fresh in
  AzureOpenAIClient.execute_tool_call Sample.rt (Some Sample.registry) by_zero
  = Returned (Turn.result "call_1" "divide" "Error: Division by zero")
  /\ fst run = Returned (Some "Error calling Azure OpenAI: cannot decode: {bad")
  /\ conversation_history (self (snd run))
     = [ Turn.plain "user" (Some "divide 10 by 0, then add");
         Turn.requesting None (map AzureOpenAIClient.call_of calls) ]
  /\ length (sent (snd run)) = 1%nat.
Proof.
  cbn zeta.
  destruct (divide_by_zero_round_is_aborted Sample.rt Sample.ext)
    as [_ [Hfirst [_ Hstate]]].
  destruct Hfirst as [Hturn Htext];
    [split; [reflexivity|]; eexists; split; reflexivity|].
  split; [exact Hturn|]. split; [exact Htext | exact Hstate].
Defined.

(** ** The empty sum and the empty product *)

(** C9.  When the decoded arguments of a call are a dictionary without
    the key "numbers", or with an empty array under it, a call named add
    or multiply invokes its tool with no positional (and no keyword)
    argument.  With the registry's tools, the [try] statement of the
    iteration then appends the success text reporting 0 for add and 1 for
    multiply: no error text, no exception; and that is the turn of the
    iteration whenever it has decoded these arguments and printed its
    line. *)
Theorem empty_numbers_give_the_identity (rt : runtime) (ext : external_tools)
    (tc : Response.tool_call) (kwargs : list (string * value)) :
  Dict.get kwargs "numbers" = None \/ Dict.get kwargs "numbers" = Some (VList []) ->
  let registry := MCPToolRegistry.init rt ext in
  let zero := Turn.result (Response.id tc) "add"
                ("Result: 0" ++ nl ++ "Calculation:  = 0") in
  let one := Turn.result (Response.id tc) "multiply"
               ("Result: 1" ++ nl ++ "Calculation:  = 1") in
  (forall tool,
      AzureOpenAIClient.call_tool "add" tool (VDict kwargs) = function tool [] []
      /\ AzureOpenAIClient.call_tool "multiply" tool (VDict kwargs) = function tool [] [])
  /\ (Response.name (Response.function tc) = "add" ->
      AzureOpenAIClient.tool_result rt tc (MCPToolRegistry.get_tool registry "add")
        (VDict kwargs) = zero
      /\ (announced rt tc (VDict kwargs) ->
          AzureOpenAIClient.execute_tool_call rt (Some registry) tc = Returned zero))
  /\ (Response.name (Response.function tc) = "multiply" ->
      AzureOpenAIClient.tool_result rt tc (MCPToolRegistry.get_tool registry "multiply")
        (VDict kwargs) = one
      /\ (announced rt tc (VDict kwargs) ->
          AzureOpenAIClient.execute_tool_call rt (Some registry) tc = Returned one)).
Proof.
  intros Hnumbers registry zero one.
  assert (Hcall : forall name tool,
             AzureOpenAIClient.mem name ["add"; "multiply"] = true ->
             AzureOpenAIClient.call_tool name tool (VDict kwargs) = function tool [] []).
  { intros name tool Hmem. unfold AzureOpenAIClient.call_tool. rewrite Hmem.
    unfold AzureOpenAIClient.get_method.
    destruct Hnumbers as [-> | ->]; reflexivity. }
  assert (Hsmall : forall z, (Z.abs z <= 1)%Z -> fits rt z).
  { intros z Hz. apply fits_small.
    assert (Hcases : z = (-1)%Z \/ z = 0%Z \/ z = 1%Z) by lia.
    destruct Hcases as [-> | [-> | ->]]; vm_compute; lia. }
  assert (Hadd : AzureOpenAIClient.tool_result rt tc
                   (MCPToolRegistry.get_tool registry "add") (VDict kwargs) = zero
                 \/ Response.name (Response.function tc) <> "add").
  { destruct (String.eqb_spec (Response.name (Response.function tc)) "add") as [Hname|];
      [left | now right].
    unfold AzureOpenAIClient.tool_result, registry. rewrite Hname.
    change (MCPToolRegistry.get_tool (MCPToolRegistry.init rt ext) "add")
      with (Some {| function := CalculatorTools.add_callable rt;
                    description := "Add numbers";
                    parameters := ["*numbers"] |}).
    cbv beta iota. rewrite Hcall by reflexivity.
    cbn [function CalculatorTools.add_callable call].
    pose proof (add_integers rt [] (Hsmall 0%Z ltac:(cbn; lia)) (Forall_nil _)) as Hzero.
    cbn [map fold_right] in Hzero. now rewrite Hzero. }
  assert (Hmul : AzureOpenAIClient.tool_result rt tc
                   (MCPToolRegistry.get_tool registry "multiply") (VDict kwargs) = one
                 \/ Response.name (Response.function tc) <> "multiply").
  { destruct (String.eqb_spec (Response.name (Response.function tc)) "multiply")
      as [Hname|]; [left | now right].
    unfold AzureOpenAIClient.tool_result, registry. rewrite Hname.
    change (MCPToolRegistry.get_tool (MCPToolRegistry.init rt ext) "multiply")
      with (Some {| function := CalculatorTools.multiply_callable rt;
                    description := "Multiply numbers";
                    parameters := ["*numbers"] |}).
    cbv beta iota. rewrite Hcall by reflexivity.
    cbn [function CalculatorTools.multiply_callable call].
    pose proof (multiply_integers rt [] (Hsmall 1%Z ltac:(cbn; lia)) (Forall_nil _))
      as Hone.
    cbn [map fold_right] in Hone. now rewrite Hone. }
  split; [intros tool; split; apply Hcall; reflexivity|].
  split; intros Hname.
  - destruct Hadd as [Hadd|]; [|contradiction]. split; [exact Hadd|].
    intros Hannounced. rewrite (execute_tool_call_announced rt _ _ _ Hannounced).
    cbn [AzureOpenAIClient.get_tool obind]. rewrite Hname. now rewrite Hadd.
  - destruct Hmul as [Hmul|]; [|contradiction]. split; [exact Hmul|].
    intros Hannounced. rewrite (execute_tool_call_announced rt _ _ _ Hannounced).
    cbn [AzureOpenAIClient.get_tool obind]. rewrite Hname. now rewrite Hmul.
Qed.

Lemma empty_numbers_give_the_identity_witness :
  AzureOpenAIClient.execute_tool_call Sample.rt (Some Sample.registry)
    (Sample.tool_call "call_1" "add" "{}")
  = Returned (Turn.result "call_1" "add" ("Result: 0" ++ nl ++ "Calculation:  = 0"))
  /\ AzureOpenAIClient.execute_tool_call Sample.rt (Some Sample.registry)
       (Sample.tool_call "call_2" "multiply" Sample.no_numbers)
     = Returned (Turn.result "call_2" "multiply"
                   ("Result: 1" ++ nl ++ "Calculation:  = 1")).
Proof.
  split.
  - apply (empty_numbers_give_the_identity Sample.rt Sample.ext
             (Sample.tool_call "call_1" "add" "{}") []);
      [left; reflexivity | reflexivity |].
    split; [reflexivity|]. eexists. split; reflexivity.
  - apply (empty_numbers_give_the_identity Sample.rt Sample.ext
             (Sample.tool_call "call_2" "multiply" Sample.no_numbers)
             [("numbers", VList [])]);
      [right; reflexivity | reflexivity |].
    split; [reflexivity|]. eexists. split; reflexivity.
Defined.

(** * Further properties of the orchestrator *)

(** ** The turn protocol, path by path *)

(** X1. When the first response carries no tool call (no list, or an
    empty one), [chat] returns the content of the response, appends the
    user turn and one assistant turn with that content, and has called
    the backend exactly once. *)
Theorem plain_answer_is_appended (rt : runtime) (create : backend)
    (message : string) (reg : option MCPToolRegistry.t) (use_tools : bool)
    (temperature : spec_float) (max_tokens : Z) (w : world)
    (response : Response.completion) (choice : Response.choice)
    (rest : list Response.choice) :
  let rq1 := first_request w message reg use_tools temperature max_tokens in
  let m := Response.message_of choice in
  let run := AzureOpenAIClient.chat rt create message reg use_tools
               temperature max_tokens w in
  create (sent w) rq1 = Returned response ->
  Response.choices response = choice :: rest ->
  Response.tool_calls m = None \/ Response.tool_calls m = Some [] ->
  fst run = Returned (Response.content m)
  /\ conversation_history (self (snd run))
     = (conversation_history (self w)
        ++ [user_turn message; Turn.plain "assistant" (Response.content m)])%list
  /\ sent (snd run) = (sent w ++ [rq1])%list.
Proof.
  cbn zeta. intros H1 Hc Hnone. rewrite chat_run. cbn zeta. rewrite H1, Hc.
  destruct Hnone as [-> | ->]; cbn [fst snd push received self sent conversation_history];
    (split; [reflexivity|]); (split; [|reflexivity]); now rewrite <- app_assoc.
Qed.

Lemma plain_answer_is_appended_witness :
  let create := Sample.scripted (Returned (Sample.completion (Some "Hello!") (Some [])))
                                (Returned (Sample.completion (Some "again") None)) in
  let run := AzureOpenAIClient.chat Sample.rt create "hi" (Some Sample.registry) true
               Sample.cold 2000 Sample.fresh in
  fst run = Returned (Some "Hello!")
  /\ conversation_history (self (snd run))
     = [Turn.plain "user" (Some "hi"); Turn.plain "assistant" (Some "Hello!")]
  /\ length (sent (snd run)) = 1%nat.
Proof.
  cbn zeta.
  destruct (plain_answer_is_appended Sample.rt
              (Sample.scripted (Returned (Sample.completion (Some "Hello!") (Some [])))
                               (Returned (Sample.completion (Some "again") None)))
              "hi" (Some Sample.registry) true Sample.cold 2000 Sample.fresh
              (Sample.completion (Some "Hello!") (Some []))
              {| Response.message_of :=
                   {| Response.content := Some "Hello!";
                      Response.tool_calls := Some [] |} |}
              [] eq_refl eq_refl (or_intror eq_refl)) as [H1 [H2 H3]].
  split; [exact H1|]. split; [exact H2|]. rewrite H3. reflexivity.
Defined.

(** X2. A round of tool calls that succeeds.  The registry is given,
    every iteration reaches the lookup of its tool (the payload decodes
    and the line that announces the call is printed) and the second
    backend call returns a message.  Then the history gains, in this order, the user turn, the assistant
    turn with the calls, one tool-result turn per call and the final
    assistant turn: N + 3 turns for N calls.  The backend is called
    twice, the second time without tools; and whatever tool calls the
    second message carries, they are not dispatched: only its content is
    used. *)
Theorem tool_round_runs_once (rt : runtime) (create : backend)
    (message : string) (registry : MCPToolRegistry.t) (use_tools : bool)
    (temperature : spec_float) (max_tokens : Z) (w : world)
    (response : Response.completion) (choice : Response.choice)
    (rest : list Response.choice) (tc : Response.tool_call)
    (tcs : list Response.tool_call) :
  let rq1 := first_request w message (Some registry) use_tools temperature max_tokens in
  let m := Response.message_of choice in
  let run := AzureOpenAIClient.chat rt create message (Some registry) use_tools
               temperature max_tokens w in
  create (sent w) rq1 = Returned response ->
  Response.choices response = choice :: rest ->
  Response.tool_calls m = Some (tc :: tcs) ->
  Forall (reaches_lookup rt) (tc :: tcs) ->
  exists results,
    Forall2 answers (tc :: tcs) results
    /\ let round := user_turn message :: requesting_turn m (tc :: tcs) :: results in
       let rq2 := second_request (push (received w rq1) round) temperature max_tokens in
       tools rq2 = None /\ tool_choice rq2 = None
       /\ forall final_response final_choice final_rest,
            create (sent w ++ [rq1])%list rq2 = Returned final_response ->
            Response.choices final_response = final_choice :: final_rest ->
            let final_text := Response.content (Response.message_of final_choice) in
            fst run = Returned final_text
            /\ conversation_history (self (snd run))
               = (conversation_history (self w) ++ round
                  ++ [Turn.plain "assistant" final_text])%list
            /\ length (conversation_history (self (snd run)))
               = (length (conversation_history (self w)) + length (tc :: tcs) + 3)%nat
            /\ sent (snd run) = (sent w ++ [rq1; rq2])%list.
Proof.
  cbn zeta. intros H1 Hc Ht Hdec.
  destruct (execute_tool_calls_returns rt registry (tc :: tcs) Hdec) as [results Hres].
  exists results.
  pose proof (execute_tool_calls_pairing rt _ _ _ Hres) as Hpair.
  split; [exact Hpair|]. split; [reflexivity|]. split; [reflexivity|].
  intros final_response final_choice final_rest H2 Hfc.
  rewrite chat_run. cbn zeta. rewrite H1, Hc, Ht.
  rewrite handle_tool_calls_run, Hres. cbn zeta.
  rewrite !push_push, push_received_push. cbn [app].
  change (sent (push (received w (first_request w message (Some registry) use_tools
                                    temperature max_tokens))
                     (user_turn message
                      :: requesting_turn (Response.message_of choice) (tc :: tcs)
                      :: results)))
    with (sent w ++ [first_request w message (Some registry) use_tools
                       temperature max_tokens])%list.
  rewrite H2, Hfc. cbn [fst snd push received self sent conversation_history].
  assert (Hhistory :
    ((conversation_history (self w)
      ++ user_turn message
         :: requesting_turn (Response.message_of choice) (tc :: tcs) :: results)
     ++ [Turn.plain "assistant" (Response.content (Response.message_of final_choice))])%list
    = (conversation_history (self w)
       ++ (user_turn message
           :: requesting_turn (Response.message_of choice) (tc :: tcs) :: results)
       ++ [Turn.plain "assistant"
             (Response.content (Response.message_of final_choice))])%list)
    by now rewrite <- app_assoc.
  split; [reflexivity|]. split; [exact Hhistory|].
  split; [|now rewrite <- app_assoc].
  rewrite Hhistory. apply Forall2_length in Hpair.
  repeat rewrite length_app. cbn [length] in *. lia.
Qed.

Lemma tool_round_runs_once_witness :
  let tc1 := Sample.tool_call "call_1" "add" Sample.one_and_two in
  let tc2 := Sample.tool_call "call_2" "launch_rocket" "{}" in
  let again := Sample.tool_call "call_3" "add" Sample.one_and_two in
  let create := Sample.scripted
                  (Returned (Sample.completion None (Some [tc1; tc2])))
                  (Returned (Sample.completion (Some "The sum is 3.") (Some [again]))) in
  let run := AzureOpenAIClient.chat Sample.rt create "add 1 and 2" (Some Sample.registry)
               true Sample.cold 2000 Sample.fresh in
  exists results,
    Forall2 answers [tc1; tc2] results
    /\ fst run = Returned (Some "The sum is 3.")
    /\ conversation_history (self (snd run))
       = (Turn.plain "user" (Some "add 1 and 2")
          :: Turn.requesting None (map AzureOpenAIClient.call_of [tc1; tc2])
          :: results ++ [Turn.plain "assistant" (Some "The sum is 3.")])%list
    /\ length (conversation_history (self (snd run))) = 5%nat
    /\ length (sent (snd run)) = 2%nat.
Proof.
  cbn zeta.
  assert (Hdec : Forall (reaches_lookup Sample.rt)
                   [Sample.tool_call "call_1" "add" Sample.one_and_two;
                    Sample.tool_call "call_2" "launch_rocket" "{}"])
    by (repeat constructor; eexists; (split; [reflexivity|]);
        eexists; split; reflexivity).
  destruct (tool_round_runs_once Sample.rt
              (Sample.scripted
                 (Returned (Sample.completion None
                    (Some [Sample.tool_call "call_1" "add" Sample.one_and_two;
                           Sample.tool_call "call_2" "launch_rocket" "{}"])))
                 (Returned (Sample.completion (Some "The sum is 3.")
                    (Some [Sample.tool_call "call_3" "add" Sample.one_and_two]))))
              "add 1 and 2" Sample.registry true Sample.cold 2000 Sample.fresh
              _ _ [] _ _ eq_refl eq_refl eq_refl Hdec)
    as [results [Hpair [_ [_ Hrun]]]].
  destruct (Hrun _ _ [] eq_refl eq_refl) as [H1 [H2 [H3 H4]]].
  exists results. split; [exact Hpair|]. split; [exact H1|].
  split; [exact H2|]. split; [exact H3|]. rewrite H4. reflexivity.
Defined.

Section Worlds.
Variable w : world.
Variable turn : Turn.t.
Variable rq1 : request.

(** The worlds a turn goes through, spelled out. *)
Lemma world_after_first_call :
  received (push w [turn]) rq1
  = {| self := {| deployment := deployment (self w);
                  conversation_history := (conversation_history (self w) ++ [turn])%list;
                  max_history := max_history (self w) |};
       sent := (sent w ++ [rq1])%list |}.
Proof. reflexivity. Qed.

Lemma world_after_turns added :
  push (received (push w [turn]) rq1) added
  = {| self := {| deployment := deployment (self w);
                  conversation_history :=
                    (conversation_history (self w) ++ turn :: added)%list;
                  max_history := max_history (self w) |};
       sent := (sent w ++ [rq1])%list |}.
Proof. unfold push, received. cbn. now rewrite <- app_assoc. Qed.

Lemma world_after_second_call added rq2 :
  received (push (received (push w [turn]) rq1) added) rq2
  = {| self := {| deployment := deployment (self w);
                  conversation_history :=
                    (conversation_history (self w) ++ turn :: added)%list;
                  max_history := max_history (self w) |};
       sent := (sent w ++ [rq1; rq2])%list |}.
Proof. unfold push, received. cbn. now rewrite <- !app_assoc. Qed.

Lemma world_after_final_turn added rq2 more :
  push (received (push (received (push w [turn]) rq1) added) rq2) more
  = {| self := {| deployment := deployment (self w);
                  conversation_history :=
                    (conversation_history (self w) ++ turn :: added ++ more)%list;
                  max_history := max_history (self w) |};
       sent := (sent w ++ [rq1; rq2])%list |}.
Proof.
  unfold push, received. cbn. f_equal; [f_equal|]; now rewrite <- !app_assoc.
Qed.

End Worlds.

(** The shape of every run of [chat]. *)
Lemma chat_shape (rt : runtime) (create : backend)
    (message : string) (reg : option MCPToolRegistry.t) (use_tools : bool)
    (temperature : spec_float) (max_tokens : Z) (w : world) :
  exists text added later,
    AzureOpenAIClient.chat rt create message reg use_tools temperature max_tokens w
    = (Returned text,
       {| self := {| deployment := deployment (self w);
                     conversation_history :=
                       (conversation_history (self w) ++ user_turn message :: added)%list;
                     max_history := max_history (self w) |};
          sent := (sent w
                   ++ first_request w message reg use_tools temperature max_tokens
                      :: later)%list |})
    /\ (length later <= 1)%nat
    /\ messages (first_request w message reg use_tools temperature max_tokens)
       = AzureOpenAIClient.prepare_messages
           {| deployment := deployment (self w);
              conversation_history :=
                (conversation_history (self w) ++ [user_turn message])%list;
              max_history := max_history (self w) |}.
Proof.
  rewrite chat_run. cbn zeta.
  set (rq1 := first_request w message reg use_tools temperature max_tokens).
  destruct (create (sent w) rq1) as [response|e].
  2:{ exists (error_text rt e), [], []. rewrite world_after_first_call.
      repeat split; try (cbn; lia). }
  destruct (Response.choices response) as [|choice choices].
  { eexists _, [], []. rewrite world_after_first_call. repeat split; try (cbn; lia). }
  destruct (Response.tool_calls (Response.message_of choice)) as [[|tc tcs]|].
  - eexists _, [_], []. rewrite world_after_turns. repeat split; try (cbn; lia).
  - rewrite handle_tool_calls_run. cbn zeta.
    destruct (AzureOpenAIClient.execute_tool_calls rt reg (tc :: tcs) []) as [results|e].
    + rewrite push_push.
      destruct (create _ _) as [final_response|e].
      * destruct (Response.choices final_response) as [|final_choice final_choices].
        -- eexists _, _, [_]. rewrite world_after_second_call. repeat split; try (cbn; lia).
        -- eexists _, _, [_]. rewrite world_after_final_turn. repeat split; try (cbn; lia).
      * eexists _, _, [_]. rewrite world_after_second_call. repeat split; try (cbn; lia).
    + eexists _, [_], []. rewrite world_after_turns. repeat split; try (cbn; lia).
  - eexists _, [_], []. rewrite world_after_turns. repeat split; try (cbn; lia).
Qed.


(** ** The function definitions *)

Section Definitions.
Import AzureOpenAIClient.

Lemma dict_get_in_keys {V} (d : list (string * V)) (k : string) :
  (exists v, Dict.get d k = Some v) <-> In k (Dict.keys d).
Proof.
  induction d as [|[k0 v0] d IH]; cbn [Dict.get Dict.keys map fst In].
  - split; [intros [v Hv]; discriminate Hv | intros []].
  - destruct (String.eqb_spec k0 k) as [->|Hne].
    + split; [now left | eauto].
    + rewrite IH. unfold Dict.keys. split; [now right | intros [H|H]; [congruence | exact H]].
Qed.

Lemma dict_keys_set {V} (d : list (string * V)) (k : string) (v : V) :
  Dict.keys (Dict.set d k v)
  = if DictMore.has d k then Dict.keys d else (Dict.keys d ++ [k])%list.
Proof.
  unfold DictMore.has.
  induction d as [|[k0 v0] d IH]; cbn [Dict.set Dict.get Dict.keys map fst app].
  - reflexivity.
  - destruct (String.eqb_spec k0 k) as [->|Hne]; cbn [Dict.keys map fst].
    + reflexivity.
    + unfold Dict.keys in IH. rewrite IH.
      destruct (Dict.get d k); reflexivity.
Qed.

Lemma dict_keys_set_nodup {V} (d : list (string * V)) (k : string) (v : V) :
  NoDup (Dict.keys d) -> NoDup (Dict.keys (Dict.set d k v)).
Proof.
  intros Hd. rewrite dict_keys_set. unfold DictMore.has.
  destruct (Dict.get d k) eqn:Hk; [exact Hd|].
  apply NoDup_app; [exact Hd | repeat constructor; intros [] |].
  intros x Hx [<-|[]]. apply dict_get_in_keys in Hx as [v' Hv]. congruence.
Qed.

Lemma schema_fold_shape (params : list string) (schema : parameters_schema) :
  NoDup (Dict.keys (properties schema)) ->
  schema_type (fold_left add_parameter params schema) = schema_type schema
  /\ NoDup (Dict.keys (properties (fold_left add_parameter params schema))).
Proof.
  revert schema. induction params as [|p params IH]; intros schema Hd; cbn [fold_left].
  - now split.
  - destruct (IH (add_parameter schema p)) as [Ht Hn].
    + cbn [add_parameter properties]. now apply dict_keys_set_nodup.
    + split; [rewrite Ht; reflexivity | exact Hn].
Qed.

End Definitions.

(** X4. [get_function_definitions] gives one definition per entry of the
    registry, in the registry's order, under the entry's name and
    description.  Every definition has an object schema whose property
    keys are distinct and whose required names are all among its
    property keys. *)
Theorem function_definitions_follow_the_registry (registry : MCPToolRegistry.t) :
  let defs := AzureOpenAIClient.get_function_definitions registry in
  map fn_name defs = Dict.keys (MCPToolRegistry.available_tools registry)
  /\ map fn_description defs
     = map (fun entry => description (snd entry)) (MCPToolRegistry.available_tools registry)
  /\ Forall (fun f =>
               schema_type (fn_parameters f) = "object"
               /\ NoDup (Dict.keys (properties (fn_parameters f)))
               /\ forall name, In name (required (fn_parameters f)) ->
                               In name (Dict.keys (properties (fn_parameters f))))
            defs.
Proof.
  cbn zeta. unfold AzureOpenAIClient.get_function_definitions,
    MCPToolRegistry.get_all_tools, Dict.keys.
  rewrite !map_map. split; [reflexivity|]. split; [reflexivity|].
  apply Forall_forall. intros f Hin. apply in_map_iff in Hin as [[tool_name info] [<- _]].
  cbn [AzureOpenAIClient.function_of fn_parameters fst snd].
  destruct (schema_fold_shape (parameters info) AzureOpenAIClient.empty_schema)
    as [Ht Hn]; [constructor|].
  split; [exact Ht|]. split; [exact Hn|].
  intros name Hreq. rewrite required_fold in Hreq.
  cbn [required AzureOpenAIClient.empty_schema app] in Hreq.
  apply in_map_iff in Hreq as [p [Hp Hl]]. apply filter_In in Hl as [Hl _].
  apply dict_get_in_keys. apply properties_fold_present. right. eauto.
Qed.

(** X5. The first request of a turn offers tools exactly when tools are
    enabled, a registry is given and it holds at least one tool.  Then
    it carries one function schema per registry entry, in order, with
    [tool_choice] "auto"; otherwise it carries neither tools nor a tool
    choice. *)
Theorem tools_are_offered_only_when_enabled (rt : runtime) (create : backend)
    (message : string) (reg : option MCPToolRegistry.t) (use_tools : bool)
    (temperature : spec_float) (max_tokens : Z) (w : world) :
  exists text w' rq later,
    AzureOpenAIClient.chat rt create message reg use_tools temperature max_tokens w
    = (Returned text, w')
    /\ sent w' = (sent w ++ rq :: later)%list
    /\ (tools rq = None
        <-> use_tools = false \/ reg = None
            \/ exists r, reg = Some r /\ MCPToolRegistry.available_tools r = [])
    /\ (tools rq = None -> tool_choice rq = None)
    /\ (forall offered,
          tools rq = Some offered ->
          tool_choice rq = Some "auto"
          /\ Forall (fun t => tool_type t = "function") offered
          /\ exists r, reg = Some r
                       /\ map (fun t => fn_name (tool_function t)) offered
                          = Dict.keys (MCPToolRegistry.available_tools r)).
Proof.
  destruct (chat_shape rt create message reg use_tools temperature max_tokens w)
    as [text [added [later [Hrun _]]]].
  eexists text, _, _, later. split; [exact Hrun|]. split; [reflexivity|].
  unfold first_request. cbn [tools tool_choice].
  destruct reg as [r|].
  2:{ repeat split; auto; discriminate. }
  destruct use_tools.
  2:{ repeat split; auto; discriminate. }
  unfold AzureOpenAIClient.get_function_definitions, MCPToolRegistry.get_all_tools.
  destruct (MCPToolRegistry.available_tools r) as [|entry entries] eqn:Hr; cbn [map].
  - repeat split; try discriminate; eauto.
  - split.
    { split; [discriminate|].
      intros [H|[H|[r' [[= <-] H]]]]; try discriminate. congruence. }
    split; [discriminate|].
    intros offered [= <-]. split; [reflexivity|]. split.
    + constructor; [reflexivity|]. apply Forall_forall.
      intros t Ht. apply in_map_iff in Ht as [f [<- _]]. reflexivity.
    + exists r. split; [reflexivity|]. rewrite Hr. unfold Dict.keys. cbn [map fst].
      f_equal. rewrite !map_map. reflexivity.
Qed.

(** ** The dispatch loop, call by call *)

(** X6. The dispatch loop is the iteration applied to the calls one by
    one: it ends with [results] exactly when every iteration returns and
    [results] lists their turns in the order of the calls. *)
Theorem dispatch_is_pointwise (rt : runtime) (reg : option MCPToolRegistry.t)
    (calls : list Response.tool_call) (results : list Turn.t) :
  AzureOpenAIClient.execute_tool_calls rt reg calls [] = Returned results
  <-> Forall2 (fun tc turn => AzureOpenAIClient.execute_tool_call rt reg tc = Returned turn)
              calls results.
Proof.
  revert results. induction calls as [|tc calls IH]; intros results;
    cbn [AzureOpenAIClient.execute_tool_calls].
  - split; [intros [= <-]; constructor | intros H; inversion H; reflexivity].
  - destruct (AzureOpenAIClient.execute_tool_call rt reg tc) as [turn|e] eqn:Hone;
      cbn [obind].
    + rewrite execute_tool_calls_from.
      destruct (AzureOpenAIClient.execute_tool_calls rt reg calls []) as [rs|e] eqn:Hrest;
        cbn [obind app].
      * split.
        -- intros [= <-]. constructor; [exact Hone | now apply IH].
        -- intros H. inversion H as [|tc' turn' calls' rs' H1 H2]; subst.
           apply IH in H2. rewrite Hone in H1. congruence.
      * split; [discriminate|].
        intros H. inversion H as [|tc' turn' calls' rs' H1 H2]; subst.
        apply IH in H2. discriminate H2.
    + split; [discriminate|].
      intros H. inversion H as [|tc' turn' calls' rs' H1 H2]; subst.
      rewrite Hone in H1. discriminate H1.
Qed.

(** X7. Decoded arguments that are not an object do not make the [try]
    statement of an iteration raise: when the named tool exists, it gives
    an "Error executing tool: ..." turn, for the [AttributeError] of
    [function_args.get] when the call is named add or multiply and for
    the [TypeError] of the keyword unpacking, which names the tool's
    function, otherwise; the tool is not called.  That turn is what the
    iteration appends once its line is printed.  When printing the line
    raises, the exception leaves the iteration, and with it the loop: no
    turn is appended. *)
Theorem ill_shaped_payload_is_a_tool_error (rt : runtime) (registry : MCPToolRegistry.t)
    (tc : Response.tool_call) (payload : value) (tool : tool_info) :
  let function_name := Response.name (Response.function tc) in
  let turn :=
    Turn.result (Response.id tc) function_name
      ("Error executing tool: "
       ++ str_exn rt (if AzureOpenAIClient.mem function_name ["add"; "multiply"]
                      then AttributeError payload "get"
                      else TypeError (NotAMapping (qualname (function tool)) payload))) in
  (forall items, payload <> VDict items) ->
  MCPToolRegistry.get_tool registry function_name = Some tool ->
  AzureOpenAIClient.tool_result rt tc (Some tool) payload = turn
  /\ (announced rt tc payload ->
      AzureOpenAIClient.execute_tool_call rt (Some registry) tc = Returned turn)
  /\ (forall shown e after acc,
        Json.loads rt (Response.arguments (Response.function tc)) = Returned payload ->
        str rt payload = Returned shown ->
        print_error rt (AzureOpenAIClient.announcement function_name shown) = Some e ->
        AzureOpenAIClient.execute_tool_call rt (Some registry) tc = Raised e
        /\ AzureOpenAIClient.execute_tool_calls rt (Some registry) (tc :: after) acc
           = Raised e).
Proof.
  cbn zeta. intros Hshape Htool.
  assert (Hturn : AzureOpenAIClient.tool_result rt tc (Some tool) payload
                  = Turn.result (Response.id tc) (Response.name (Response.function tc))
                      ("Error executing tool: "
                       ++ str_exn rt
                            (if AzureOpenAIClient.mem
                                  (Response.name (Response.function tc)) ["add"; "multiply"]
                             then AttributeError payload "get"
                             else TypeError (NotAMapping (qualname (function tool))
                                                         payload)))).
  { unfold AzureOpenAIClient.tool_result, AzureOpenAIClient.call_tool,
      AzureOpenAIClient.get_method, Call.starstar.
    destruct (AzureOpenAIClient.mem _ _);
      destruct payload; try reflexivity; now destruct (Hshape items). }
  split; [exact Hturn|]. split.
  - intros Hannounced. rewrite (execute_tool_call_announced rt _ _ _ Hannounced).
    cbn [AzureOpenAIClient.get_tool obind]. now rewrite Htool, Hturn.
  - intros shown e after acc Hloads Hstr Hprint.
    pose proof (execute_tool_call_unannounced rt (Some registry) tc payload shown e
                  Hloads Hstr Hprint) as Hone.
    split; [exact Hone|]. cbn [AzureOpenAIClient.execute_tool_calls]. now rewrite Hone.
Qed.

Lemma ill_shaped_payload_is_a_tool_error_witness :
  AzureOpenAIClient.execute_tool_call Sample.rt (Some Sample.registry)
    (Sample.tool_call "call_1" "add" "[1, 2]")
  = Returned (Turn.result "call_1" "add"
                "Error executing tool: 'list' object has no attribute 'get'")
  /\ AzureOpenAIClient.execute_tool_call Sample.rt (Some Sample.registry)
       (Sample.tool_call "call_2" "factorial" "5")
     = Returned (Turn.result "call_2" "factorial"
                   ("Error executing tool: src.mcp_client.CalculatorTools.factorial() "
                    ++ "argument after ** must be a mapping, not int"))
  /\ AzureOpenAIClient.execute_tool_call Sample.rt (Some Sample.registry)
       (Sample.tool_call "call_3" "add" Sample.lone_surrogate)
     = Raised (Failure "UnicodeEncodeError" "surrogates not allowed").
Proof.
  split; [|split].
  - apply (ill_shaped_payload_is_a_tool_error Sample.rt Sample.registry
             (Sample.tool_call "call_1" "add" "[1, 2]") (VList [VInt 1; VInt 2])
             {| function := CalculatorTools.add_callable Sample.rt;
                description := "Add numbers"; parameters := ["*numbers"] |});
      [discriminate | reflexivity |].
    split; [reflexivity|]. eexists. split; reflexivity.
  - apply (ill_shaped_payload_is_a_tool_error Sample.rt Sample.registry
             (Sample.tool_call "call_2" "factorial" "5") (VInt 5)
             {| function := CalculatorTools.factorial_callable Sample.rt;
                description := "Calculate factorial"; parameters := ["n"] |});
      [discriminate | reflexivity |].
    split; [reflexivity|]. eexists. split; reflexivity.
  - apply (proj2 (proj2 (ill_shaped_payload_is_a_tool_error Sample.rt Sample.registry
             (Sample.tool_call "call_3" "add" Sample.lone_surrogate)
             (VStr (Json.utf8 55357))
             {| function := CalculatorTools.add_callable Sample.rt;
                description := "Add numbers"; parameters := ["*numbers"] |}
             ltac:(discriminate) eq_refl))
           (Json.utf8 55357) (Failure "UnicodeEncodeError" "surrogates not allowed")
           [] [] eq_refl eq_refl eq_refl).
Defined.

(** ** The window and the history *)

(** X8. The snapshot for the backend is always the system preamble
    followed by a suffix of the stored history, which it leaves intact;
    when the window is positive, that suffix has [min(max_history, M)]
    turns, the most recent ones. *)
Theorem snapshot_is_a_recent_suffix (c : client) :
  exists dropped kept,
    conversation_history c = (dropped ++ kept)%list
    /\ AzureOpenAIClient.prepare_messages c = AzureOpenAIClient.system_message :: kept
    /\ ((0 < max_history c)%Z ->
        Z.of_nat (length kept)
        = Z.min (max_history c) (Z.of_nat (length (conversation_history c)))).
Proof.
  destruct (Z.ltb_spec (max_history c) (Z.of_nat (length (conversation_history c))))
    as [Hlt|Hge].
  - destruct (Z.ltb_spec 0 (max_history c)) as [Hpos|Hnonpos].
    + destruct (prepare_messages_bounded c) as [dropped [kept [H1 [H2 H3]]]]; [lia|].
      exists dropped, kept. repeat split; try assumption. lia.
    + unfold AzureOpenAIClient.prepare_messages.
      destruct (Z.gtb_spec (Z.of_nat (length (conversation_history c))) (max_history c));
        [|lia].
      unfold slice_from.
      exists (firstn (Z.to_nat (if (- max_history c <? 0)%Z
                                then Z.max (Z.of_nat (length (conversation_history c))
                                            + - max_history c) 0
                                else Z.min (- max_history c)
                                       (Z.of_nat (length (conversation_history c)))))
                     (conversation_history c)).
      eexists. split; [symmetry; apply firstn_skipn|]. split; [reflexivity | lia].
  - exists [], (conversation_history c). split; [reflexivity|].
    split; [apply prepare_messages_all; lia | lia].
Qed.

Lemma snapshot_is_a_recent_suffix_witness :
  let c := {| deployment := "gpt-4";
              conversation_history :=
                [Turn.plain "user" (Some "1"); Turn.plain "user" (Some "2");
                 Turn.plain "user" (Some "3")];
              max_history := 2 |} in
  (0 < max_history c)%Z
  /\ exists dropped kept,
       conversation_history c = (dropped ++ kept)%list
       /\ AzureOpenAIClient.prepare_messages c = AzureOpenAIClient.system_message :: kept
       /\ Z.of_nat (length kept) = 2%Z.
Proof.
  cbn zeta. split; [reflexivity|].
  destruct (snapshot_is_a_recent_suffix
              {| deployment := "gpt-4";
                 conversation_history :=
                   [Turn.plain "user" (Some "1"); Turn.plain "user" (Some "2");
                    Turn.plain "user" (Some "3")];
                 max_history := 2 |}) as [dropped [kept [H1 [H2 H3]]]].
  exists dropped, kept. split; [exact H1|]. split; [exact H2|].
  exact (H3 eq_refl).
Defined.

(** X9. [clear_history] returns the number of stored turns and leaves an
    empty history: [get_history_length] then reports 0 and the snapshot
    is the preamble alone, while the deployment, the window size and the
    backend are untouched.  [clear_conversation] of the user interface
    does the same, returns an empty display list and reports the count. *)
Theorem clear_history_empties_the_history (w : world) :
  let cleared := {| self := {| deployment := deployment (self w);
                               conversation_history := [];
                               max_history := max_history (self w) |};
                    sent := sent w |} in
  let count := Z.of_nat (length (conversation_history (self w))) in
  AzureOpenAIClient.clear_history w = (Returned count, cleared)
  /\ AzureOpenAIClient.get_history_length cleared = (Returned 0%Z, cleared)
  /\ AzureOpenAIClient.prepare_messages (self cleared) = [AzureOpenAIClient.system_message]
  /\ App.clear_conversation w
     = (Returned ([], "Cleared " ++ PyStr.of_int count ++ " messages from history"),
        cleared).
Proof.
  cbn zeta. split; [reflexivity|]. split; [reflexivity|]. split; [|reflexivity].
  unfold AzureOpenAIClient.prepare_messages.
  cbn [self conversation_history max_history length].
  destruct (Z.of_nat 0 >? max_history (self w))%Z; [|reflexivity].
  unfold slice_from. now rewrite skipn_nil.
Qed.

(** ** The entry point of the user interface *)



(** ** Integer arithmetic of the calculator *)


(** X11. On integers [add] is exact as far as the interpreter converts
    them to text.  For every list of integers, of any size, whose sum and
    terms are within the limit on digits, it returns "Result: S" and the
    calculation line "z1 + ... + zn = S" with S their sum.  When the sum
    or a term is beyond the limit, it raises the [ValueError] of the
    conversion instead.  Dispatched under the name add with the integers
    in the array "numbers", the iteration appends the tool-result turn
    with that text, or with "Error executing tool: ..." for the
    [ValueError]. *)
Theorem add_sums_integers (rt : runtime) (ext : external_tools) (zs : list Z) :
  let total := fold_right Z.add 0%Z zs in
  let text := "Result: " ++ PyStr.of_int total ++ nl ++ "Calculation: "
              ++ PyStr.join " + " (map PyStr.of_int zs) ++ " = " ++ PyStr.of_int total in
  let called tc kwargs :=
    Response.name (Response.function tc) = "add"
    /\ announced rt tc (VDict kwargs)
    /\ Dict.get kwargs "numbers" = Some (VList (map VInt zs)) in
  (Forall (fits rt) (total :: zs) ->
   CalculatorTools.add rt (map VInt zs) = Returned text
   /\ forall tc kwargs,
        called tc kwargs ->
        AzureOpenAIClient.execute_tool_call rt (Some (MCPToolRegistry.init rt ext)) tc
        = Returned (Turn.result (Response.id tc) "add" text))
  /\ (Exists (fun z => ~ fits rt z) (total :: zs) ->
      CalculatorTools.add rt (map VInt zs) = Raised (ValueError IntToStrLimit)
      /\ forall tc kwargs,
           called tc kwargs ->
           AzureOpenAIClient.execute_tool_call rt (Some (MCPToolRegistry.init rt ext)) tc
           = Returned (Turn.result (Response.id tc) "add"
                         ("Error executing tool: " ++ value_error_text rt IntToStrLimit))).
Proof.
  cbn zeta. split.
  - intros Hfits. inversion Hfits as [|? ? Htotal Hzs]; subst.
    split; [now apply add_integers|].
    intros tc kwargs [Hname [Hannounced Hget]].
    rewrite (execute_tool_call_announced rt _ _ _ Hannounced).
    cbn [AzureOpenAIClient.get_tool obind]. rewrite Hname.
    now rewrite (tool_result_add rt ext tc kwargs zs Hname Hget Htotal Hzs).
  - intros Hsome. pose proof (add_refused rt zs Hsome) as Hadd. split; [exact Hadd|].
    intros tc kwargs [Hname [Hannounced Hget]].
    rewrite (execute_tool_call_announced rt _ _ _ Hannounced).
    cbn [AzureOpenAIClient.get_tool obind]. rewrite Hname.
    unfold AzureOpenAIClient.tool_result. rewrite Hname.
    change (MCPToolRegistry.get_tool (MCPToolRegistry.init rt ext) "add")
      with (Some {| function := CalculatorTools.add_callable rt;
                    description := "Add numbers"; parameters := ["*numbers"] |}).
    cbv beta iota.
    rewrite (call_tool_numbers "add" _ kwargs (map VInt zs) eq_refl Hget).
    cbn [function CalculatorTools.add_callable call]. now rewrite Hadd.
Qed.

Lemma add_sums_integers_witness :
  AzureOpenAIClient.execute_tool_call Sample.rt (Some Sample.registry)
    (Sample.tool_call "call_1" "add" Sample.one_and_two)
  = Returned (Turn.result "call_1" "add" ("Result: 3" ++ nl ++ "Calculation: 1 + 2 = 3"))
  /\ CalculatorTools.add Sample.rt [VInt (9 * 10 ^ 4299); VInt (9 * 10 ^ 4299)]
     = Raised (ValueError IntToStrLimit).
Proof.
  split.
  - destruct (proj1 (add_sums_integers Sample.rt Sample.ext [1; 2]%Z)) as [_ Hcall];
      [repeat constructor |].
    apply (Hcall (Sample.tool_call "call_1" "add" Sample.one_and_two)
                 [("numbers", VList [VInt 1; VInt 2])]).
    split; [reflexivity|]. split; [|reflexivity].
    split; [reflexivity|]. eexists. split; reflexivity.
  - apply (proj2 (add_sums_integers Sample.rt Sample.ext
                    [9 * 10 ^ 4299; 9 * 10 ^ 4299]%Z)).
    apply Exists_cons_hd. unfold fits. vm_compute. discriminate.
Defined.

(** X12. On integers [multiply] is exact as far as the interpreter
    converts them to text: for every list of integers whose product and
    factors are within the limit on digits it returns "Result: P" and the
    calculation line "z1 × ... × zn = P" with P their product, and when
    the product or a factor is beyond the limit it raises the
    [ValueError] of the conversion.  So does the registry's tool when
    dispatched under the name multiply, the [ValueError] becoming an
    "Error executing tool: ..." turn. *)
Theorem multiply_multiplies_integers (rt : runtime) (ext : external_tools) (zs : list Z) :
  let total := fold_right Z.mul 1%Z zs in
  let text := "Result: " ++ PyStr.of_int total ++ nl ++ "Calculation: "
              ++ PyStr.join " × " (map PyStr.of_int zs) ++ " = " ++ PyStr.of_int total in
  let called tc kwargs :=
    Response.name (Response.function tc) = "multiply"
    /\ announced rt tc (VDict kwargs)
    /\ Dict.get kwargs "numbers" = Some (VList (map VInt zs)) in
  (Forall (fits rt) (total :: zs) ->
   CalculatorTools.multiply rt (map VInt zs) = Returned text
   /\ forall tc kwargs,
        called tc kwargs ->
        AzureOpenAIClient.execute_tool_call rt (Some (MCPToolRegistry.init rt ext)) tc
        = Returned (Turn.result (Response.id tc) "multiply" text))
  /\ (Exists (fun z => ~ fits rt z) (total :: zs) ->
      CalculatorTools.multiply rt (map VInt zs) = Raised (ValueError IntToStrLimit)
      /\ forall tc kwargs,
           called tc kwargs ->
           AzureOpenAIClient.execute_tool_call rt (Some (MCPToolRegistry.init rt ext)) tc
           = Returned (Turn.result (Response.id tc) "multiply"
                         ("Error executing tool: " ++ value_error_text rt IntToStrLimit))).
Proof.
  cbn zeta. split.
  - intros Hfits. inversion Hfits as [|? ? Htotal Hzs]; subst.
    split; [now apply multiply_integers|].
    intros tc kwargs [Hname [Hannounced Hget]].
    rewrite (execute_tool_call_announced rt _ _ _ Hannounced).
    cbn [AzureOpenAIClient.get_tool obind]. rewrite Hname.
    now rewrite (tool_result_multiply rt ext tc kwargs zs Hname Hget Htotal Hzs).
  - intros Hsome. pose proof (multiply_refused rt zs Hsome) as Hmul. split; [exact Hmul|].
    intros tc kwargs [Hname [Hannounced Hget]].
    rewrite (execute_tool_call_announced rt _ _ _ Hannounced).
    cbn [AzureOpenAIClient.get_tool obind]. rewrite Hname.
    unfold AzureOpenAIClient.tool_result. rewrite Hname.
    change (MCPToolRegistry.get_tool (MCPToolRegistry.init rt ext) "multiply")
      with (Some {| function := CalculatorTools.multiply_callable rt;
                    description := "Multiply numbers"; parameters := ["*numbers"] |}).
    cbv beta iota.
    rewrite (call_tool_numbers "multiply" _ kwargs (map VInt zs) eq_refl Hget).
    cbn [function CalculatorTools.multiply_callable call]. now rewrite Hmul.
Qed.

Lemma multiply_multiplies_integers_witness :
  AzureOpenAIClient.execute_tool_call Sample.rt (Some Sample.registry)
    (Sample.tool_call "call_1" "multiply" Sample.one_and_two)
  = Returned (Turn.result "call_1" "multiply"
                ("Result: 2" ++ nl ++ "Calculation: 1 × 2 = 2"))
  /\ CalculatorTools.multiply Sample.rt [VInt (10 ^ 2200); VInt (10 ^ 2200)]
     = Raised (ValueError IntToStrLimit).
Proof.
  split.
  - destruct (proj1 (multiply_multiplies_integers Sample.rt Sample.ext [1; 2]%Z))
      as [_ Hcall]; [repeat constructor |].
    apply (Hcall (Sample.tool_call "call_1" "multiply" Sample.one_and_two)
                 [("numbers", VList [VInt 1; VInt 2])]).
    split; [reflexivity|]. split; [|reflexivity].
    split; [reflexivity|]. eexists. split; reflexivity.
  - apply (proj2 (multiply_multiplies_integers Sample.rt Sample.ext
                    [10 ^ 2200; 10 ^ 2200]%Z)).
    apply Exists_cons_hd. unfold fits. vm_compute. discriminate.
Defined.

(** X13. Called by keyword with integers under "a" and "b" and no other
    key, [subtract] returns "Result: D" and the calculation line
    "a - b = D" with D the exact difference, when D, a and b are within
    the limit on the digits of a conversion; when one of them is beyond
    it, the call raises the [ValueError] of the conversion.  When either
    key is missing, or an unknown key is given, the call raises the
    [TypeError] of a call that does not fit the signature; it returns no
    text. *)
Theorem subtract_by_keyword (rt : runtime) (kwargs : list (string * value)) :
  let misfit := Raised (TypeError (BadSignature "CalculatorTools.subtract" [] kwargs)) in
  (forall a b,
      Dict.get kwargs "a" = Some (VInt a) ->
      Dict.get kwargs "b" = Some (VInt b) ->
      (forall k, In k (Dict.keys kwargs) -> k = "a" \/ k = "b") ->
      (Forall (fits rt) [a - b; a; b]%Z ->
       CalculatorTools.subtract_callable rt [] kwargs
       = Returned ("Result: " ++ PyStr.of_int (a - b) ++ nl ++ "Calculation: "
                   ++ PyStr.of_int a ++ " - " ++ PyStr.of_int b ++ " = "
                   ++ PyStr.of_int (a - b)))
      /\ (Exists (fun z => ~ fits rt z) [a - b; a; b]%Z ->
          CalculatorTools.subtract_callable rt [] kwargs
          = Raised (ValueError IntToStrLimit)))
  /\ (Dict.get kwargs "a" = None \/ Dict.get kwargs "b" = None ->
      CalculatorTools.subtract_callable rt [] kwargs = misfit)
  /\ ((exists k, In k (Dict.keys kwargs) /\ k <> "a" /\ k <> "b") ->
      CalculatorTools.subtract_callable rt [] kwargs = misfit).
Proof.
  cbn zeta. unfold CalculatorTools.subtract_callable, Call.bind.
  cbn [map fst call].
  split; [|split].
  - intros a b Ha Hb Hkeys.
    assert (Hall : forallb (fun k => existsb (String.eqb k) ["a"; "b"]) (Dict.keys kwargs)
                   = true).
    { apply forallb_forall. intros k Hk. cbn [existsb].
      destruct (Hkeys k Hk) as [-> | ->]; reflexivity. }
    rewrite Hall. cbn [Call.fill]. rewrite Ha, Hb. cbn [obind].
    unfold CalculatorTools.subtract. cbn [arith obind].
    pose proof (strs_integers rt [a - b; a; b]%Z) as Hshown.
    pose proof (strs_refused rt [a - b; a; b]%Z) as Hrefused.
    cbn [map strs] in Hshown, Hrefused.
    split; intros Hdigits.
    + specialize (Hshown Hdigits).
      destruct (str rt (VInt (a - b))) as [shown|]; cbn [obind] in *; [|discriminate].
      destruct (str rt (VInt a)) as [shown_a|]; cbn [obind] in *; [|discriminate].
      destruct (str rt (VInt b)) as [shown_b|]; cbn [obind] in *; [|discriminate].
      now injection Hshown as -> -> ->.
    + specialize (Hrefused Hdigits).
      destruct (str rt (VInt (a - b))) as [shown|]; cbn [obind] in *;
        [|now injection Hrefused as ->].
      destruct (str rt (VInt a)) as [shown_a|]; cbn [obind] in *;
        [|now injection Hrefused as ->].
      destruct (str rt (VInt b)) as [shown_b|]; cbn [obind] in *;
        [discriminate | now injection Hrefused as ->].
  - intros Hmissing.
    destruct (forallb _ (Dict.keys kwargs)); [|reflexivity].
    cbn [Call.fill].
    destruct (Dict.get kwargs "a") as [va|]; [|reflexivity].
    destruct (Dict.get kwargs "b") as [vb|]; [|reflexivity].
    destruct Hmissing; discriminate.
  - intros [k [Hk [Ha Hb]]].
    assert (Hall : forallb (fun k => existsb (String.eqb k) ["a"; "b"]) (Dict.keys kwargs)
                   = false).
    { destruct (forallb _ (Dict.keys kwargs)) eqn:Hf; [|reflexivity].
      rewrite forallb_forall in Hf. specialize (Hf k Hk). cbn [existsb] in Hf.
      destruct (String.eqb_spec k "a"); [contradiction|].
      destruct (String.eqb_spec k "b"); [contradiction | discriminate]. }
    now rewrite Hall.
Qed.

Lemma subtract_by_keyword_witness :
  CalculatorTools.subtract_callable Sample.rt [] [("b", VInt 7); ("a", VInt 5)]
  = Returned ("Result: -2" ++ nl ++ "Calculation: 5 - 7 = -2")
  /\ CalculatorTools.subtract_callable Sample.rt []
       [("a", VInt (9 * 10 ^ 4299)); ("b", VInt (- (9 * 10 ^ 4299)))]
     = Raised (ValueError IntToStrLimit)
  /\ CalculatorTools.subtract_callable Sample.rt [] [("a", VInt 5)]
     = Raised (TypeError (BadSignature "CalculatorTools.subtract" [] [("a", VInt 5)])).
Proof.
  split; [|split].
  - apply (proj1 (proj1 (subtract_by_keyword Sample.rt [("b", VInt 7); ("a", VInt 5)])
                    5%Z 7%Z eq_refl eq_refl
                    ltac:(intros k [<-|[<-|[]]]; auto))).
    repeat constructor.
  - apply (proj2 (proj1 (subtract_by_keyword Sample.rt
                           [("a", VInt (9 * 10 ^ 4299)); ("b", VInt (- (9 * 10 ^ 4299)))])
                    (9 * 10 ^ 4299)%Z (- (9 * 10 ^ 4299))%Z eq_refl eq_refl
                    ltac:(intros k [<-|[<-|[]]]; auto))).
    apply Exists_cons_hd. unfold fits. vm_compute. discriminate.
  - apply (proj1 (proj2 (subtract_by_keyword Sample.rt [("a", VInt 5)]))).
    right. reflexivity.
Defined.

(** ** The server table of [MCPClient] *)

Section Servers.
Import MCPClient Calls.



End Servers.


(** ** The calculation history of the calculator server *)

Section CalculationHistory.
Import CalculatorServer Calls.

Lemma add_to_history_window (h : list calculation) (c : string * value) :
  (length h <= 100)%nat ->
  add_to_history (fst c) (snd c) h
  = skipn (length (h ++ [entry_of c]) - 100) (h ++ [entry_of c])%list
  /\ (length (add_to_history (fst c) (snd c) h) <= 100)%nat.
Proof.
  intros Hlen. unfold add_to_history. fold (entry_of c).
  assert (Hl : length (h ++ [entry_of c]) = S (length h))
    by (rewrite length_app; cbn; lia).
  rewrite Hl.
  destruct (Nat.ltb_spec 100 (S (length h))) as [Hfull|Hroom].
  - replace (S (length h) - 100)%nat with 1%nat by lia.
    remember (h ++ [entry_of c])%list as a eqn:Ha.
    destruct a as [|x rest]; [discriminate Hl|].
    cbn [tl skipn]. split; [reflexivity|]. cbn [length] in Hl.
    injection Hl as Hl. rewrite Hl. exact Hlen.
  - replace (S (length h) - 100)%nat with 0%nat by lia. cbn [skipn].
    split; [reflexivity | lia].
Qed.

Lemma history_from_window (calls : list (string * value)) (h : list calculation) :
  (length h <= 100)%nat ->
  history_from h calls
  = skipn (length (h ++ map entry_of calls) - 100) (h ++ map entry_of calls)%list.
Proof.
  revert h. induction calls as [|c calls IH]; intros h Hlen;
    cbn [history_from fold_left map].
  - rewrite app_nil_r. now replace (length h - 100)%nat with 0%nat by lia.
  - destruct (add_to_history_window h c Hlen) as [Hstep Hbound].
    fold (history_from (add_to_history (fst c) (snd c) h) calls).
    rewrite (IH _ Hbound), Hstep.
    assert (Hl : length (h ++ [entry_of c]) = S (length h))
      by (rewrite length_app; cbn; lia).
    replace (h ++ entry_of c :: map entry_of calls)%list
      with ((h ++ [entry_of c]) ++ map entry_of calls)%list
      by (now rewrite <- app_assoc).
    set (a := (h ++ [entry_of c])%list) in *.
    destruct (Nat.leb_spec (length a) 100) as [Hroom|Hfull].
    + now replace (length a - 100)%nat with 0%nat by lia.
    + replace (length a - 100)%nat with 1%nat by lia.
      destruct a as [|x rest]; [cbn in Hl; lia|]. cbn [skipn app length].
      replace (S (length (rest ++ map entry_of calls)) - 100)%nat
        with (S (length (rest ++ map entry_of calls) - 100))%nat.
      * reflexivity.
      * cbn [length] in Hl, Hfull. rewrite length_app. lia.
Qed.

End CalculationHistory.

(** X15. The calculation history never holds more than 100 entries:
    after any sequence of [add_to_history] calls on the empty list it
    holds the entries of the most recent [min(n, 100)] calls, oldest
    first. *)
Theorem history_keeps_the_last_hundred (calls : list (string * value)) :
  let history := Calls.history_from [] calls in
  history = skipn (length calls - 100) (map Calls.entry_of calls)
  /\ length history = Nat.min (length calls) 100.
Proof.
  cbn zeta. rewrite history_from_window by (cbn; lia). cbn [app].
  rewrite length_map. split; [reflexivity|]. rewrite length_skipn, length_map. lia.
Qed.

(** ** The file tools *)


Section Files.
Import FileSystemTools.

Lemma insert_sorted_permutation x l : Permutation (x :: l) (insert_sorted x l).
Proof.
  induction l as [|y l IH]; cbn [insert_sorted]; [reflexivity|].
  destruct (String.leb x y); [reflexivity|].
  rewrite perm_swap. now constructor.
Qed.

Lemma sorted_permutation l : Permutation l (sorted l).
Proof.
  induction l as [|x l IH]; cbn [sorted fold_right]; [constructor|].
  fold (sorted l). rewrite <- insert_sorted_permutation. now constructor.
Qed.

Lemma insert_sorted_ordered x l :
  Sorted precedes l -> Sorted precedes (insert_sorted x l).
Proof.
  induction 1 as [|y l Hl IH Hhd]; cbn [insert_sorted].
  - repeat constructor.
  - destruct (String.leb x y) eqn:Hxy.
    + constructor; [now constructor | now constructor].
    + constructor; [exact IH|].
      destruct (String.leb_total x y) as [H|H]; [congruence|].
      destruct l as [|z l]; cbn [insert_sorted]; [now constructor|].
      destruct (String.leb x z); constructor; [exact H|].
      now inversion Hhd.
Qed.

Lemma sorted_ordered l : Sorted precedes (sorted l).
Proof.
  induction l as [|x l IH]; cbn [sorted fold_right]; [constructor|].
  now apply insert_sorted_ordered.
Qed.

Lemma sorted_nonempty l : l <> [] -> sorted l <> [].
Proof.
  intros Hl Hs. apply Hl. apply Permutation_nil. rewrite <- Hs. symmetry.
  apply sorted_permutation.
Qed.

Variable rt : runtime.
Variable path : Type.
Variable fs : file_system path.
Variable base_path : path.

Lemma regular_names_filter (regular : path -> bool) (items : list path) :
  (forall f, In f items -> is_file fs f = Returned (regular f)) ->
  regular_names path fs items = Returned (map (name_of fs) (filter regular items)).
Proof.
  induction items as [|f items IH]; intros Hall; cbn [regular_names filter map].
  - reflexivity.
  - rewrite (Hall f (or_introl eq_refl)). cbn [obind].
    rewrite IH by (intros g Hg; apply Hall; now right). cbn [obind].
    destruct (regular f); reflexivity.
Qed.

Lemma append_inv_head (s a b : string) : s ++ a = s ++ b -> a = b.
Proof.
  induction s as [|c s IH]; cbn [append]; [auto|]. intros [= H]. auto.
Qed.

End Files.

(** X16. [list_files] on a directory whose entries can all be examined.
    If the iteration over the matches ends normally, the text is "No
    files found matching pattern: ..." when no match is a regular file
    (or "Error listing files: ..." if the pattern has no text), and
    otherwise "Files found (n):" followed by one line per regular
    file, n being their number and the names being listed in ascending
    order, each as often as it was matched.  If the iteration ends with
    an exception, the text is "Error listing files: ..." and no file is
    listed. *)
Theorem list_files_lists_regular_files (rt : runtime) (path : Type)
    (fs : file_system path) (base_path : path) (pattern : value)
    (items : list path) (regular : path -> bool) :
  (forall f, In f items -> is_file fs f = Returned (regular f)) ->
  let names := map (name_of fs) (filter regular items) in
  (forall e,
      glob fs base_path pattern = (items, Some e) ->
      FileSystemTools.list_files rt path fs base_path pattern
      = "Error listing files: " ++ str_exn rt e)
  /\ (glob fs base_path pattern = (items, None) ->
      (names = [] ->
       FileSystemTools.list_files rt path fs base_path pattern
       = match str rt pattern with
         | Returned shown => "No files found matching pattern: " ++ shown
         | Raised e => "Error listing files: " ++ str_exn rt e
         end)
      /\ (names <> [] ->
          exists listing,
            Permutation names listing
            /\ Sorted precedes listing
            /\ FileSystemTools.list_files rt path fs base_path pattern
               = "Files found (" ++ PyStr.of_int (Z.of_nat (length names)) ++ "):" ++ nl
                 ++ PyStr.join nl (map (fun f => "  - " ++ f) listing))).
Proof.
  intros Hfiles. cbn zeta.
  pose proof (regular_names_filter path fs regular items Hfiles) as Hnames.
  unfold FileSystemTools.list_files, FileSystemTools.list_files_body.
  split.
  - intros e ->. now rewrite Hnames.
  - intros ->. rewrite Hnames. cbn [obind]. split.
    + intros Hempty. rewrite Hempty. now destruct (str rt pattern).
    + intros Hnonempty.
      exists (FileSystemTools.sorted (map (name_of fs) (filter regular items))).
      split; [apply sorted_permutation|]. split; [apply sorted_ordered|].
      destruct (map (name_of fs) (filter regular items)) as [|n ns];
        [now destruct Hnonempty | reflexivity].
Qed.

Lemma list_files_lists_regular_files_witness :
  FileSystemTools.list_files Sample.rt string SampleFiles.fs SampleFiles.base_path
    (VStr "*")
  = "Files found (2):" ++ nl ++ "  - a.txt" ++ nl ++ "  - b.txt".
Proof.
  destruct (proj2 (list_files_lists_regular_files Sample.rt string SampleFiles.fs
                     SampleFiles.base_path (VStr "*")
                     (map fst SampleFiles.entries)
                     (fun p => match Dict.get SampleFiles.entries p with
                               | Some (_, regular) => regular
                               | None => false
                               end)
                     (fun f _ => eq_refl))
                  eq_refl) as [_ Hlisted].
  destruct Hlisted as [listing [_ [_ Htext]]]; [discriminate|].
  reflexivity.
Defined.

(** X17. [read_file] returns the contents of a file exactly when the
    path joined to the base directory resolves to a text that starts
    with the resolved text of the base directory, exists and can be
    read; the test is on the texts, character by character.  When the
    resolved text does not start with that of the base directory, the
    answer is the access-denied message, whatever the file system holds
    at that path.  (The file name is shown by its text; were it a value
    without text, the answer past the test on the paths would be "Error
    reading file: ...".) *)
Theorem read_file_checks_the_prefix (rt : runtime) (path : Type)
    (fs : file_system path) (base_path : path) (filename : value) :
  (forall shown content,
      str rt filename = Returned shown ->
      FileSystemTools.read_file rt path fs base_path filename
      = "Contents of " ++ shown ++ ":" ++ nl ++ nl ++ content
      <-> exists p resolved allowed,
            join_path fs base_path filename = Returned p
            /\ resolve fs p = Returned resolved
            /\ resolve fs base_path = Returned allowed
            /\ PyStr.startswith resolved allowed = true
            /\ path_exists fs p = Returned true
            /\ read_text fs p = Returned content)
  /\ (forall p resolved allowed,
        join_path fs base_path filename = Returned p ->
        resolve fs p = Returned resolved ->
        resolve fs base_path = Returned allowed ->
        PyStr.startswith resolved allowed = false ->
        FileSystemTools.read_file rt path fs base_path filename
        = "Error: Access denied to file outside allowed directory")
  /\ (forall e p resolved allowed found,
        str rt filename = Raised e ->
        join_path fs base_path filename = Returned p ->
        resolve fs p = Returned resolved ->
        resolve fs base_path = Returned allowed ->
        PyStr.startswith resolved allowed = true ->
        path_exists fs p = Returned found ->
        (found = true -> exists content, read_text fs p = Returned content) ->
        FileSystemTools.read_file rt path fs base_path filename
        = "Error reading file: " ++ str_exn rt e).
Proof.
  unfold FileSystemTools.read_file, FileSystemTools.read_file_body.
  split; [|split].
  - intros shown content Hshown. rewrite Hshown. split.
    + destruct (join_path fs base_path filename) as [p|e] eqn:Hj; cbn [obind];
        [|discriminate].
      destruct (resolve fs p) as [resolved|e] eqn:Hr; cbn [obind]; [|discriminate].
      destruct (resolve fs base_path) as [allowed|e] eqn:Ha; cbn [obind]; [|discriminate].
      destruct (PyStr.startswith resolved allowed) eqn:Hprefix; cbn [negb];
        [|discriminate].
      destruct (path_exists fs p) as [[|]|e] eqn:He; cbn [obind negb]; try discriminate.
      destruct (read_text fs p) as [text|e] eqn:Ht; cbn [obind]; [|discriminate].
      intros Heq.
      change ("Contents of " ++ shown ++ ":" ++ nl ++ nl ++ text)
        with ("Contents of " ++ (shown ++ ":" ++ nl ++ nl ++ text)) in Heq.
      apply append_inv_head, append_inv_head in Heq.
      apply (append_inv_head (":" ++ nl ++ nl)) in Heq. subst text.
      exists p, resolved, allowed. repeat split; assumption.
    + intros [p [resolved [allowed [-> [Hr [Ha [Hprefix [He Ht]]]]]]]]. cbn [obind].
      rewrite Hr. cbn [obind]. rewrite Ha. cbn [obind]. rewrite Hprefix. cbn [negb].
      rewrite He. cbn [obind negb]. now rewrite Ht.
  - intros p resolved allowed -> Hr Ha Hprefix. cbn [obind].
    rewrite Hr. cbn [obind]. rewrite Ha. cbn [obind]. now rewrite Hprefix.
  - intros e p resolved allowed found Hshown -> Hr Ha Hprefix He Hread. cbn [obind].
    rewrite Hr. cbn [obind]. rewrite Ha. cbn [obind]. rewrite Hprefix. cbn [negb].
    rewrite He, Hshown. cbn [obind]. destruct found; cbn [negb obind]; [|reflexivity].
    destruct (Hread eq_refl) as [content ->]. reflexivity.
Qed.

Lemma read_file_checks_the_prefix_witness :
  FileSystemTools.read_file Sample.rt string SampleFiles.fs SampleFiles.base_path
    (VStr "a.txt")
  = "Contents of a.txt:" ++ nl ++ nl ++ "text of /srv/test_files/a.txt"
  /\ FileSystemTools.read_file Sample.rt string
       {| glob := glob SampleFiles.fs; is_file := is_file SampleFiles.fs;
          name_of := name_of SampleFiles.fs; join_path := join_path SampleFiles.fs;
          resolve := fun p => Returned (if String.eqb p SampleFiles.base_path
                                        then p else "/etc/passwd");
          path_exists := path_exists SampleFiles.fs;
          read_text := read_text SampleFiles.fs |}
       SampleFiles.base_path (VStr "../../etc/passwd")
     = "Error: Access denied to file outside allowed directory".
Proof.
  split.
  - apply (proj1 (read_file_checks_the_prefix Sample.rt string SampleFiles.fs
                    SampleFiles.base_path (VStr "a.txt")) "a.txt" _ eq_refl).
    exists "/srv/test_files/a.txt", "/srv/test_files/a.txt", "/srv/test_files".
    repeat split.
  - apply (proj1 (proj2 (read_file_checks_the_prefix Sample.rt string _
                           SampleFiles.base_path (VStr "../../etc/passwd")))
             "/srv/test_files/../../etc/passwd" "/etc/passwd" "/srv/test_files");
      reflexivity.
Defined.

(** ** The unit conversions *)

Section Units.
Import Conversions.
Variable rt : runtime.
Variable fmt : formatting.

Lemma to_celsius_unknown val from_unit :
  from_unit <> "F" -> from_unit <> "K" -> to_celsius rt val from_unit = Returned val.
Proof.
  intros HF HK. unfold to_celsius.
  destruct (String.eqb_spec from_unit "F"); [contradiction|].
  destruct (String.eqb_spec from_unit "K"); [contradiction | reflexivity].
Qed.

Lemma of_celsius_unknown celsius to_unit :
  to_unit <> "F" -> to_unit <> "K" -> of_celsius rt celsius to_unit = Returned celsius.
Proof.
  intros HF HK. unfold of_celsius.
  destruct (String.eqb_spec to_unit "F"); [contradiction|].
  destruct (String.eqb_spec to_unit "K"); [contradiction | reflexivity].
Qed.

Lemma subscript_unknown {V} (d : list (string * V)) key :
  ~ In key (Dict.keys d) ->
  subscript fmt d key = Raised (Failure "KeyError" (repr_str fmt key)).
Proof.
  intros Hkey. unfold subscript. destruct (Dict.get d key) eqn:Hget; [|reflexivity].
  destruct Hkey. apply dict_get_in_keys. eauto.
Qed.

(** Binding a call made by keyword only: every keyword names a
    parameter, and every parameter has its keyword or its default. *)
Lemma bind_keywords callee (sig : Call.signature) kwargs vals :
  (forall k, In k (Dict.keys kwargs) -> In k (map fst sig)) ->
  Forall2 (fun param v =>
             Dict.get kwargs (fst param) = Some v
             \/ (Dict.get kwargs (fst param) = None /\ snd param = Some v))
          sig vals ->
  Call.bind callee sig [] kwargs = Returned vals.
Proof.
  intros Hkeys Hvals. unfold Call.bind.
  assert (Hall : forallb (fun k => existsb (String.eqb k) (map fst sig)) (Dict.keys kwargs)
                 = true).
  { apply forallb_forall. intros k Hk. apply existsb_exists.
    exists k. split; [now apply Hkeys | apply String.eqb_refl]. }
  rewrite Hall. clear Hall Hkeys.
  induction Hvals as [|[n d] v sig vals Hv _ IH]; cbn [Call.fill]; [reflexivity|].
  cbn [fst snd] in Hv. rewrite IH.
  destruct Hv as [-> | [-> ->]]; [destruct d|]; reflexivity.
Qed.

End Units.

(** X18. [convert_temperature] does not check its units.  With equal
    units, whatever their text, it returns the value as given under "(No
    conversion needed)", without any arithmetic.  A source unit other
    than "F" and "K" is taken as Celsius whatever its text, and likewise
    a target unit other than "F" and "K"; between two such units the
    number is only formatted, not changed.  (The value is shown by its
    text, which the interpreter gives or refuses.) *)
Theorem temperature_units_are_not_checked (rt : runtime) (fmt : formatting)
    (val : value) (from_unit to_unit : string) :
  let report shown given :=
    "Result: " ++ shown ++ " " ++ to_unit ++ nl ++ "Conversion: " ++ given ++ " "
    ++ from_unit ++ " = " ++ shown ++ " " ++ to_unit in
  (from_unit = to_unit ->
   Conversions.convert_temperature rt fmt val from_unit to_unit
   = (given <- str rt val ;;
      Returned ("Result: " ++ given ++ " " ++ to_unit ++ nl
                ++ "(No conversion needed)"))%outcome)
  /\ (from_unit <> to_unit -> from_unit <> "F" -> from_unit <> "K" ->
      Conversions.convert_temperature rt fmt val from_unit to_unit
      = (result <- Conversions.of_celsius rt val to_unit ;;
         shown <- format_fixed fmt 2 result ;;
         given <- str rt val ;;
         Returned (report shown given))%outcome)
  /\ (from_unit <> to_unit -> from_unit <> "F" -> from_unit <> "K" ->
      to_unit <> "F" -> to_unit <> "K" ->
      Conversions.convert_temperature rt fmt val from_unit to_unit
      = (shown <- format_fixed fmt 2 val ;;
         given <- str rt val ;;
         Returned (report shown given))%outcome).
Proof.
  cbn zeta. unfold Conversions.convert_temperature. split; [|split].
  - intros ->. now rewrite String.eqb_refl.
  - intros Hne HF HK. destruct (String.eqb_spec from_unit to_unit); [contradiction|].
    rewrite to_celsius_unknown by assumption. reflexivity.
  - intros Hne HF HK HF' HK'. destruct (String.eqb_spec from_unit to_unit); [contradiction|].
    rewrite to_celsius_unknown by assumption. cbn [obind].
    rewrite of_celsius_unknown by assumption. reflexivity.
Qed.

Lemma temperature_units_are_not_checked_witness :
  Conversions.convert_temperature Sample.rt Tools.sample_formatting (VStr "warm")
    "degrees" "degrees"
  = Returned ("Result: warm degrees" ++ nl ++ "(No conversion needed)")
  /\ Conversions.convert_temperature Sample.rt Tools.sample_formatting (VInt 100)
       "C" "Kelvin"
     = Returned ("Result: 100.00 Kelvin" ++ nl ++ "Conversion: 100 C = 100.00 Kelvin").
Proof.
  split.
  - rewrite (proj1 (temperature_units_are_not_checked Sample.rt Tools.sample_formatting
                      (VStr "warm") "degrees" "degrees") eq_refl). reflexivity.
  - rewrite (proj2 (proj2 (temperature_units_are_not_checked Sample.rt
                             Tools.sample_formatting (VInt 100) "C" "Kelvin")));
      try discriminate. reflexivity.
Defined.

(** X19. [convert_distance] returns the value as given when the two
    units are equal, whatever their text.  With different units, a
    source unit outside m, ft, mi, km makes it raise the [KeyError] of
    that unit for every value, and a target unit outside them means it
    never returns a text: the tool raises instead of answering with an
    error message.  Dispatched by the orchestrator, in an iteration that
    has decoded the arguments and printed its line, the raised
    [KeyError] becomes the tool-result turn "Error executing tool: ...". *)
Theorem distance_units_must_be_known (rt : runtime) (fmt : formatting)
    (val : value) (from_unit to_unit : string) :
  (from_unit = to_unit ->
   Conversions.convert_distance rt fmt val from_unit to_unit
   = (given <- str rt val ;;
      Returned ("Result: " ++ given ++ " " ++ to_unit ++ nl
                ++ "(No conversion needed)"))%outcome)
  /\ (from_unit <> to_unit -> ~ In from_unit Tools.distance_units ->
      Conversions.convert_distance rt fmt val from_unit to_unit
      = Raised (Failure "KeyError" (repr_str fmt from_unit)))
  /\ (from_unit <> to_unit -> ~ In to_unit Tools.distance_units ->
      forall text,
        Conversions.convert_distance rt fmt val from_unit to_unit <> Returned text)
  /\ (from_unit <> to_unit -> ~ In from_unit Tools.distance_units ->
      forall (path : Type) (fs : file_system path) (base_path : path)
             (search_content : callable) tc kwargs,
        Response.name (Response.function tc) = "convert_distance" ->
        announced rt tc (VDict kwargs) ->
        Dict.get kwargs "value" = Some val ->
        Dict.get kwargs "from_unit" = Some (VStr from_unit) ->
        Dict.get kwargs "to_unit" = Some (VStr to_unit) ->
        (forall k, In k (Dict.keys kwargs) -> In k ["value"; "from_unit"; "to_unit"]) ->
        AzureOpenAIClient.execute_tool_call rt
          (Some (MCPToolRegistry.init rt
                   (Tools.modelled rt fmt path fs base_path search_content))) tc
        = Returned (Turn.result (Response.id tc) "convert_distance"
                      ("Error executing tool: " ++ repr_str fmt from_unit))).
Proof.
  assert (Hunknown : from_unit <> to_unit -> ~ In from_unit Tools.distance_units ->
            Conversions.convert_distance rt fmt val from_unit to_unit
            = Raised (Failure "KeyError" (repr_str fmt from_unit))).
  { intros Hne Hfrom. unfold Conversions.convert_distance.
    destruct (String.eqb_spec from_unit to_unit); [contradiction|].
    now rewrite (subscript_unknown fmt Conversions.to_meters from_unit Hfrom). }
  split; [|split; [exact Hunknown|split]].
  - intros ->. unfold Conversions.convert_distance. now rewrite String.eqb_refl.
  - intros Hne Hto text. unfold Conversions.convert_distance.
    destruct (String.eqb_spec from_unit to_unit); [contradiction|].
    destruct (Conversions.subscript fmt Conversions.to_meters from_unit); cbn [obind];
      [|discriminate].
    destruct (arith rt Mul val (VFloat a)); cbn [obind]; [|discriminate].
    rewrite (subscript_unknown fmt Conversions.from_meters to_unit Hto). discriminate.
  - intros Hne Hfrom path fs base_path search_content tc kwargs
      Hname Hannounced Hval Hfu Htu Hkeys.
    rewrite (execute_tool_call_announced rt _ _ _ Hannounced).
    cbn [AzureOpenAIClient.get_tool obind]. rewrite Hname.
    unfold AzureOpenAIClient.tool_result. rewrite Hname.
    change (MCPToolRegistry.get_tool
              (MCPToolRegistry.init rt
                 (Tools.modelled rt fmt path fs base_path search_content))
              "convert_distance")
      with (Some {| function := Conversions.convert_distance_callable rt fmt;
                    description := "Convert distance (m, ft, mi, km)";
                    parameters := ["value"; "from_unit"; "to_unit"] |}).
    cbv beta iota.
    unfold AzureOpenAIClient.call_tool.
    cbn [AzureOpenAIClient.mem existsb String.eqb Ascii.eqb Bool.eqb orb
         Call.starstar obind function].
    unfold Conversions.convert_distance_callable. cbn [call].
    rewrite (bind_keywords "CalculatorTools.convert_distance"
               [("value", None); ("from_unit", None); ("to_unit", None)] kwargs
               [val; VStr from_unit; VStr to_unit]).
    + cbn [obind]. rewrite (Hunknown Hne Hfrom). reflexivity.
    + exact Hkeys.
    + repeat constructor; cbn [fst snd]; auto.
Qed.

Lemma distance_units_must_be_known_witness :
  Conversions.convert_distance Sample.rt Tools.sample_formatting (VInt 5) "yd" "yd"
  = Returned ("Result: 5 yd" ++ nl ++ "(No conversion needed)")
  /\ Conversions.convert_distance Sample.rt Tools.sample_formatting (VInt 5) "yd" "m"
     = Raised (Failure "KeyError" "'yd'")
  /\ (forall text,
         Conversions.convert_distance Sample.rt Tools.sample_formatting (VInt 5) "m" "yd"
         <> Returned text)
  /\ AzureOpenAIClient.execute_tool_call Sample.rt
       (Some (MCPToolRegistry.init Sample.rt
                (Tools.modelled Sample.rt Tools.sample_formatting string SampleFiles.fs
                   SampleFiles.base_path (search_content Sample.ext))))
       (Sample.tool_call "call_1" "convert_distance" Tools.five_yards_to_m)
     = Returned (Turn.result "call_1" "convert_distance" "Error executing tool: 'yd'").
Proof.
  pose proof (distance_units_must_be_known Sample.rt Tools.sample_formatting (VInt 5)
                "yd" "yd") as [Hsame _].
  pose proof (distance_units_must_be_known Sample.rt Tools.sample_formatting (VInt 5)
                "yd" "m") as [_ [Hfrom [_ Hcall]]].
  pose proof (distance_units_must_be_known Sample.rt Tools.sample_formatting (VInt 5)
                "m" "yd") as [_ [_ [Hto _]]].
  assert (Hyd : ~ In "yd" Tools.distance_units)
    by (intros [H|[H|[H|[H|[]]]]]; discriminate H).
  split; [rewrite (Hsame eq_refl); reflexivity|]. split; [|split].
  - apply Hfrom; [discriminate|exact Hyd].
  - apply Hto; [discriminate|exact Hyd].
  - apply (Hcall ltac:(discriminate) Hyd string SampleFiles.fs SampleFiles.base_path
             (search_content Sample.ext)
             (Sample.tool_call "call_1" "convert_distance" Tools.five_yards_to_m)
             [("value", VInt 5); ("from_unit", VStr "yd"); ("to_unit", VStr "m")]).
    + reflexivity.
    + split; [vm_compute; reflexivity|]. eexists. split; reflexivity.
    + reflexivity.
    + reflexivity.
    + reflexivity.
    + cbn. intros k H. exact H.
Defined.

(** ** A round with a division by zero *)

(** X20. A round with a division by zero that runs to its end.  When
    every iteration of the round reaches the lookup of its tool, and one
    of the calls is a call of the registry's [divide] by keyword with a
    divisor equal to zero, the dispatch appends one answer per call,
    among them the tool-result turn "Error: Division by zero"; the second
    backend call is then issued, and when it returns a message, that
    message is appended as the final assistant turn and its text is
    returned. *)
Theorem division_by_zero_is_reported (rt : runtime) (ext : external_tools)
    (create : backend) (message : string) (use_tools : bool)
    (temperature : spec_float) (max_tokens : Z) (w : world)
    (response : Response.completion) (choice : Response.choice)
    (rest : list Response.choice) (calls : list Response.tool_call)
    (tc : Response.tool_call) (kwargs : list (string * value))
    (a b precision : value) :
  let registry := MCPToolRegistry.init rt ext in
  let rq1 := first_request w message (Some registry) use_tools temperature max_tokens in
  create (sent w) rq1 = Returned response ->
  Response.choices response = choice :: rest ->
  Response.tool_calls (Response.message_of choice) = Some calls ->
  Forall (reaches_lookup rt) calls ->
  In tc calls ->
  Response.name (Response.function tc) = "divide" ->
  announced rt tc (VDict kwargs) ->
  Call.bind "CalculatorTools.divide"
    [("a", None); ("b", None); ("precision", Some (VInt 2))] [] kwargs
  = Returned [a; b; precision] ->
  eq_zero b = true ->
  exists results,
    Forall2 answers calls results
    /\ In (Turn.result (Response.id tc) "divide" "Error: Division by zero") results
    /\ let round := user_turn message
                    :: requesting_turn (Response.message_of choice) calls
                    :: results in
       let w2 := push (received w rq1) round in
       let rq2 := second_request w2 temperature max_tokens in
       forall final_response final_choice final_rest,
         create (sent w ++ [rq1])%list rq2 = Returned final_response ->
         Response.choices final_response = final_choice :: final_rest ->
         AzureOpenAIClient.chat rt create message (Some registry) use_tools
           temperature max_tokens w
         = (Returned (Response.content (Response.message_of final_choice)),
            push (received w2 rq2)
                 [Turn.plain "assistant"
                    (Response.content (Response.message_of final_choice))]).
Proof.
  intros registry rq1 H1 Hc Ht Hreach Hin Hname Hargs Hbind Hzero.
  destruct (execute_tool_calls_returns rt registry calls Hreach) as [results Hres].
  exists results. split; [now apply execute_tool_calls_pairing in Hres|].
  split.
  - apply (execute_tool_calls_in rt (Some registry) calls results tc); try assumption.
    now apply (execute_divide_by_zero rt ext tc kwargs a b precision).
  - cbn zeta. intros final_response final_choice final_rest H2 Hfc.
    rewrite chat_run. cbn zeta. fold registry. fold rq1. rewrite H1, Hc, Ht.
    destruct calls as [|tc0 tcs]; [destruct Hin|].
    rewrite handle_tool_calls_run, Hres. cbn zeta.
    rewrite !push_push, push_received_push. cbn [app].
    change (sent (push (received w rq1)
                       (user_turn message
                        :: requesting_turn (Response.message_of choice) (tc0 :: tcs)
                        :: results)))
      with (sent w ++ [rq1])%list.
    now rewrite H2, Hfc.
Qed.

Lemma division_by_zero_is_reported_witness :
  let tc := Sample.tool_call "call_1" "divide" Sample.divide_10_by_0 in
  let create := Sample.scripted
                  (Returned (Sample.completion None (Some [tc])))
                  (Returned (Sample.completion (Some "Dividing by zero is undefined.") None)) in
  let rq1 := first_request Sample.fresh "divide 10 by 0" (Some Sample.registry) true
               Sample.cold 2000 in
  exists results,
    Forall2 answers [tc] results
    /\ In (Turn.result "call_1" "divide" "Error: Division by zero") results
    /\ let w2 := push (received Sample.fresh rq1)
                      (user_turn "divide 10 by 0"
                       :: Turn.requesting None [AzureOpenAIClient.call_of tc]
                       :: results) in
       AzureOpenAIClient.chat Sample.rt create "divide 10 by 0"
         (Some Sample.registry) true Sample.cold 2000 Sample.fresh
       = (Returned (Some "Dividing by zero is undefined."),
          push (received w2 (second_request w2 Sample.cold 2000))
               [Turn.plain "assistant" (Some "Dividing by zero is undefined.")]).
Proof.
  cbn zeta.
  assert (Hargs : announced Sample.rt
                    (Sample.tool_call "call_1" "divide" Sample.divide_10_by_0)
                    (VDict [("a", VInt 10); ("b", VInt 0)]))
    by (split; [reflexivity|]; eexists; split; reflexivity).
  destruct (division_by_zero_is_reported Sample.rt Sample.ext
              (Sample.scripted
                 (Returned (Sample.completion None
                    (Some [Sample.tool_call "call_1" "divide" Sample.divide_10_by_0])))
                 (Returned (Sample.completion (Some "Dividing by zero is undefined.") None)))
              "divide 10 by 0" true Sample.cold 2000 Sample.fresh
              (Sample.completion None
                 (Some [Sample.tool_call "call_1" "divide" Sample.divide_10_by_0]))
              {| Response.message_of :=
                   {| Response.content := None;
                      Response.tool_calls :=
                        Some [Sample.tool_call "call_1" "divide" Sample.divide_10_by_0] |} |}
              []
              [Sample.tool_call "call_1" "divide" Sample.divide_10_by_0]
              (Sample.tool_call "call_1" "divide" Sample.divide_10_by_0)
              [("a", VInt 10); ("b", VInt 0)] (VInt 10) (VInt 0) (VInt 2)
              eq_refl eq_refl eq_refl
              (Forall_cons _ (ex_intro _ _ Hargs) (Forall_nil _))
              (or_introl eq_refl) eq_refl Hargs eq_refl eq_refl)
    as [results [Hpair [Hin Hrun]]].
  exists results. split; [exact Hpair|]. split; [exact Hin|].
  exact (Hrun _ _ _ eq_refl eq_refl).
Defined.
